(** * Video ingestion handlers: a shallow embedding and its properties

    The development embeds the two variants of [handlerUploadVideo]
    (the random-key variant of [src/api/videos.ts] and the variant that
    probes the geometry and rewrites the container for fast start) together
    with [getVideoAspectRatio] and [processVideoForFastStart], and the
    thumbnail handlers: the upload that stores thumbnails on disk, and the
    upload and the fetch that keep them in the memory of the process.

    - JavaScript numbers are IEEE-754 binary64 values ([spec_float] of the
      Standard Library, precision 53, maximal exponent 1024).
    - Strings are byte strings; the string operations of the handlers
      (concatenation, [split] on an ASCII separator, comparison) commute
      with the UTF-8 encoding.
    - The record store, the local file system and the object store are
      finite maps inside an explicit [World]; every external call appends an
      event to the world's trace, and its outcome (success, exit status,
      output) is read from a per-request record of outcomes.
    - A write, a rewrite or an upload that fails leaves its target as it
      was; [console.log] has no effect on the world and is left out.
    - The header values of a [Response] are kept as the Fetch standard
      says: without the HTTP whitespace around them, and refused when they
      hold NUL, a line feed or a carriage return.

    The statements about the handlers come first, then the arithmetic of
    the classification on doubles, proved against the exact rule on
    rationals. *)

From Stdlib Require Import ZArith QArith Qabs Lia Bool List Ascii String.
From Stdlib Require Import SpecFloat.
From stdpp Require Import gmap strings list fin_maps.

Open Scope Z_scope.

(* ===================================================================== *)
(** * JavaScript numbers *)
(* ===================================================================== *)

Module JsNumber.

Definition prec : Z := 53.
Definition emax : Z := 1024.

(** A JavaScript [Number]. *)
Abbreviation number := spec_float.

(** The number denoted by an integer literal or by an integer read by
    [JSON.parse] (exact below 2^53, rounded to nearest-even above). *)
Definition ofZ (z : Z) : number := binary_normalize prec emax z 0 false.

Definition div : number -> number -> number := SFdiv prec emax.
Definition sub : number -> number -> number := SFsub prec emax.
Definition abs : number -> number := SFabs.
Definition ltb : number -> number -> bool := SFltb.

Definition isFinite (x : number) : bool :=
  match x with
  | S754_zero _ | S754_finite _ _ _ => true
  | S754_infinity _ | S754_nan => false
  end.

(** The literal [0.1]: the double nearest to 1/10, which is what the
    correctly rounded quotient of the doubles 1 and 10 is. *)
Definition lit_0_1 : number := div (ofZ 1) (ofZ 10).

(** [ToInt32] and the shift [a << b] on 32-bit integers. *)
Definition toInt32 (z : Z) : Z :=
  let m := z mod 2 ^ 32 in
  if m <? 2 ^ 31 then m else m - 2 ^ 32.

Definition shl (a b : Z) : Z :=
  toInt32 (Z.shiftl (toInt32 a) (b mod 32)).

End JsNumber.

(* ===================================================================== *)
(** * Strings, paths and base64url *)
(* ===================================================================== *)

Module JsString.

(** [s.split(sep)] for a one-character separator. *)
Fixpoint split (sep : ascii) (s : string) : list string :=
  match s with
  | EmptyString => [EmptyString]
  | String c rest =>
      if Ascii.eqb c sep then EmptyString :: split sep rest
      else match split sep rest with
           | hd :: tl => String c hd :: tl
           | [] => [String c EmptyString]
           end
  end.

(** [l.join(sep)]. *)
Fixpoint join (sep : string) (l : list string) : string :=
  match l with
  | [] => ""
  | [x] => x
  | x :: rest => x +:+ sep +:+ join sep rest
  end.

(** [s.includes(c)] for a character. *)
Fixpoint includes (c : ascii) (s : string) : bool :=
  match s with
  | EmptyString => false
  | String d rest => Ascii.eqb d c || includes c rest
  end.

Definition startsWith (c : ascii) (s : string) : bool :=
  match s with
  | String d _ => Ascii.eqb d c
  | EmptyString => false
  end.

Fixpoint endsWith (c : ascii) (s : string) : bool :=
  match s with
  | EmptyString => false
  | String d EmptyString => Ascii.eqb d c
  | String _ rest => endsWith c rest
  end.

End JsString.

Module Path.

(** One step of POSIX [normalizeString]: the segments kept so far are
    held newest first. *)
Definition pushSegment (allowAboveRoot : bool) (stack : list string)
    (seg : string) : list string :=
  if String.eqb seg "" then stack
  else if String.eqb seg "." then stack
  else if String.eqb seg ".." then
    match stack with
    | top :: below =>
        if String.eqb top ".." then seg :: stack else below
    | [] => if allowAboveRoot then [seg] else []
    end
  else seg :: stack.

Definition normalizeString (path : string) (allowAboveRoot : bool) : string :=
  JsString.join "/"
    (rev (fold_left (pushSegment allowAboveRoot) (JsString.split "/" path) [])).

(** POSIX [path.normalize]. *)
Definition normalize (path : string) : string :=
  if String.eqb path "" then "."
  else
    let isAbsolute := JsString.startsWith "/" path in
    let trailingSeparator := JsString.endsWith "/" path in
    let p := normalizeString path (negb isAbsolute) in
    if String.eqb p "" then
      if isAbsolute then "/" else if trailingSeparator then "./" else "."
    else
      let p := if trailingSeparator then p +:+ "/" else p in
      if isAbsolute then "/" +:+ p else p.

(** POSIX [path.join]: the non-empty arguments are joined by "/" and the
    result is normalized. *)
Definition join (args : list string) : string :=
  let parts := List.filter (fun a => negb (String.eqb a "")) args in
  match parts with
  | [] => "."
  | _ => normalize (JsString.join "/" parts)
  end.

End Path.

Module Base64url.

Definition alphabet : string :=
  "ABCDEFGHIJKLMNOPQRSTUVWXYZabcdefghijklmnopqrstuvwxyz0123456789-_".

Definition digit (n : N) : ascii :=
  match String.get (N.to_nat n) alphabet with
  | Some c => c
  | None => "_"%char
  end.

(** [Buffer.toString("base64url")]: six bits per character, no padding. *)
Fixpoint encodeN (bs : list N) : string :=
  match bs with
  | [] => ""
  | [a] =>
      String (digit (N.shiftr a 2))
        (String (digit (N.shiftl (N.land a 3) 4)) "")
  | [a; b] =>
      String (digit (N.shiftr a 2))
        (String (digit (N.lor (N.shiftl (N.land a 3) 4) (N.shiftr b 4)))
           (String (digit (N.shiftl (N.land b 15) 2)) ""))
  | a :: b :: c :: rest =>
      String (digit (N.shiftr a 2))
        (String (digit (N.lor (N.shiftl (N.land a 3) 4) (N.shiftr b 4)))
           (String (digit (N.lor (N.shiftl (N.land b 15) 2) (N.shiftr c 6)))
              (String (digit (N.land c 63)) (encodeN rest))))
  end.

Definition encode (bs : list Byte.byte) : string :=
  encodeN (map Byte.to_N bs).

End Base64url.

(* ===================================================================== *)
(** * Errors, records and the world *)
(* ===================================================================== *)

(** The exceptions a handler can end with.  The first three are the
    classes the handlers construct themselves; [Error] is the plain
    JavaScript [Error]; [Rejected] stands for whatever a collaborator or
    the runtime raises (an I/O rejection, a [SyntaxError] of [JSON.parse],
    an authentication error). *)
Inductive JsError : Type :=
| BadRequestError (message : string)
| NotFoundError (message : string)
| UserForbiddenError (message : string)
| Error (message : string)
| Rejected (name : string).

Inductive Result (A : Type) : Type :=
| Ok (a : A)
| Throw (e : JsError).
Arguments Ok {A} a.
Arguments Throw {A} e.

(** Modelled from the spec: the [Video] type of the record store is
    declared in [db/videos], which is not part of the sources at hand.
    The spec lists an identity, an owning user, a nullable playback URL, a
    nullable thumbnail URL and further descriptive fields. *)
Record Video : Type := {
  id : string;
  userID : string;
  videoURL : option string;
  thumbnailURL : option string;
  descriptive : list (string * string)
}.

(** The assignment [video.videoURL = url]. *)
Definition set_videoURL (video : Video) (url : string) : Video :=
  {| id := id video;
     userID := userID video;
     videoURL := Some url;
     thumbnailURL := thumbnailURL video;
     descriptive := descriptive video |}.

(** The content of a local file or of a stored object: the bytes of an
    upload, or the fast-start rewrite of some content. *)
Inductive Blob : Type :=
| Raw (bytes : string)
| FastStart (source : Blob).

(** A [File] of a multipart form. *)
Record File : Type := {
  size : Z;
  type : string;
  bytes : string
}.

Inductive FormValue : Type :=
| FormString (s : string)
| FormFile (f : File).

Record Request : Type := {
  params_videoId : option string;
  headers : list (string * string);
  (** [None]: the body is not a readable form, [req.formData()] rejects. *)
  body : option (list (string * FormValue))
}.

Record ApiConfig : Type := {
  jwtSecret : string;
  s3Bucket : string;
  s3Region : string
}.

Record Response : Type := {
  status : Z;
  payload : Video
}.

Definition respondWithJSON (status : Z) (video : Video) : Response :=
  {| status := status; payload := video |}.

(** The geometry classes of [getVideoAspectRatio]. *)
Inductive AspectRatio : Type := landscape | portrait | other.

Definition AspectRatio_toString (a : AspectRatio) : string :=
  match a with
  | landscape => "landscape"
  | portrait => "portrait"
  | other => "other"
  end.

(** What [JSON.parse] makes of the probe's standard output, as far as the
    handler reads it: [streams] may be missing, and each stream carries a
    numeric [width] and [height]. *)
Record Stream : Type := {
  width : JsNumber.number;
  height : JsNumber.number
}.

Record ProbeOutput : Type := {
  streams : option (list Stream)
}.

(** Every call that leaves the process, in the order the calls are made. *)
Inductive Event : Type :=
| EvWrite (path : string) (ok : bool)
| EvSpawn (argv : list string) (exited : Z)
| EvUpload (key path contentType : string) (ok : bool)
| EvUpdate (video : Video) (ok : bool)
| EvRm (path : string) (ok : bool).

Record World : Type := {
  db : gmap string Video;
  tmpfs : gmap string Blob;
  bucket : gmap string (Blob * string);
  trace : list Event
}.

(** The pure collaborators of the handlers, none of which is part of the
    sources at hand: they are parameters of the embedding. *)
Record Collaborators : Type := {
  getBearerToken : list (string * string) -> Result string;
  validateJWT : string -> string -> Result string;
  mediaTypeToExt : string -> Result string
}.

(** The outcomes of the external calls of one request.  Each call is made
    at most once per request, so a record of outcomes covers every
    behaviour of the collaborators. *)
Record Outcomes : Type := {
  write_ok : bool;
  ffprobe_exited : Z;
  ffprobe_stdout : option ProbeOutput;
  ffprobe_stderr : string;
  ffmpeg_exited : Z;
  ffmpeg_stderr : string;
  s3_ok : bool;
  update_ok : bool;
  rm_staged_ok : bool;
  rm_processed_ok : bool;
  random : nat -> Byte.byte
}.

(* ===================================================================== *)
(** * The monad of the handlers: state and exceptions *)
(* ===================================================================== *)

Definition M (A : Type) : Type := World -> Result A * World.

Definition ret {A} (a : A) : M A := fun w => (Ok a, w).

Definition throw {A} (e : JsError) : M A := fun w => (Throw e, w).

Definition bind {A B} (m : M A) (k : A -> M B) : M B :=
  fun w =>
    match m w with
    | (Ok a, w') => k a w'
    | (Throw e, w') => (Throw e, w')
    end.

Notation "x <-- m ;; k" := (bind m (fun x => k))
  (at level 100, m at next level, right associativity).

Definition lift {A} (r : Result A) : M A := fun w => (r, w).

(** Runs [m] and hands its result over instead of raising. *)
Definition settle {A} (m : M A) : M (Result A) :=
  fun w => let '(r, w') := m w in (Ok r, w').

Definition log (e : Event) (w : World) : World :=
  {| db := db w; tmpfs := tmpfs w; bucket := bucket w;
     trace := trace w ++ [e] |}.

Definition set_tmpfs (fs : gmap string Blob) (w : World) : World :=
  {| db := db w; tmpfs := fs; bucket := bucket w; trace := trace w |}.

Definition set_bucket (b : gmap string (Blob * string)) (w : World) : World :=
  {| db := db w; tmpfs := tmpfs w; bucket := b; trace := trace w |}.

Definition set_db (d : gmap string Video) (w : World) : World :=
  {| db := d; tmpfs := tmpfs w; bucket := bucket w; trace := trace w |}.

(** The first rejection among settled promises, if any. *)
Fixpoint firstRejection (rs : list (Result unit)) : Result unit :=
  match rs with
  | [] => Ok tt
  | Ok _ :: rest => firstRejection rest
  | Throw e :: _ => Throw e
  end.

Fixpoint settleAll (ms : list (M unit)) : M (list (Result unit)) :=
  match ms with
  | [] => ret []
  | m :: rest =>
      r <-- settle m ;;
      rs <-- settleAll rest ;;
      ret (r :: rs)
  end.

(** [await Promise.all([...])]: every operation of the array has been
    started and takes its effect; the await raises the first rejection. *)
Definition Promise_all (ms : list (M unit)) : M unit :=
  rs <-- settleAll ms ;;
  lift (firstRejection rs).

(* ===================================================================== *)
(** * Runtime and collaborator operations *)
(* ===================================================================== *)

(** [FormData.get(name)]: the first value under the name. *)
Fixpoint FormData_get (form : list (string * FormValue)) (name : string)
    : option FormValue :=
  match form with
  | [] => None
  | (k, v) :: rest => if String.eqb k name then Some v else FormData_get rest name
  end.

Definition formData (req : Request) : M (list (string * FormValue)) :=
  match body req with
  | Some form => ret form
  | None => throw (Rejected "TypeError")
  end.

(** Modelled from the spec: [getVideo] of [db/videos] is not part of the
    sources at hand; the record store offers [get(id) -> Record | not-found]. *)
Definition getVideo (videoId : string) : M (option Video) :=
  fun w => (Ok (db w !! videoId), w).

(** Modelled from the spec: [updateVideo] of [db/videos] is not part of the
    sources at hand; the record store offers [update(Record) -> ok | error],
    a single-row update keyed by the record's identity. *)
Definition updateRow (video : Video) (d : gmap string Video) : gmap string Video :=
  match d !! id video with
  | Some _ => <[id video := video]> d
  | None => d
  end.

Definition updateVideo (ok : bool) (video : Video) : M unit :=
  fun w =>
    if ok then
      (Ok tt, log (EvUpdate video true) (set_db (updateRow video (db w)) w))
    else (Throw (Rejected "SQLiteError"), log (EvUpdate video false) w).

(** [Bun.write(path, file)]. *)
Definition Bun_write (ok : bool) (path : string) (file : File) : M unit :=
  fun w =>
    if ok then
      (Ok tt, log (EvWrite path true)
                (set_tmpfs (<[path := Raw (bytes file)]> (tmpfs w)) w))
    else (Throw (Rejected "SystemError"), log (EvWrite path false) w).

(** [rm(path, { force: true })]: an absent path is not an error. *)
Definition rm_force (ok : bool) (path : string) : M unit :=
  fun w =>
    if ok then
      (Ok tt, log (EvRm path true) (set_tmpfs (delete path (tmpfs w)) w))
    else (Throw (Rejected "SystemError"), log (EvRm path false) w).

(** Modelled from the spec: [uploadVideoToS3] of [s3] is not part of the
    sources at hand; it uploads the file's full current contents under
    exactly the destination key with the content type, and the store has
    the complete object or none of it. *)
Definition uploadVideoToS3 (ok : bool) (cfg : ApiConfig)
    (key path contentType : string) : M unit :=
  fun w =>
    match tmpfs w !! path with
    | Some content =>
        if ok then
          (Ok tt, log (EvUpload key path contentType true)
                    (set_bucket (<[key := (content, contentType)]> (bucket w)) w))
        else (Throw (Rejected "S3Error"), log (EvUpload key path contentType false) w)
    | None => (Throw (Rejected "ENOENT"), log (EvUpload key path contentType false) w)
    end.

(** [Bun.spawn] of the inspection tool followed by the awaits of its
    output and exit status. *)
Definition spawn_ffprobe (o : Outcomes) (argv : list string)
    : M (option ProbeOutput * string * Z) :=
  fun w =>
    (Ok (ffprobe_stdout o, ffprobe_stderr o, ffprobe_exited o),
     log (EvSpawn argv (ffprobe_exited o)) w).

(** [Bun.spawn] of the rewriting tool: with exit status 0 the output file
    holds the fast-start rewrite of the input file. *)
Definition spawn_ffmpeg (o : Outcomes) (argv : list string)
    (input output : string) : M (string * Z) :=
  fun w =>
    let fs :=
      match ffmpeg_exited o =? 0, tmpfs w !! input with
      | true, Some content => <[output := FastStart content]> (tmpfs w)
      | _, _ => tmpfs w
      end in
    (Ok (ffmpeg_stderr o, ffmpeg_exited o),
     log (EvSpawn argv (ffmpeg_exited o)) (set_tmpfs fs w)).

(** [randomBytes(n)]. *)
Definition randomBytes (o : Outcomes) (n : nat) : list Byte.byte :=
  map (random o) (seq 0 n).

(** The public URL of an object. *)
Definition objectURL (cfg : ApiConfig) (key : string) : string :=
  "https://" +:+ s3Bucket cfg +:+ ".s3." +:+ s3Region cfg
    +:+ ".amazonaws.com/" +:+ key.

(* ===================================================================== *)
(** * The handler that probes and rewrites (orientation-prefixed keys) *)
(* ===================================================================== *)

Module OrientationPrefixed.

(** The classification at the end of [getVideoAspectRatio]:
    [ratio = width / height], then two strict comparisons. *)
Definition aspectRatio (width height : JsNumber.number) : AspectRatio :=
  let ratio := JsNumber.div width height in
  if JsNumber.ltb
       (JsNumber.abs (JsNumber.sub ratio (JsNumber.div (JsNumber.ofZ 16) (JsNumber.ofZ 9))))
       JsNumber.lit_0_1
  then landscape
  else if JsNumber.ltb
       (JsNumber.abs (JsNumber.sub ratio (JsNumber.div (JsNumber.ofZ 9) (JsNumber.ofZ 16))))
       JsNumber.lit_0_1
  then portrait
  else other.

Definition ffprobe_argv (inputFilePath : string) : list string :=
  ["ffprobe"; "-v"; "error"; "-select_streams"; "v:0"; "-show_entries";
   "stream=width,height"; "-of"; "json"; inputFilePath].

Definition getVideoAspectRatio (o : Outcomes) (inputFilePath : string)
    : M AspectRatio :=
  proc <-- spawn_ffprobe o (ffprobe_argv inputFilePath) ;;
  let '(stdoutText, stderrText, exited) := proc in
  if negb (exited =? 0) then throw (Error ("ffprobe error: " +:+ stderrText))
  else
    match stdoutText with
    | None => throw (Rejected "SyntaxError")
    | Some output =>
        match streams output with
        | None | Some [] => throw (Error "No video streams found")
        | Some (first :: _) => ret (aspectRatio (width first) (height first))
        end
    end.

(** The output path of the rewriter: the text before the first dot of the
    input path, followed by [.processed.mp4]. *)
Definition outputFilePath (inputFilePath : string) : string :=
  let key :=
    match JsString.split "." inputFilePath with
    | key :: _ => key
    | [] => "undefined"
    end in
  key +:+ ".processed.mp4".

Definition ffmpeg_argv (inputFilePath output : string) : list string :=
  ["ffmpeg"; "-i"; inputFilePath; "-movflags"; "faststart"; "-map_metadata";
   "0"; "-codec"; "copy"; "-f"; "mp4"; output].

Definition processVideoForFastStart (o : Outcomes) (inputFilePath : string)
    : M string :=
  let output := outputFilePath inputFilePath in
  proc <-- spawn_ffmpeg o (ffmpeg_argv inputFilePath output) inputFilePath output ;;
  let '(stderrText, exited) := proc in
  if negb (exited =? 0) then throw (Error ("FFmpeg error: " +:+ stderrText))
  else ret output.

Definition MAX_UPLOAD_SIZE : Z := JsNumber.shl 1 30.

Definition tempFilePath (videoId : string) : string :=
  Path.join ["/tmp"; videoId +:+ ".mp4"].

Definition handlerUploadVideo (env : Collaborators) (o : Outcomes)
    (cfg : ApiConfig) (req : Request) : M Response :=
  match params_videoId req with
  | None | Some "" => throw (BadRequestError "Invalid video ID")
  | Some videoId =>
      token <-- lift (getBearerToken env (headers req)) ;;
      userId <-- lift (validateJWT env token (jwtSecret cfg)) ;;
      found <-- getVideo videoId ;;
      match found with
      | None => throw (NotFoundError "Video not found")
      | Some video =>
          if negb (String.eqb (userID video) userId)
          then throw (UserForbiddenError "Forbidden access to the video")
          else
            form <-- formData req ;;
            match FormData_get form "video" with
            | Some (FormFile videoFile) =>
                if size videoFile >? MAX_UPLOAD_SIZE
                then throw (BadRequestError
                              "Video file exceeds the maximum allowed size of 1GB")
                else
                  let mediaType := type videoFile in
                  if negb (String.eqb mediaType "video/mp4")
                  then throw (BadRequestError "Invalid file type. Only MP4 allowed.")
                  else
                    let tempFilePath := tempFilePath videoId in
                    _ <-- Bun_write (write_ok o) tempFilePath videoFile ;;
                    aspectRatio <-- getVideoAspectRatio o tempFilePath ;;
                    processedFilePath <-- processVideoForFastStart o tempFilePath ;;
                    let key :=
                      AspectRatio_toString aspectRatio +:+ "/" +:+ videoId +:+ ".mp4" in
                    _ <-- uploadVideoToS3 (s3_ok o) cfg key processedFilePath "video/mp4" ;;
                    let videoUrl := objectURL cfg key in
                    let video := set_videoURL video videoUrl in
                    _ <-- updateVideo (update_ok o) video ;;
                    _ <-- Promise_all
                            [rm_force (rm_staged_ok o) tempFilePath;
                             rm_force (rm_processed_ok o)
                               (tempFilePath +:+ ".processed.mp4")] ;;
                    ret (respondWithJSON 200 video)
            | _ => throw (BadRequestError "Video file missing")
            end
      end
  end.

End OrientationPrefixed.

(* ===================================================================== *)
(** * The handler of [src/api/videos.ts] (random opaque keys) *)
(* ===================================================================== *)

Module RandomOpaque.

Definition MAX_UPLOAD_SIZE : Z := JsNumber.shl 1 30.

Definition tempFilePath (videoId : string) : string :=
  Path.join ["/tmp"; videoId +:+ ".mp4"].

Definition handlerUploadVideo (env : Collaborators) (o : Outcomes)
    (cfg : ApiConfig) (req : Request) : M Response :=
  match params_videoId req with
  | None | Some "" => throw (BadRequestError "Invalid video ID")
  | Some videoId =>
      token <-- lift (getBearerToken env (headers req)) ;;
      userId <-- lift (validateJWT env token (jwtSecret cfg)) ;;
      found <-- getVideo videoId ;;
      match found with
      | None => throw (NotFoundError "Video not found")
      | Some video =>
          if negb (String.eqb (userID video) userId)
          then throw (UserForbiddenError "Forbidden access to the video")
          else
            form <-- formData req ;;
            match FormData_get form "video" with
            | Some (FormFile videoFile) =>
                if size videoFile >? MAX_UPLOAD_SIZE
                then throw (BadRequestError
                              "Video file exceeds the maximum allowed size of 1GB")
                else
                  let mediaType := type videoFile in
                  if negb (String.eqb mediaType "video/mp4")
                  then throw (BadRequestError "Invalid file type. Only MP4 allowed.")
                  else
                    ext <-- lift (mediaTypeToExt env mediaType) ;;
                    let filename := Base64url.encode (randomBytes o 32) +:+ ext in
                    let tempFilePath := tempFilePath videoId in
                    _ <-- Bun_write (write_ok o) tempFilePath videoFile ;;
                    _ <-- uploadVideoToS3 (s3_ok o) cfg filename tempFilePath mediaType ;;
                    let videoUrl := objectURL cfg filename in
                    let video := set_videoURL video videoUrl in
                    _ <-- updateVideo (update_ok o) video ;;
                    _ <-- Promise_all [rm_force (rm_staged_ok o) tempFilePath] ;;
                    ret (respondWithJSON 200 video)
            | _ => throw (BadRequestError "Video file missing")
            end
      end
  end.

End RandomOpaque.

(* ===================================================================== *)
(** * A concrete request, used to run the handlers *)
(* ===================================================================== *)

Module Sample.

(** Modelled from the spec: [mediaTypeToExt] of [api/assets] is not part of
    the sources at hand; it maps [video/mp4] to [.mp4] and rejects any
    other media type with a bad-request error. *)
Definition extFor (mediaType : string) : Result string :=
  if String.eqb mediaType "video/mp4" then Ok ".mp4"
  else Throw (BadRequestError "Unsupported media type").

(** A token is accepted when it is the user's name behind [token-]. *)
Definition env : Collaborators :=
  {| getBearerToken := fun hs =>
       match hs with
       | ("Authorization", v) :: _ => Ok v
       | _ => Throw (BadRequestError "Malformed authorization header")
       end;
     validateJWT := fun token secret =>
       if String.eqb token "token-alice" then Ok "alice"
       else if String.eqb token "token-bob" then Ok "bob"
       else Throw (Rejected "UserNotAuthenticatedError");
     mediaTypeToExt := extFor |}.

Definition cfg : ApiConfig :=
  {| jwtSecret := "secret"; s3Bucket := "tubely"; s3Region := "us-east-2" |}.

Definition video : Video :=
  {| id := "abc";
     userID := "alice";
     videoURL := None;
     thumbnailURL := Some "http://localhost:8091/assets/abc.png";
     descriptive := [("title", "Holiday"); ("description", "At the sea")] |}.

Definition world : World :=
  {| db := {[ "abc" := video ]}; tmpfs := ∅; bucket := ∅; trace := [] |}.

Definition file (size : Z) (type : string) : File :=
  {| size := size; type := type; bytes := "ftyp-moov-mdat" |}.

Definition request (token : string) (f : File) : Request :=
  {| params_videoId := Some "abc";
     headers := [("Authorization", token)];
     body := Some [("video", FormFile f)] |}.

Definition goodRequest : Request := request "token-alice" (file 1000 "video/mp4").

Definition stream (w h : Z) : Stream :=
  {| width := JsNumber.ofZ w; height := JsNumber.ofZ h |}.

(** Every external call succeeds and the probe reports [w] x [h]. *)
Definition allGood (w h : Z) : Outcomes :=
  {| write_ok := true;
     ffprobe_exited := 0;
     ffprobe_stdout := Some {| streams := Some [stream w h] |};
     ffprobe_stderr := "";
     ffmpeg_exited := 0;
     ffmpeg_stderr := "";
     s3_ok := true;
     update_ok := true;
     rm_staged_ok := true;
     rm_processed_ok := true;
     random := fun n => match Byte.of_nat (7 * n + 3) with
                        | Some b => b
                        | None => Byte.x00
                        end |}.

(** The probe exits with status 1; everything else would succeed. *)
Definition probeFails : Outcomes :=
  {| write_ok := true;
     ffprobe_exited := 1;
     ffprobe_stdout := None;
     ffprobe_stderr := "moov atom not found";
     ffmpeg_exited := 0;
     ffmpeg_stderr := "";
     s3_ok := true;
     update_ok := true;
     rm_staged_ok := true;
     rm_processed_ok := true;
     random := fun _ => Byte.x00 |}.

(** The upload to the object store fails; everything else would succeed. *)
Definition uploadFails : Outcomes :=
  {| write_ok := true;
     ffprobe_exited := 0;
     ffprobe_stdout := Some {| streams := Some [stream 1280 720] |};
     ffprobe_stderr := "";
     ffmpeg_exited := 0;
     ffmpeg_stderr := "";
     s3_ok := false;
     update_ok := true;
     rm_staged_ok := true;
     rm_processed_ok := true;
     random := fun _ => Byte.x00 |}.

End Sample.

(* ===================================================================== *)
(** * Vocabulary of the statements *)
(* ===================================================================== *)

(** The classification rule in exact rational arithmetic, for an integer
    width and a positive integer height. *)
Definition exactAspectRatio (w : Z) (h : positive) : AspectRatio :=
  match Qabs ((w # h) - (16 # 9)) ?= (1 # 10) with
  | Lt => landscape
  | _ =>
      match Qabs ((w # h) - (9 # 16)) ?= (1 # 10) with
      | Lt => portrait
      | _ => other
      end
  end%Q.

(** What the probe yields from the outcomes of its process. *)
Definition probeResult (o : Outcomes) : Result AspectRatio :=
  if negb (ffprobe_exited o =? 0)
  then Throw (Error ("ffprobe error: " +:+ ffprobe_stderr o))
  else
    match ffprobe_stdout o with
    | None => Throw (Rejected "SyntaxError")
    | Some output =>
        match streams output with
        | None | Some [] => Throw (Error "No video streams found")
        | Some (first :: _) =>
            Ok (OrientationPrefixed.aspectRatio (width first) (height first))
        end
    end.

(** A request that passes every check made before staging. *)
Record Validated (env : Collaborators) (cfg : ApiConfig) (req : Request)
    (w : World) (videoId : string) (video : Video) (videoFile : File) : Prop := {
  valid_id : params_videoId req = Some videoId;
  valid_id_nonempty : videoId <> "";
  valid_auth : exists token,
      getBearerToken env (headers req) = Ok token /\
      validateJWT env token (jwtSecret cfg) = Ok (userID video);
  valid_found : db w !! videoId = Some video;
  valid_file : exists form,
      body req = Some form /\
      FormData_get form "video" = Some (FormFile videoFile);
  valid_size : size videoFile <= 2 ^ 30;
  valid_type : type videoFile = "video/mp4"
}.

Definition mkWorld (d : gmap string Video) (fs : gmap string Blob)
    (b : gmap string (Blob * string)) (tr : list Event) : World :=
  {| db := d; tmpfs := fs; bucket := b; trace := tr |}.

(** The outcome of the cleanup [Promise.all] of two removals. *)
Definition cleanupResult {A} (ok1 ok2 : bool) (a : A) : Result A :=
  if ok1 then if ok2 then Ok a else Throw (Rejected "SystemError")
  else Throw (Rejected "SystemError").

Definition removeIf (ok : bool) (path : string) (fs : gmap string Blob)
    : gmap string Blob :=
  if ok then delete path fs else fs.

Section OrientationPrefixedRuns.

Variables (o : Outcomes) (cfg : ApiConfig) (videoId : string)
  (video : Video) (videoFile : File) (w : World).

Definition op_staged : string := OrientationPrefixed.tempFilePath videoId.
Definition op_rewritten : string := OrientationPrefixed.outputFilePath op_staged.
Definition op_removed : string := op_staged +:+ ".processed.mp4".
Definition op_key (a : AspectRatio) : string :=
  AspectRatio_toString a +:+ "/" +:+ videoId +:+ ".mp4".
Definition op_record (a : AspectRatio) : Video :=
  set_videoURL video (objectURL cfg (op_key a)).

Definition op_fs1 : gmap string Blob :=
  <[op_staged := Raw (bytes videoFile)]> (tmpfs w).
Definition op_fs2 : gmap string Blob :=
  <[op_rewritten := FastStart (Raw (bytes videoFile))]> op_fs1.
Definition op_bucket (a : AspectRatio) : gmap string (Blob * string) :=
  <[op_key a := (FastStart (Raw (bytes videoFile)), "video/mp4")]> (bucket w).

Definition op_write (ok : bool) : Event := EvWrite op_staged ok.
Definition op_probe : Event :=
  EvSpawn (OrientationPrefixed.ffprobe_argv op_staged) (ffprobe_exited o).
Definition op_rewrite : Event :=
  EvSpawn (OrientationPrefixed.ffmpeg_argv op_staged op_rewritten) (ffmpeg_exited o).
Definition op_upload (a : AspectRatio) (ok : bool) : Event :=
  EvUpload (op_key a) op_rewritten "video/mp4" ok.
Definition op_commit (a : AspectRatio) (ok : bool) : Event :=
  EvUpdate (op_record a) ok.

(** The runs of the pipeline of the probing handler, one constructor per
    terminal state. *)
Inductive OP_run : Result Response * World -> Prop :=
| OP_staging_failed :
    write_ok o = false ->
    OP_run (Throw (Rejected "SystemError"),
            mkWorld (db w) (tmpfs w) (bucket w) (trace w ++ [op_write false]))
| OP_probe_failed e :
    write_ok o = true -> probeResult o = Throw e ->
    OP_run (Throw e,
            mkWorld (db w) op_fs1 (bucket w)
              (trace w ++ [op_write true; op_probe]))
| OP_rewrite_failed a :
    write_ok o = true -> probeResult o = Ok a -> ffmpeg_exited o <> 0 ->
    OP_run (Throw (Error ("FFmpeg error: " +:+ ffmpeg_stderr o)),
            mkWorld (db w) op_fs1 (bucket w)
              (trace w ++ [op_write true; op_probe; op_rewrite]))
| OP_upload_failed a :
    write_ok o = true -> probeResult o = Ok a -> ffmpeg_exited o = 0 ->
    s3_ok o = false ->
    OP_run (Throw (Rejected "S3Error"),
            mkWorld (db w) op_fs2 (bucket w)
              (trace w ++ [op_write true; op_probe; op_rewrite; op_upload a false]))
| OP_commit_failed a :
    write_ok o = true -> probeResult o = Ok a -> ffmpeg_exited o = 0 ->
    s3_ok o = true -> update_ok o = false ->
    OP_run (Throw (Rejected "SQLiteError"),
            mkWorld (db w) op_fs2 (op_bucket a)
              (trace w ++ [op_write true; op_probe; op_rewrite; op_upload a true;
                           op_commit a false]))
| OP_committed a :
    write_ok o = true -> probeResult o = Ok a -> ffmpeg_exited o = 0 ->
    s3_ok o = true -> update_ok o = true ->
    OP_run (cleanupResult (rm_staged_ok o) (rm_processed_ok o)
              (respondWithJSON 200 (op_record a)),
            mkWorld (updateRow (op_record a) (db w))
              (removeIf (rm_processed_ok o) op_removed
                 (removeIf (rm_staged_ok o) op_staged op_fs2))
              (op_bucket a)
              (trace w ++ [op_write true; op_probe; op_rewrite; op_upload a true;
                           op_commit a true;
                           EvRm op_staged (rm_staged_ok o);
                           EvRm op_removed (rm_processed_ok o)])).

End OrientationPrefixedRuns.

Section RandomOpaqueRuns.

Variables (o : Outcomes) (cfg : ApiConfig) (videoId : string)
  (video : Video) (videoFile : File) (ext : string) (w : World).

Definition ro_staged : string := RandomOpaque.tempFilePath videoId.
Definition ro_key : string := Base64url.encode (randomBytes o 32) +:+ ext.
Definition ro_record : Video := set_videoURL video (objectURL cfg ro_key).
Definition ro_fs1 : gmap string Blob :=
  <[ro_staged := Raw (bytes videoFile)]> (tmpfs w).
Definition ro_bucket : gmap string (Blob * string) :=
  <[ro_key := (Raw (bytes videoFile), "video/mp4")]> (bucket w).
Definition ro_write (ok : bool) : Event := EvWrite ro_staged ok.
Definition ro_upload (ok : bool) : Event :=
  EvUpload ro_key ro_staged "video/mp4" ok.
Definition ro_commit (ok : bool) : Event := EvUpdate ro_record ok.

(** The runs of the pipeline of [src/api/videos.ts]. *)
Inductive RO_run : Result Response * World -> Prop :=
| RO_staging_failed :
    write_ok o = false ->
    RO_run (Throw (Rejected "SystemError"),
            mkWorld (db w) (tmpfs w) (bucket w) (trace w ++ [ro_write false]))
| RO_upload_failed :
    write_ok o = true -> s3_ok o = false ->
    RO_run (Throw (Rejected "S3Error"),
            mkWorld (db w) ro_fs1 (bucket w)
              (trace w ++ [ro_write true; ro_upload false]))
| RO_commit_failed :
    write_ok o = true -> s3_ok o = true -> update_ok o = false ->
    RO_run (Throw (Rejected "SQLiteError"),
            mkWorld (db w) ro_fs1 ro_bucket
              (trace w ++ [ro_write true; ro_upload true; ro_commit false]))
| RO_committed :
    write_ok o = true -> s3_ok o = true -> update_ok o = true ->
    RO_run ((if rm_staged_ok o then Ok (respondWithJSON 200 ro_record)
             else Throw (Rejected "SystemError")),
            mkWorld (updateRow ro_record (db w))
              (removeIf (rm_staged_ok o) ro_staged ro_fs1)
              ro_bucket
              (trace w ++ [ro_write true; ro_upload true; ro_commit true;
                           EvRm ro_staged (rm_staged_ok o)])).

End RandomOpaqueRuns.

(** The events a run appends to the trace. *)
Definition newEvents (w w' : World) : list Event :=
  drop (length (trace w)) (trace w').

(** The terminal states of the ingestion state machine: [Committed], or
    [Failed] at the stage that could not be completed. *)
Inductive Stage : Type := Staging | Probe | Rewrite | Upload | Commit.

Inductive Terminal : Type :=
| Committed
| Failed (stage : Stage).

(** The content an ingestion of the request may place in the object store:
    the bytes of the form's [video] file, rewritten for fast start or not. *)
Definition payloadOf (req : Request) (content : Blob) : Prop :=
  exists form videoFile,
    body req = Some form /\
    FormData_get form "video" = Some (FormFile videoFile) /\
    (content = Raw (bytes videoFile) \/ content = FastStart (Raw (bytes videoFile))).

(** The events of the probing pipeline up to a terminal state: staging,
    probe of the staged file, rewrite of the staged file, upload of the
    rewritten file under the key, commit of the record carrying the URL of
    the key, and after the commit the two removals. *)
Definition op_events (o : Outcomes) (cfg : ApiConfig) (videoId : string)
    (video : Video) (a : AspectRatio) (t : Terminal) : list Event :=
  match t with
  | Failed Staging => [op_write videoId false]
  | Failed Probe => [op_write videoId true; op_probe o videoId]
  | Failed Rewrite =>
      [op_write videoId true; op_probe o videoId; op_rewrite o videoId]
  | Failed Upload =>
      [op_write videoId true; op_probe o videoId; op_rewrite o videoId;
       op_upload videoId a false]
  | Failed Commit =>
      [op_write videoId true; op_probe o videoId; op_rewrite o videoId;
       op_upload videoId a true; op_commit cfg videoId video a false]
  | Committed =>
      [op_write videoId true; op_probe o videoId; op_rewrite o videoId;
       op_upload videoId a true; op_commit cfg videoId video a true;
       EvRm (op_staged videoId) (rm_staged_ok o);
       EvRm (op_removed videoId) (rm_processed_ok o)]
  end.

(** The events of the pipeline of [src/api/videos.ts] up to a terminal
    state; it has no probe and no rewrite stage. *)
Definition ro_events (o : Outcomes) (cfg : ApiConfig) (videoId : string)
    (video : Video) (ext : string) (t : Terminal) : option (list Event) :=
  match t with
  | Failed Staging => Some [ro_write videoId false]
  | Failed Upload => Some [ro_write videoId true; ro_upload o videoId ext false]
  | Failed Commit =>
      Some [ro_write videoId true; ro_upload o videoId ext true;
            ro_commit o cfg video ext false]
  | Committed =>
      Some [ro_write videoId true; ro_upload o videoId ext true;
            ro_commit o cfg video ext true;
            EvRm (ro_staged videoId) (rm_staged_ok o)]
  | Failed Probe | Failed Rewrite => None
  end.

(** The terminal state the outcomes of the external calls lead to, and the
    geometry the probe reports, for the probing pipeline. *)
Definition op_terminal (o : Outcomes) : Terminal :=
  if negb (write_ok o) then Failed Staging
  else
    match probeResult o with
    | Throw _ => Failed Probe
    | Ok _ =>
        if negb (ffmpeg_exited o =? 0) then Failed Rewrite
        else if negb (s3_ok o) then Failed Upload
        else if negb (update_ok o) then Failed Commit
        else Committed
    end.

Definition op_geometry (o : Outcomes) : AspectRatio :=
  match probeResult o with
  | Ok a => a
  | Throw _ => other
  end.

(** The same for the pipeline of [src/api/videos.ts]. *)
Definition ro_terminal (o : Outcomes) : Terminal :=
  if negb (write_ok o) then Failed Staging
  else if negb (s3_ok o) then Failed Upload
  else if negb (update_ok o) then Failed Commit
  else Committed.

(** The two variants of the upload-video handler. *)
Definition Handler : Type :=
  Collaborators -> Outcomes -> ApiConfig -> Request -> M Response.

Definition handlers : list Handler :=
  [OrientationPrefixed.handlerUploadVideo; RandomOpaque.handlerUploadVideo].

(** What any run of either handler leaves behind: nothing at all when the
    request is turned away, and otherwise a run of its pipeline. *)
Inductive Summary (env : Collaborators) (o : Outcomes) (cfg : ApiConfig)
    (req : Request) (w : World) (run : Result Response * World) : Prop :=
| Turned_away e :
    run = (Throw e, w) -> Summary env o cfg req w run
| Ran_probing videoId video videoFile :
    Validated env cfg req w videoId video videoFile ->
    OP_run o cfg videoId video videoFile w run ->
    Summary env o cfg req w run
| Ran_plain videoId video videoFile ext :
    Validated env cfg req w videoId video videoFile ->
    mediaTypeToExt env "video/mp4" = Ok ext ->
    RO_run o cfg videoId video videoFile ext w run ->
    Summary env o cfg req w run.

(** The tolerance test of the classification on doubles: the rounded
    distance of the ratio from the target is strictly below the double
    [0.1]. *)
Definition near (ratio target : JsNumber.number) : bool :=
  JsNumber.ltb (JsNumber.abs (JsNumber.sub ratio target)) JsNumber.lit_0_1.

(** The doubles [16/9] and [9/16]. *)
Definition sixteenNinths : JsNumber.number :=
  JsNumber.div (JsNumber.ofZ 16) (JsNumber.ofZ 9).

Definition nineSixteenths : JsNumber.number :=
  JsNumber.div (JsNumber.ofZ 9) (JsNumber.ofZ 16).


(* ===================================================================== *)
(** * The thumbnail handlers *)
(* ===================================================================== *)

(** The assignment [video.thumbnailURL = url]. *)
Definition set_thumbnailURL (video : Video) (url : string) : Video :=
  {| id := id video;
     userID := userID video;
     videoURL := videoURL video;
     thumbnailURL := Some url;
     descriptive := descriptive video |}.

(** The functions the thumbnail handlers import from [api/assets] besides
    [mediaTypeToExt]; none of them is part of the sources at hand, so they
    are parameters of the embedding, and each of them may raise. *)
Record Assets : Type := {
  getAssetDiskPath : ApiConfig -> string -> Result string;
  getAssetUrl : ApiConfig -> string -> Result string;
  getInMemoryURL : ApiConfig -> string -> Result string
}.

(** The outcomes of the external calls of one thumbnail request: the write
    of the asset file, the read of the form file into a buffer and the
    update of the record store. *)
Record ThumbnailOutcomes : Type := {
  thumbnail_write_ok : bool;
  thumbnail_read_ok : bool;
  thumbnail_update_ok : bool
}.

(** ** The variant that stores thumbnails on disk *)

Module DiskThumbnail.

Definition MAX_UPLOAD_SIZE : Z := JsNumber.shl 10 20.

Definition handlerUploadThumbnail (env : Collaborators) (assets : Assets)
    (o : ThumbnailOutcomes) (cfg : ApiConfig) (req : Request) : M Response :=
  match params_videoId req with
  | None | Some "" => throw (BadRequestError "Invalid video ID")
  | Some videoId =>
      token <-- lift (getBearerToken env (headers req)) ;;
      userId <-- lift (validateJWT env token (jwtSecret cfg)) ;;
      form <-- formData req ;;
      match FormData_get form "thumbnail" with
      | Some (FormFile thumbnail) =>
          if size thumbnail >? MAX_UPLOAD_SIZE
          then throw (BadRequestError
                        "Thumbnail file exceeds the maximum allowed size of 10MB")
          else
            let mediaType := type thumbnail in
            if negb (String.eqb mediaType "image/jpeg")
               && negb (String.eqb mediaType "image/png")
            then throw (BadRequestError "Invalid file type. Only JPEG or PNG allowed.")
            else
              found <-- getVideo videoId ;;
              match found with
              | None => throw (NotFoundError "Video not found")
              | Some video =>
                  if negb (String.eqb (userID video) userId)
                  then throw (UserForbiddenError "Forbidden access to the video")
                  else
                    ext <-- lift (mediaTypeToExt env mediaType) ;;
                    let filename := videoId +:+ ext in
                    assetDiskPath <-- lift (getAssetDiskPath assets cfg filename) ;;
                    _ <-- Bun_write (thumbnail_write_ok o) assetDiskPath thumbnail ;;
                    urlPath <-- lift (getAssetUrl assets cfg filename) ;;
                    let video := set_thumbnailURL video urlPath in
                    _ <-- updateVideo (thumbnail_update_ok o) video ;;
                    ret (respondWithJSON 200 video)
              end
      | _ => throw (BadRequestError "Thumbnail file missing")
      end
  end.

End DiskThumbnail.

(** ** The variant that keeps thumbnails in the memory of the process *)

Record Thumbnail : Type := {
  data : string;
  mediaType : string
}.

(** The state the in-memory variant runs on: the world outside the
    process, and the module-level map [videoThumbnails], which every
    request of the process shares. *)
Record Process : Type := {
  outside : World;
  videoThumbnails : gmap string Thumbnail
}.

Definition MP (A : Type) : Type := Process -> Result A * Process.

Definition retP {A} (a : A) : MP A := fun s => (Ok a, s).

Definition throwP {A} (e : JsError) : MP A := fun s => (Throw e, s).

Definition bindP {A B} (m : MP A) (k : A -> MP B) : MP B :=
  fun s =>
    match m s with
    | (Ok a, s') => k a s'
    | (Throw e, s') => (Throw e, s')
    end.

Notation "x <~~ m ;; k" := (bindP m (fun x => k))
  (at level 100, m at next level, right associativity).

Definition liftP {A} (r : Result A) : MP A := fun s => (r, s).

(** An operation on the world outside, run inside the process. *)
Definition onWorld {A} (m : M A) : MP A :=
  fun s =>
    let '(r, w') := m (outside s) in
    (r, {| outside := w'; videoThumbnails := videoThumbnails s |}).

(** [videoThumbnails.get(key)] and [videoThumbnails.set(key, value)]. *)
Definition videoThumbnails_get (key : string) : MP (option Thumbnail) :=
  fun s => (Ok (videoThumbnails s !! key), s).

Definition videoThumbnails_set (key : string) (value : Thumbnail) : MP unit :=
  fun s =>
    (Ok tt, {| outside := outside s;
               videoThumbnails := <[key := value]> (videoThumbnails s) |}).

(** [await file.arrayBuffer()]: the bytes of the file, or a rejection. *)
Definition arrayBuffer (ok : bool) (file : File) : MP string :=
  if ok then retP (bytes file) else throwP (Rejected "SystemError").

(** The values of the headers of a [Response], as the Fetch standard
    defines them and [new Response(body, { headers })] applies them to each
    value it is given. *)
Module HttpHeaders.

Definition code (c : ascii) : N := N_of_ascii c.

(** HTTP whitespace: tab, line feed, carriage return and space. *)
Definition isWhitespace (c : ascii) : bool :=
  (code c =? 9)%N || (code c =? 10)%N || (code c =? 13)%N || (code c =? 32)%N.

Fixpoint trimStart (s : string) : string :=
  match s with
  | EmptyString => EmptyString
  | String c rest => if isWhitespace c then trimStart rest else s
  end.

Fixpoint trimEnd (s : string) : string :=
  match s with
  | EmptyString => EmptyString
  | String c rest =>
      let kept := trimEnd rest in
      if isWhitespace c && String.eqb kept "" then EmptyString
      else String c kept
  end.

(** A value is normalized: its leading and trailing HTTP whitespace is
    removed. *)
Definition normalize (value : string) : string := trimEnd (trimStart value).

(** What no header value may hold: NUL, line feed, carriage return, and a
    code point above U+00FF, which no [ByteString] has; in the UTF-8 bytes
    of a string such a code point has a byte of 196 or more. *)
Definition isRefused (c : ascii) : bool :=
  (code c =? 0)%N || (code c =? 10)%N || (code c =? 13)%N || (196 <=? code c)%N.

Fixpoint some (p : ascii -> bool) (s : string) : bool :=
  match s with
  | EmptyString => false
  | String c rest => p c || some p rest
  end.

(** The value kept for a given value, or the [TypeError] of a value that
    is refused. *)
Definition value (given : string) : Result string :=
  let v := normalize given in
  if some isRefused v then Throw (Rejected "TypeError") else Ok v.

(** The values kept for a list of headers, in the order given. *)
Fixpoint fill (given : list (string * string)) : Result (list (string * string)) :=
  match given with
  | [] => Ok []
  | (name, v) :: rest =>
      match value v with
      | Throw e => Throw e
      | Ok kept =>
          match fill rest with
          | Throw e => Throw e
          | Ok others => Ok ((name, kept) :: others)
          end
      end
  end.

End HttpHeaders.

(** A response with a body of bytes; the names of its headers are spelled
    as the handler wrote them. *)
Record DataResponse : Type := {
  data_status : Z;
  data_body : string;
  data_headers : list (string * string)
}.

(** [new Response(body, { headers })]: the status is the default 200, and
    the construction raises when a header value is refused. *)
Definition newResponse (body : string) (headers : list (string * string))
    : Result DataResponse :=
  match HttpHeaders.fill headers with
  | Throw e => Throw e
  | Ok kept => Ok {| data_status := 200; data_body := body; data_headers := kept |}
  end.

Module MemoryThumbnail.

Definition handlerGetThumbnail (cfg : ApiConfig) (req : Request) : MP DataResponse :=
  match params_videoId req with
  | None | Some "" => throwP (BadRequestError "Invalid video ID")
  | Some videoId =>
      found <~~ onWorld (getVideo videoId) ;;
      match found with
      | None => throwP (NotFoundError "Couldn't find video")
      | Some video =>
          stored <~~ videoThumbnails_get videoId ;;
          match stored with
          | None => throwP (NotFoundError "Thumbnail not found")
          | Some thumbnail =>
              liftP (newResponse (data thumbnail)
                       [("Content-Type", mediaType thumbnail);
                        ("Cache-Control", "no-store")])
          end
      end
  end.

Definition MAX_UPLOAD_SIZE : Z := JsNumber.shl 10 20.

(** The buffer [arrayBuffer] resolves to is an object, so the test
    [!thumbnailData] after it never holds and its [throw] is dead code. *)
Definition handlerUploadThumbnail (env : Collaborators) (assets : Assets)
    (o : ThumbnailOutcomes) (cfg : ApiConfig) (req : Request) : MP Response :=
  match params_videoId req with
  | None | Some "" => throwP (BadRequestError "Invalid video ID")
  | Some videoId =>
      token <~~ liftP (getBearerToken env (headers req)) ;;
      userId <~~ liftP (validateJWT env token (jwtSecret cfg)) ;;
      form <~~ onWorld (formData req) ;;
      match FormData_get form "thumbnail" with
      | Some (FormFile thumbnail) =>
          if size thumbnail >? MAX_UPLOAD_SIZE
          then throwP (BadRequestError
                         "Thumbnail file exceeds the maximum allowed size of 10MB")
          else
            let mediaType := type thumbnail in
            if String.eqb mediaType ""
            then throwP (BadRequestError "Missing Content-Type for thumbnail")
            else
              thumbnailData <~~ arrayBuffer (thumbnail_read_ok o) thumbnail ;;
              found <~~ onWorld (getVideo videoId) ;;
              match found with
              | None => throwP (NotFoundError "Video not found")
              | Some video =>
                  if negb (String.eqb (userID video) userId)
                  then throwP (UserForbiddenError "Forbidden access to the video")
                  else
                    _ <~~ videoThumbnails_set videoId
                            {| data := thumbnailData; mediaType := mediaType |} ;;
                    urlPath <~~ liftP (getInMemoryURL assets cfg videoId) ;;
                    let video := set_thumbnailURL video urlPath in
                    _ <~~ onWorld (updateVideo (thumbnail_update_ok o) video) ;;
                    retP (respondWithJSON 200 video)
              end
      | _ => throwP (BadRequestError "Thumbnail file missing")
      end
  end.

End MemoryThumbnail.

(** ** Vocabulary of the statements about thumbnails *)

(** A request that names a video, authenticates as [userId] and carries a
    file under the form field [field]. *)
Record Presented (env : Collaborators) (cfg : ApiConfig) (req : Request)
    (field videoId userId : string) (file : File) : Prop := {
  presented_id : params_videoId req = Some videoId;
  presented_id_nonempty : videoId <> "";
  presented_auth : exists token,
      getBearerToken env (headers req) = Ok token /\
      validateJWT env token (jwtSecret cfg) = Ok userId;
  presented_file : exists form,
      body req = Some form /\
      FormData_get form field = Some (FormFile file)
}.

(** The media types the disk variant lets through. *)
Definition jpegOrPng (mediaType : string) : bool :=
  String.eqb mediaType "image/jpeg" || String.eqb mediaType "image/png".

Definition mkProcess (w : World) (thumbs : gmap string Thumbnail) : Process :=
  {| outside := w; videoThumbnails := thumbs |}.

(** A request for the thumbnail of a video. *)
Definition getRequest (videoId : string) : Request :=
  {| params_videoId := Some videoId; headers := []; body := None |}.

(** A thumbnail request that passes every check the disk variant makes
    before it writes the asset file. *)
Record DiskAccepted (env : Collaborators) (assets : Assets) (cfg : ApiConfig)
    (req : Request) (w : World) (videoId : string) (video : Video)
    (thumbnail : File) (ext assetDiskPath : string) : Prop := {
  disk_presented : Presented env cfg req "thumbnail" videoId (userID video) thumbnail;
  disk_size : size thumbnail <= 10 * 2 ^ 20;
  disk_type : jpegOrPng (type thumbnail) = true;
  disk_found : db w !! videoId = Some video;
  disk_ext : mediaTypeToExt env (type thumbnail) = Ok ext;
  disk_path : getAssetDiskPath assets cfg (videoId +:+ ext) = Ok assetDiskPath
}.

Section DiskThumbnailRuns.

Variables (assets : Assets) (o : ThumbnailOutcomes) (cfg : ApiConfig)
  (videoId : string) (video : Video) (thumbnail : File)
  (ext assetDiskPath : string) (w : World).

Definition dt_fs : gmap string Blob :=
  <[assetDiskPath := Raw (bytes thumbnail)]> (tmpfs w).

(** The runs of the disk variant after its checks, one constructor per
    terminal state. *)
Inductive DT_run : Result Response * World -> Prop :=
| DT_write_failed :
    thumbnail_write_ok o = false ->
    DT_run (Throw (Rejected "SystemError"),
            mkWorld (db w) (tmpfs w) (bucket w)
              (trace w ++ [EvWrite assetDiskPath false]))
| DT_no_url e :
    thumbnail_write_ok o = true ->
    getAssetUrl assets cfg (videoId +:+ ext) = Throw e ->
    DT_run (Throw e,
            mkWorld (db w) dt_fs (bucket w)
              (trace w ++ [EvWrite assetDiskPath true]))
| DT_commit_failed urlPath :
    thumbnail_write_ok o = true ->
    getAssetUrl assets cfg (videoId +:+ ext) = Ok urlPath ->
    thumbnail_update_ok o = false ->
    DT_run (Throw (Rejected "SQLiteError"),
            mkWorld (db w) dt_fs (bucket w)
              (trace w ++ [EvWrite assetDiskPath true;
                           EvUpdate (set_thumbnailURL video urlPath) false]))
| DT_committed urlPath :
    thumbnail_write_ok o = true ->
    getAssetUrl assets cfg (videoId +:+ ext) = Ok urlPath ->
    thumbnail_update_ok o = true ->
    DT_run (Ok (respondWithJSON 200 (set_thumbnailURL video urlPath)),
            mkWorld (updateRow (set_thumbnailURL video urlPath) (db w)) dt_fs (bucket w)
              (trace w ++ [EvWrite assetDiskPath true;
                           EvUpdate (set_thumbnailURL video urlPath) true])).

End DiskThumbnailRuns.

(** A thumbnail request that passes every check the in-memory variant
    makes before it stores the thumbnail. *)
Record MemoryAccepted (env : Collaborators) (o : ThumbnailOutcomes)
    (cfg : ApiConfig) (req : Request) (s : Process) (videoId : string)
    (video : Video) (thumbnail : File) : Prop := {
  memory_presented : Presented env cfg req "thumbnail" videoId (userID video) thumbnail;
  memory_size : size thumbnail <= 10 * 2 ^ 20;
  memory_type : type thumbnail <> "";
  memory_read : thumbnail_read_ok o = true;
  memory_found : db (outside s) !! videoId = Some video
}.

Section MemoryThumbnailRuns.

Variables (assets : Assets) (o : ThumbnailOutcomes) (cfg : ApiConfig)
  (videoId : string) (video : Video) (thumbnail : File) (s : Process).

Definition mt_stored : Thumbnail :=
  {| data := bytes thumbnail; mediaType := type thumbnail |}.

Definition mt_thumbnails : gmap string Thumbnail :=
  <[videoId := mt_stored]> (videoThumbnails s).

(** The runs of the in-memory variant after its checks. *)
Inductive MT_run : Result Response * Process -> Prop :=
| MT_no_url e :
    getInMemoryURL assets cfg videoId = Throw e ->
    MT_run (Throw e, mkProcess (outside s) mt_thumbnails)
| MT_commit_failed urlPath :
    getInMemoryURL assets cfg videoId = Ok urlPath ->
    thumbnail_update_ok o = false ->
    MT_run (Throw (Rejected "SQLiteError"),
            mkProcess
              (mkWorld (db (outside s)) (tmpfs (outside s)) (bucket (outside s))
                 (trace (outside s) ++ [EvUpdate (set_thumbnailURL video urlPath) false]))
              mt_thumbnails)
| MT_committed urlPath :
    getInMemoryURL assets cfg videoId = Ok urlPath ->
    thumbnail_update_ok o = true ->
    MT_run (Ok (respondWithJSON 200 (set_thumbnailURL video urlPath)),
            mkProcess
              (mkWorld (updateRow (set_thumbnailURL video urlPath) (db (outside s)))
                 (tmpfs (outside s)) (bucket (outside s))
                 (trace (outside s) ++ [EvUpdate (set_thumbnailURL video urlPath) true]))
              mt_thumbnails).

End MemoryThumbnailRuns.

(** What a successful fetch of a stored thumbnail answers: the stored
    bytes under the content type the response keeps. *)
Definition served (body contentType : string) : DataResponse :=
  {| data_status := 200;
     data_body := body;
     data_headers := [("Content-Type", contentType); ("Cache-Control", "no-store")] |}.

(** A string of printable ASCII characters (space to tilde). *)
Fixpoint printable (s : string) : bool :=
  match s with
  | EmptyString => true
  | String c rest =>
      (32 <=? HttpHeaders.code c)%N && (HttpHeaders.code c <=? 126)%N && printable rest
  end.

(** ** A concrete thumbnail request, used to run the handlers *)

Module ThumbnailSample.

(** An instance of the collaborators for thumbnails: the extension of the
    two image types, an asset directory and the URLs of a local server. *)
Definition extFor (mediaType : string) : Result string :=
  if String.eqb mediaType "image/png" then Ok ".png"
  else if String.eqb mediaType "image/jpeg" then Ok ".jpeg"
  else Throw (BadRequestError "Unsupported media type").

Definition env : Collaborators :=
  {| getBearerToken := getBearerToken Sample.env;
     validateJWT := validateJWT Sample.env;
     mediaTypeToExt := extFor |}.

Definition assets : Assets :=
  {| getAssetDiskPath := fun _ filename => Ok ("assets/" +:+ filename);
     getAssetUrl := fun _ filename =>
       Ok ("http://localhost:8091/assets/" +:+ filename);
     getInMemoryURL := fun _ videoId =>
       Ok ("http://localhost:8091/api/thumbnails/" +:+ videoId) |}.

Definition file (size : Z) (type : string) : File :=
  {| size := size; type := type; bytes := "IHDR-IDAT-IEND" |}.

Definition request (videoId token : string) (f : File) : Request :=
  {| params_videoId := Some videoId;
     headers := [("Authorization", token)];
     body := Some [("thumbnail", FormFile f)] |}.

Definition allGood : ThumbnailOutcomes :=
  {| thumbnail_write_ok := true;
     thumbnail_read_ok := true;
     thumbnail_update_ok := true |}.

(** The update of the record store fails; everything else succeeds. *)
Definition updateFails : ThumbnailOutcomes :=
  {| thumbnail_write_ok := true;
     thumbnail_read_ok := true;
     thumbnail_update_ok := false |}.

(** A process that has no thumbnail yet. *)
Definition process : Process :=
  {| outside := Sample.world; videoThumbnails := ∅ |}.

(** A process that holds a thumbnail whose media type has blanks around
    it. *)
Definition padded : Process :=
  {| outside := Sample.world;
     videoThumbnails :=
       {[ "abc" := {| data := "IHDR-IDAT-IEND"; mediaType := " image/png " |} ]} |}.

End ThumbnailSample.

(** ** Outcomes with a failure after the upload to the object store *)

Module FailureSample.

(** The update of the record store fails; everything else succeeds. *)
Definition commitFails : Outcomes :=
  {| write_ok := true;
     ffprobe_exited := 0;
     ffprobe_stdout := Some {| streams := Some [Sample.stream 1280 720] |};
     ffprobe_stderr := "";
     ffmpeg_exited := 0;
     ffmpeg_stderr := "";
     s3_ok := true;
     update_ok := false;
     rm_staged_ok := true;
     rm_processed_ok := true;
     random := fun _ => Byte.x00 |}.

(** The second removal of the cleanup fails; everything else succeeds. *)
Definition cleanupFails : Outcomes :=
  {| write_ok := true;
     ffprobe_exited := 0;
     ffprobe_stdout := Some {| streams := Some [Sample.stream 1280 720] |};
     ffprobe_stderr := "";
     ffmpeg_exited := 0;
     ffmpeg_stderr := "";
     s3_ok := true;
     update_ok := true;
     rm_staged_ok := true;
     rm_processed_ok := false;
     random := fun _ => Byte.x00 |}.

End FailureSample.
(* ===================================================================== *)
(** * The runtime operations on known values *)
(* ===================================================================== *)

Example shl_1_30 : JsNumber.shl 1 30 = 1073741824.
Proof. reflexivity. Qed.

Example shl_wraps_at_31 : JsNumber.shl 1 31 = -2147483648.
Proof. reflexivity. Qed.

Example MAX_UPLOAD_SIZE_is_one_GiB :
  OrientationPrefixed.MAX_UPLOAD_SIZE = 2 ^ 30 /\
  RandomOpaque.MAX_UPLOAD_SIZE = 2 ^ 30.
Proof. split; reflexivity. Qed.

Example split_first_dot :
  JsString.split "." "/tmp/a.b.mp4" = ["/tmp/a"; "b"; "mp4"].
Proof. reflexivity. Qed.

Example split_without_separator : JsString.split "." "abc" = ["abc"].
Proof. reflexivity. Qed.

Example join_plain : Path.join ["/tmp"; "abc.mp4"] = "/tmp/abc.mp4".
Proof. reflexivity. Qed.

Example join_normalizes :
  Path.join ["/tmp"; "../etc/./x//y.mp4"] = "/etc/x/y.mp4".
Proof. reflexivity. Qed.

Example join_stops_at_root : Path.join ["/tmp"; "../../x.mp4"] = "/x.mp4".
Proof. reflexivity. Qed.

Example base64url_three_bytes : Base64url.encodeN [77; 97; 110]%N = "TWFu".
Proof. reflexivity. Qed.

Example base64url_no_padding : Base64url.encodeN [77; 97]%N = "TWE".
Proof. reflexivity. Qed.

Example base64url_url_safe_digits :
  Base64url.encodeN [255; 254; 253; 252]%N = "__79_A".
Proof. reflexivity. Qed.

Example base64url_32_bytes (o : Outcomes) :
  String.length (Base64url.encode (randomBytes o 32)) = 43%nat.
Proof. reflexivity. Qed.


Example aspectRatio_1920_1080 :
  OrientationPrefixed.aspectRatio (JsNumber.ofZ 1920) (JsNumber.ofZ 1080) = landscape.
Proof. vm_compute. reflexivity. Qed.

Example aspectRatio_1080_1920 :
  OrientationPrefixed.aspectRatio (JsNumber.ofZ 1080) (JsNumber.ofZ 1920) = portrait.
Proof. vm_compute. reflexivity. Qed.

Example aspectRatio_640_480 :
  OrientationPrefixed.aspectRatio (JsNumber.ofZ 640) (JsNumber.ofZ 480) = other.
Proof. vm_compute. reflexivity. Qed.

(* ===================================================================== *)
(** * How the operations run on a world *)
(* ===================================================================== *)

Lemma world_eta (w : World) : w = mkWorld (db w) (tmpfs w) (bucket w) (trace w).
Proof. destruct w; reflexivity. Qed.

Lemma run_eq {A} (P : A -> Prop) (x y : A) : P x -> x = y -> P y.
Proof. intros H <-. exact H. Qed.

Section Steps.

Variables (d : gmap string Video) (fs : gmap string Blob)
  (b : gmap string (Blob * string)) (tr : list Event).

Lemma Bun_write_run ok path file :
  Bun_write ok path file (mkWorld d fs b tr) =
  if ok
  then (Ok tt, mkWorld d (<[path := Raw (bytes file)]> fs) b (tr ++ [EvWrite path true]))
  else (Throw (Rejected "SystemError"), mkWorld d fs b (tr ++ [EvWrite path false])).
Proof. destruct ok; reflexivity. Qed.

Lemma getVideoAspectRatio_run o path :
  OrientationPrefixed.getVideoAspectRatio o path (mkWorld d fs b tr) =
  (probeResult o,
   mkWorld d fs b
     (tr ++ [EvSpawn (OrientationPrefixed.ffprobe_argv path) (ffprobe_exited o)])).
Proof.
  unfold OrientationPrefixed.getVideoAspectRatio, probeResult, bind, spawn_ffprobe.
  destruct (negb (ffprobe_exited o =? 0)); [reflexivity|].
  destruct (ffprobe_stdout o) as [[[[|first rest]|]]|]; reflexivity.
Qed.

Lemma processVideoForFastStart_run o path content :
  fs !! path = Some content ->
  OrientationPrefixed.processVideoForFastStart o path (mkWorld d fs b tr) =
  let out := OrientationPrefixed.outputFilePath path in
  let ev := EvSpawn (OrientationPrefixed.ffmpeg_argv path out) (ffmpeg_exited o) in
  if ffmpeg_exited o =? 0
  then (Ok out, mkWorld d (<[out := FastStart content]> fs) b (tr ++ [ev]))
  else (Throw (Error ("FFmpeg error: " +:+ ffmpeg_stderr o)),
        mkWorld d fs b (tr ++ [ev])).
Proof.
  intros Hc.
  unfold OrientationPrefixed.processVideoForFastStart, bind, spawn_ffmpeg.
  cbn [tmpfs mkWorld]. rewrite Hc.
  destruct (ffmpeg_exited o =? 0); reflexivity.
Qed.

Lemma uploadVideoToS3_run ok cfg key path contentType content :
  fs !! path = Some content ->
  uploadVideoToS3 ok cfg key path contentType (mkWorld d fs b tr) =
  if ok
  then (Ok tt, mkWorld d fs (<[key := (content, contentType)]> b)
                 (tr ++ [EvUpload key path contentType true]))
  else (Throw (Rejected "S3Error"),
        mkWorld d fs b (tr ++ [EvUpload key path contentType false])).
Proof.
  intros Hc. unfold uploadVideoToS3. cbn [tmpfs mkWorld]. rewrite Hc.
  destruct ok; reflexivity.
Qed.

Lemma updateVideo_run ok video :
  updateVideo ok video (mkWorld d fs b tr) =
  if ok
  then (Ok tt, mkWorld (updateRow video d) fs b (tr ++ [EvUpdate video true]))
  else (Throw (Rejected "SQLiteError"), mkWorld d fs b (tr ++ [EvUpdate video false])).
Proof. destruct ok; reflexivity. Qed.

Lemma Promise_all_rm1 ok1 p1 :
  Promise_all [rm_force ok1 p1] (mkWorld d fs b tr) =
  ((if ok1 then Ok tt else Throw (Rejected "SystemError")),
   mkWorld d (removeIf ok1 p1 fs) b (tr ++ [EvRm p1 ok1])).
Proof. destruct ok1; reflexivity. Qed.

Lemma Promise_all_rm2 ok1 ok2 p1 p2 :
  Promise_all [rm_force ok1 p1; rm_force ok2 p2] (mkWorld d fs b tr) =
  (cleanupResult ok1 ok2 tt,
   mkWorld d (removeIf ok2 p2 (removeIf ok1 p1 fs)) b
     (tr ++ [EvRm p1 ok1; EvRm p2 ok2])).
Proof.
  destruct ok1, ok2; unfold Promise_all, settleAll, bind, settle, rm_force, ret, lift,
    cleanupResult, removeIf, mkWorld, log, set_tmpfs; cbn [firstRejection db tmpfs bucket trace];
    rewrite <- app_assoc; reflexivity.
Qed.

End Steps.

Ltac trace_eq :=
  unfold op_fs2, op_fs1, op_bucket, op_write, op_probe, op_rewrite, op_upload,
    op_commit, op_record, op_key, op_removed, op_rewritten, op_staged,
    ro_fs1, ro_bucket, ro_write, ro_upload, ro_commit, ro_record, ro_staged;
  cbn [db tmpfs bucket trace mkWorld];
  rewrite <- ?app_assoc; cbn [app];
  reflexivity.

Lemma OP_handler_validated env o cfg req w videoId video videoFile :
  Validated env cfg req w videoId video videoFile ->
  OP_run o cfg videoId video videoFile w
    (OrientationPrefixed.handlerUploadVideo env o cfg req w).
Proof.
  intros [Hid Hne (token & Htok & Hjwt) Hfound (form & Hbody & Hget) Hsize Htype].
  unfold OrientationPrefixed.handlerUploadVideo.
  rewrite Hid. destruct videoId as [|c videoId']; [congruence|].
  set (videoId := String c videoId') in *.
  unfold bind at 1. unfold lift at 1. rewrite Htok.
  unfold bind at 1. unfold lift at 1. rewrite Hjwt.
  unfold bind at 1. unfold getVideo at 1. rewrite Hfound.
  rewrite String.eqb_refl. cbn [negb].
  unfold bind at 1. unfold formData. rewrite Hbody. unfold ret at 1.
  rewrite Hget.
  assert (Hs : (size videoFile >? OrientationPrefixed.MAX_UPLOAD_SIZE) = false).
  { rewrite Z.gtb_ltb. apply Z.ltb_ge. exact Hsize. }
  rewrite Hs, Htype. cbn [String.eqb Ascii.eqb Bool.eqb negb].
  clear Hfound. destruct w as [d fs b tr].
  change {| db := d; tmpfs := fs; bucket := b; trace := tr |} with (mkWorld d fs b tr).
  set (p := OrientationPrefixed.tempFilePath videoId).
  unfold bind at 1. rewrite Bun_write_run.
  destruct (write_ok o) eqn:Hw.
  2:{ apply OP_staging_failed. exact Hw. }
  unfold bind at 1. rewrite getVideoAspectRatio_run.
  destruct (probeResult o) as [a|e] eqn:Hp.
  2:{ eapply run_eq; [eapply OP_probe_failed; eassumption|]. trace_eq. }
  unfold bind at 1.
  rewrite (processVideoForFastStart_run _ _ _ _ _ _ _ (lookup_insert_eq _ _ _)).
  cbv zeta.
  destruct (ffmpeg_exited o =? 0) eqn:Hf.
  2:{ apply Z.eqb_neq in Hf.
      eapply run_eq; [eapply OP_rewrite_failed; eassumption|]. trace_eq. }
  apply Z.eqb_eq in Hf.
  unfold bind at 1.
  rewrite (uploadVideoToS3_run _ _ _ _ _ _ _ _ _ _ (lookup_insert_eq _ _ _)).
  destruct (s3_ok o) eqn:Hs3.
  2:{ eapply run_eq; [eapply OP_upload_failed; eassumption|]. trace_eq. }
  unfold bind at 1. rewrite updateVideo_run.
  destruct (update_ok o) eqn:Hu.
  2:{ eapply run_eq; [eapply OP_commit_failed; eassumption|]. trace_eq. }
  unfold bind at 1. rewrite Promise_all_rm2.
  eapply run_eq; [eapply OP_committed; eassumption|].
  unfold cleanupResult, ret.
  destruct (rm_staged_ok o), (rm_processed_ok o); trace_eq.
Qed.

Lemma RO_handler_validated env o cfg req w videoId video videoFile ext :
  Validated env cfg req w videoId video videoFile ->
  mediaTypeToExt env "video/mp4" = Ok ext ->
  RO_run o cfg videoId video videoFile ext w
    (RandomOpaque.handlerUploadVideo env o cfg req w).
Proof.
  intros [Hid Hne (token & Htok & Hjwt) Hfound (form & Hbody & Hget) Hsize Htype] Hext.
  unfold RandomOpaque.handlerUploadVideo.
  rewrite Hid. destruct videoId as [|c videoId']; [congruence|].
  set (videoId := String c videoId') in *.
  unfold bind at 1. unfold lift at 1. rewrite Htok.
  unfold bind at 1. unfold lift at 1. rewrite Hjwt.
  unfold bind at 1. unfold getVideo at 1. rewrite Hfound.
  rewrite String.eqb_refl. cbn [negb].
  unfold bind at 1. unfold formData. rewrite Hbody. unfold ret at 1.
  rewrite Hget.
  assert (Hs : (size videoFile >? RandomOpaque.MAX_UPLOAD_SIZE) = false).
  { rewrite Z.gtb_ltb. apply Z.ltb_ge. exact Hsize. }
  rewrite Hs, Htype. cbn [String.eqb Ascii.eqb Bool.eqb negb].
  unfold bind at 1. unfold lift at 1. rewrite Hext.
  clear Hfound. destruct w as [d fs b tr].
  change {| db := d; tmpfs := fs; bucket := b; trace := tr |} with (mkWorld d fs b tr).
  set (p := RandomOpaque.tempFilePath videoId).
  unfold bind at 1. rewrite Bun_write_run.
  destruct (write_ok o) eqn:Hw.
  2:{ apply RO_staging_failed. exact Hw. }
  unfold bind at 1.
  rewrite (uploadVideoToS3_run _ _ _ _ _ _ _ _ _ _ (lookup_insert_eq _ _ _)).
  destruct (s3_ok o) eqn:Hs3.
  2:{ eapply run_eq; [eapply RO_upload_failed; eassumption|]. trace_eq. }
  unfold bind at 1. rewrite updateVideo_run.
  destruct (update_ok o) eqn:Hu.
  2:{ eapply run_eq; [eapply RO_commit_failed; eassumption|]. trace_eq. }
  unfold bind at 1. rewrite Promise_all_rm1.
  eapply run_eq; [eapply RO_committed; eassumption|].
  unfold ret.
  destruct (rm_staged_ok o); trace_eq.
Qed.

(** Every request is turned away with the world untouched, or passes
    every check made before staging. *)
Lemma OP_rejected_or_validated env o cfg req w :
  (exists e, OrientationPrefixed.handlerUploadVideo env o cfg req w = (Throw e, w)) \/
  (exists videoId video videoFile, Validated env cfg req w videoId video videoFile).
Proof.
  unfold OrientationPrefixed.handlerUploadVideo.
  destruct (params_videoId req) as [[|c videoId']|] eqn:Hid;
    [left; eexists; reflexivity| |left; eexists; reflexivity].
  set (videoId := String c videoId') in *.
  unfold bind at 1. unfold lift at 1.
  destruct (getBearerToken env (headers req)) as [token|e] eqn:Htok;
    [|left; eexists; reflexivity].
  unfold bind at 1. unfold lift at 1.
  destruct (validateJWT env token (jwtSecret cfg)) as [userId|e] eqn:Hjwt;
    [|left; eexists; reflexivity].
  unfold bind at 1. unfold getVideo at 1.
  destruct (db w !! videoId) as [video|] eqn:Hfound;
    [|left; eexists; reflexivity].
  destruct (String.eqb (userID video) userId) eqn:Hown; cbn [negb];
    [|left; eexists; reflexivity].
  apply String.eqb_eq in Hown. subst userId.
  unfold bind at 1. unfold formData.
  destruct (body req) as [form|] eqn:Hbody; [|left; eexists; reflexivity].
  unfold ret at 1.
  destruct (FormData_get form "video") as [[s|videoFile]|] eqn:Hget;
    [left; eexists; reflexivity| |left; eexists; reflexivity].
  destruct (size videoFile >? OrientationPrefixed.MAX_UPLOAD_SIZE) eqn:Hs;
    [left; eexists; reflexivity|].
  destruct (String.eqb (type videoFile) "video/mp4") eqn:Hty; cbn [negb];
    [|left; eexists; reflexivity].
  right. exists videoId, video, videoFile.
  rewrite Z.gtb_ltb in Hs. apply Z.ltb_ge in Hs. apply String.eqb_eq in Hty.
  split; eauto; discriminate.
Qed.

Lemma RO_rejected_or_validated env o cfg req w :
  (exists e, RandomOpaque.handlerUploadVideo env o cfg req w = (Throw e, w)) \/
  (exists videoId video videoFile ext,
      Validated env cfg req w videoId video videoFile /\
      mediaTypeToExt env "video/mp4" = Ok ext).
Proof.
  unfold RandomOpaque.handlerUploadVideo.
  destruct (params_videoId req) as [[|c videoId']|] eqn:Hid;
    [left; eexists; reflexivity| |left; eexists; reflexivity].
  set (videoId := String c videoId') in *.
  unfold bind at 1. unfold lift at 1.
  destruct (getBearerToken env (headers req)) as [token|e] eqn:Htok;
    [|left; eexists; reflexivity].
  unfold bind at 1. unfold lift at 1.
  destruct (validateJWT env token (jwtSecret cfg)) as [userId|e] eqn:Hjwt;
    [|left; eexists; reflexivity].
  unfold bind at 1. unfold getVideo at 1.
  destruct (db w !! videoId) as [video|] eqn:Hfound;
    [|left; eexists; reflexivity].
  destruct (String.eqb (userID video) userId) eqn:Hown; cbn [negb];
    [|left; eexists; reflexivity].
  apply String.eqb_eq in Hown. subst userId.
  unfold bind at 1. unfold formData.
  destruct (body req) as [form|] eqn:Hbody; [|left; eexists; reflexivity].
  unfold ret at 1.
  destruct (FormData_get form "video") as [[s|videoFile]|] eqn:Hget;
    [left; eexists; reflexivity| |left; eexists; reflexivity].
  destruct (size videoFile >? RandomOpaque.MAX_UPLOAD_SIZE) eqn:Hs;
    [left; eexists; reflexivity|].
  destruct (String.eqb (type videoFile) "video/mp4") eqn:Hty; cbn [negb];
    [|left; eexists; reflexivity].
  apply String.eqb_eq in Hty. rewrite Hty.
  unfold bind at 1. unfold lift at 1.
  destruct (mediaTypeToExt env "video/mp4") as [ext|e] eqn:Hext;
    [|left; eexists; reflexivity].
  right. exists videoId, video, videoFile, ext.
  rewrite Z.gtb_ltb in Hs. apply Z.ltb_ge in Hs.
  split; [split; eauto; discriminate|reflexivity].
Qed.

Lemma newEvents_app (w w' : World) (evs : list Event) :
  trace w' = trace w ++ evs -> newEvents w w' = evs.
Proof. intros H. unfold newEvents. rewrite H. apply drop_app_length. Qed.

Lemma newEvents_same (w : World) : newEvents w w = [].
Proof. apply newEvents_app. symmetry. apply app_nil_r. Qed.

(** The terminal state of a run of the probing pipeline, with what the
    run leaves behind. *)
Lemma OP_run_terminal o cfg videoId video videoFile w run :
  OP_run o cfg videoId video videoFile w run ->
  trace (snd run) =
    trace w ++ op_events o cfg videoId video (op_geometry o) (op_terminal o) /\
  match op_terminal o with
  | Committed =>
      fst run = cleanupResult (rm_staged_ok o) (rm_processed_ok o)
                  (respondWithJSON 200 (op_record cfg videoId video (op_geometry o))) /\
      db (snd run) = updateRow (op_record cfg videoId video (op_geometry o)) (db w) /\
      bucket (snd run) = op_bucket videoId videoFile w (op_geometry o) /\
      tmpfs (snd run) =
        removeIf (rm_processed_ok o) (op_removed videoId)
          (removeIf (rm_staged_ok o) (op_staged videoId)
             (op_fs2 videoId videoFile w))
  | Failed stage =>
      (exists e, fst run = Throw e) /\
      db (snd run) = db w /\
      bucket (snd run) =
        match stage with
        | Commit => op_bucket videoId videoFile w (op_geometry o)
        | _ => bucket w
        end /\
      tmpfs (snd run) =
        match stage with
        | Staging => tmpfs w
        | Probe | Rewrite => op_fs1 videoId videoFile w
        | Upload | Commit => op_fs2 videoId videoFile w
        end
  end.
Proof.
  intros H.
  destruct H as [Hw|e Hw Hp|a Hw Hp Hf|a Hw Hp Hf Hs|a Hw Hp Hf Hs Hu|a Hw Hp Hf Hs Hu];
    unfold op_terminal, op_geometry; rewrite Hw; cbn [negb];
    try rewrite Hp;
    try match type of Hf with
        | _ <> _ => apply Z.eqb_neq in Hf
        | _ = _ => apply Z.eqb_eq in Hf
        end;
    try rewrite Hf; cbn [negb]; try rewrite Hs; cbn [negb]; try rewrite Hu; cbn [negb];
    cbn [fst snd trace db bucket tmpfs mkWorld op_events];
    repeat split; try reflexivity; eexists; reflexivity.
Qed.

Lemma RO_run_terminal o cfg videoId video videoFile ext w run :
  RO_run o cfg videoId video videoFile ext w run ->
  exists evs,
    ro_events o cfg videoId video ext (ro_terminal o) = Some evs /\
    trace (snd run) = trace w ++ evs /\
    match ro_terminal o with
    | Committed =>
        fst run = (if rm_staged_ok o
                   then Ok (respondWithJSON 200 (ro_record o cfg video ext))
                   else Throw (Rejected "SystemError")) /\
        db (snd run) = updateRow (ro_record o cfg video ext) (db w) /\
        bucket (snd run) = ro_bucket o videoFile ext w /\
        tmpfs (snd run) =
          removeIf (rm_staged_ok o) (ro_staged videoId) (ro_fs1 videoId videoFile w)
    | Failed stage =>
        (exists e, fst run = Throw e) /\
        db (snd run) = db w /\
        bucket (snd run) =
          match stage with
          | Commit => ro_bucket o videoFile ext w
          | _ => bucket w
          end /\
        tmpfs (snd run) =
          match stage with
          | Staging => tmpfs w
          | _ => ro_fs1 videoId videoFile w
          end
    end.
Proof.
  intros H.
  destruct H as [Hw|Hw Hs|Hw Hs Hu|Hw Hs Hu];
    unfold ro_terminal; rewrite Hw; cbn [negb];
    try rewrite Hs; cbn [negb]; try rewrite Hu; cbn [negb];
    cbn [fst snd trace db bucket tmpfs mkWorld ro_events];
    eexists; repeat split; try reflexivity; eexists; reflexivity.
Qed.

(* ===================================================================== *)
(** * Properties of the handlers *)
(* ===================================================================== *)

Lemma Validated_payload env cfg req w videoId video videoFile :
  Validated env cfg req w videoId video videoFile ->
  payloadOf req (Raw (bytes videoFile)).
Proof.
  intros [_ _ _ _ (form & Hbody & Hget) _ _].
  exists form, videoFile. auto.
Qed.

Lemma handler_summary handler env o cfg req w :
  In handler handlers -> Summary env o cfg req w (handler env o cfg req w).
Proof.
  intros [<-|[<-|[]]].
  - destruct (OP_rejected_or_validated env o cfg req w)
      as [[e He]|(videoId & video & videoFile & Hv)].
    + eapply Turned_away; eassumption.
    + eapply Ran_probing; [eassumption|eapply OP_handler_validated; eassumption].
  - destruct (RO_rejected_or_validated env o cfg req w)
      as [[e He]|(videoId & video & videoFile & ext & Hv & Hext)].
    + eapply Turned_away; eassumption.
    + eapply Ran_plain; [eassumption|eassumption|eapply RO_handler_validated; eassumption].
Qed.

(** Splitting a concrete list of events around one of its elements. *)
Ltac split_events H :=
  repeat match type of H with
  | _ :: _ = ?pre ++ _ :: _ =>
      destruct pre as [|? pre]; cbn [app] in H;
      [ first [discriminate H | (injection H; clear H; intros; subst) ]
      | injection H as ? H; subst ]
  | [] = ?pre ++ _ :: _ =>
      exfalso; destruct pre; discriminate H
  end.

(** C1.  In every execution of either handler, an update of the record
    store is preceded by a successful upload to the object store of the
    request's payload, under the key whose public URL the updated record
    carries; and when no upload has succeeded, the record store is the one
    the request found, and no update has been attempted. *)
Theorem url_published_only_after_upload
    (handler : Handler) env o cfg req w :
  In handler handlers ->
  let run := handler env o cfg req w in
  let evs := newEvents w (snd run) in
  (forall pre v ok post,
      evs = pre ++ EvUpdate v ok :: post ->
      exists key path content,
        In (EvUpload key path "video/mp4" true) pre /\
        videoURL v = Some (objectURL cfg key) /\
        payloadOf req content /\
        bucket (snd run) !! key = Some (content, "video/mp4")) /\
  ((forall key path ct, ~ In (EvUpload key path ct true) evs) ->
   db (snd run) = db w /\ forall v ok, ~ In (EvUpdate v ok) evs).
Proof.
  intros Hin run evs. subst evs run.
  destruct (handler_summary handler env o cfg req w Hin)
    as [e ->|videoId video videoFile Hv Hrun
       |videoId video videoFile ext Hv Hext Hrun];
    try (pose proof (Validated_payload _ _ _ _ _ _ _ Hv) as Hpay).
  - cbn [snd]. rewrite newEvents_same. split.
    + intros pre v ok post H. split_events H.
    + intros _. split; [reflexivity|]. intros v ok [].
  - apply OP_run_terminal in Hrun. destruct Hrun as [Htr Hrest].
    rewrite (newEvents_app _ _ _ Htr).
    destruct (op_terminal o) as [|[]];
      cbn [op_events]; unfold op_write, op_probe, op_rewrite, op_upload, op_commit.
    all: split;
      [ intros pre v ok post H; split_events H
      | intros Hno ].
    all: try (destruct Hrest as (_ & -> & _); split; [reflexivity|];
              intros v ok Hev; cbn in Hev; intuition discriminate).
    all: try (exfalso; eapply Hno; cbn; eauto 10; fail).
    + destruct Hrest as (_ & _ & -> & _).
      exists (op_key videoId (op_geometry o)), (op_rewritten videoId),
        (FastStart (Raw (bytes videoFile))).
      split; [cbn; auto|]. split; [reflexivity|]. split.
      * destruct Hpay as (form & f & ? & ? & [Hc|Hc]); [|discriminate Hc].
        injection Hc as Hc. exists form, f. rewrite Hc. auto.
      * apply lookup_insert_eq.
    + destruct Hrest as (_ & _ & -> & _).
      exists (op_key videoId (op_geometry o)), (op_rewritten videoId),
        (FastStart (Raw (bytes videoFile))).
      split; [cbn; auto|]. split; [reflexivity|]. split.
      * destruct Hpay as (form & f & ? & ? & [Hc|Hc]); [|discriminate Hc].
        injection Hc as Hc. exists form, f. rewrite Hc. auto.
      * apply lookup_insert_eq.
  - apply RO_run_terminal in Hrun. destruct Hrun as (evs & Hevs & Htr & Hrest).
    rewrite (newEvents_app _ _ _ Htr).
    destruct (ro_terminal o) as [|[]];
      cbn [ro_events] in Hevs; try discriminate Hevs;
      injection Hevs as <-; unfold ro_write, ro_upload, ro_commit.
    all: split;
      [ intros pre v ok post H; split_events H
      | intros Hno ].
    all: try (destruct Hrest as (_ & -> & _); split; [reflexivity|];
              intros v ok Hev; cbn in Hev; intuition discriminate).
    all: try (exfalso; eapply Hno; cbn; eauto 10; fail).
    + destruct Hrest as (_ & _ & -> & _).
      exists (ro_key o ext), (ro_staged videoId), (Raw (bytes videoFile)).
      split; [cbn; auto|]. split; [reflexivity|]. split; [exact Hpay|].
      apply lookup_insert_eq.
    + destruct Hrest as (_ & _ & -> & _).
      exists (ro_key o ext), (ro_staged videoId), (Raw (bytes videoFile)).
      split; [cbn; auto|]. split; [reflexivity|]. split; [exact Hpay|].
      apply lookup_insert_eq.
Qed.

(** C9.  The record either handler hands to the record store's update
    operation is the record it fetched under the request's video id with
    the playback URL replaced: identity, owning user, thumbnail URL and
    descriptive fields are those of the fetched record. *)
Theorem update_changes_only_playback_url
    (handler : Handler) env o cfg req w v ok :
  In handler handlers ->
  In (EvUpdate v ok) (newEvents w (snd (handler env o cfg req w))) ->
  exists videoId fetched url,
    params_videoId req = Some videoId /\
    db w !! videoId = Some fetched /\
    v = set_videoURL fetched url /\
    id v = id fetched /\
    userID v = userID fetched /\
    thumbnailURL v = thumbnailURL fetched /\
    descriptive v = descriptive fetched /\
    videoURL v = Some url.
Proof.
  intros Hin Hev.
  destruct (handler_summary handler env o cfg req w Hin)
    as [e He|videoId video videoFile Hv Hrun
       |videoId video videoFile ext Hv Hext Hrun].
  - rewrite He in Hev. cbn [snd] in Hev. rewrite newEvents_same in Hev.
    destruct Hev.
  - apply OP_run_terminal in Hrun. destruct Hrun as [Htr _].
    rewrite (newEvents_app _ _ _ Htr) in Hev.
    assert (v = op_record cfg videoId video (op_geometry o)) as ->.
    { destruct (op_terminal o) as [|[]]; cbn in Hev;
        unfold op_write, op_probe, op_rewrite, op_upload, op_commit in Hev;
        intuition congruence. }
    exists videoId, video, (objectURL cfg (op_key videoId (op_geometry o))).
    destruct Hv. repeat split; auto.
  - apply RO_run_terminal in Hrun. destruct Hrun as (evs & Hevs & Htr & _).
    rewrite (newEvents_app _ _ _ Htr) in Hev.
    assert (v = ro_record o cfg video ext) as ->.
    { destruct (ro_terminal o) as [|[]]; cbn in Hevs; try discriminate Hevs;
        injection Hevs as <-; cbn in Hev;
        unfold ro_write, ro_upload, ro_commit in Hev;
        intuition congruence. }
    exists videoId, video, (objectURL cfg (ro_key o ext)).
    destruct Hv. repeat split; auto.
Qed.

Lemma cleanupResult_Ok {A} ok1 ok2 (a b : A) :
  cleanupResult ok1 ok2 a = Ok b -> ok1 = true /\ ok2 = true.
Proof. destruct ok1, ok2; cbn; intros H; try discriminate H; auto. Qed.

(** The defect of C3 on every request.  When either handler returns a
    response, the staged temp file has been subjected to a forced removal
    and is gone from the temporary storage: the handlers do clean up.  When
    a stage after staging fails (the staged file was written and no update
    of the record store succeeded), the handler raises without attempting
    any removal, and the staged path still holds a file: the cleanup is
    missed on every failure path. *)
Theorem staged_file_removed_only_on_success
    (handler : Handler) env o cfg req w videoId :
  In handler handlers ->
  params_videoId req = Some videoId ->
  let run := handler env o cfg req w in
  let evs := newEvents w (snd run) in
  let staged := Path.join ["/tmp"; videoId +:+ ".mp4"] in
  (forall resp, fst run = Ok resp ->
     In (EvRm staged true) evs /\ tmpfs (snd run) !! staged = None) /\
  (In (EvWrite staged true) evs ->
   (forall v, ~ In (EvUpdate v true) evs) ->
   (forall path ok, ~ In (EvRm path ok) evs) /\
   is_Some (tmpfs (snd run) !! staged) /\
   exists e, fst run = Throw e).
Proof.
  intros Hin Hid run evs staged. subst evs run.
  destruct (handler_summary handler env o cfg req w Hin)
    as [e He|videoId' video videoFile Hv Hrun
       |videoId' video videoFile ext Hv Hext Hrun].
  - rewrite He. cbn [fst snd]. rewrite newEvents_same. split.
    + intros resp H. discriminate H.
    + intros [].
  - assert (videoId' = videoId) as ->.
    { destruct Hv as [Hid' _ _ _ _ _ _]. congruence. }
    change staged with (op_staged videoId).
    apply OP_run_terminal in Hrun. destruct Hrun as [Htr Hrest].
    rewrite (newEvents_app _ _ _ Htr).
    destruct (op_terminal o) as [|[]]; cbn [op_events];
      unfold op_write, op_probe, op_rewrite, op_upload, op_commit.
    + destruct Hrest as (Hr & _ & _ & Hfs). split.
      * intros resp Hok. rewrite Hr in Hok.
        apply cleanupResult_Ok in Hok. destruct Hok as [H1 H2].
        rewrite Hfs, H1, H2. cbn [removeIf]. split; [cbn; auto 10|].
        apply lookup_delete_None. right. apply lookup_delete_eq.
      * intros _ Hno. exfalso. eapply Hno. cbn. eauto 10.
    + destruct Hrest as (He & _). split.
      * intros resp Hok. destruct He as [e He]. congruence.
      * intros Hw. cbn in Hw. intuition discriminate.
    + destruct Hrest as (He & _ & _ & Hfs). split.
      * intros resp Hok. destruct He as [e He]. congruence.
      * intros _ _. split; [intros path ok H; cbn in H; intuition discriminate|].
        split; [|exact He]. rewrite Hfs. unfold op_fs1.
        rewrite lookup_insert_eq. eauto.
    + destruct Hrest as (He & _ & _ & Hfs). split.
      * intros resp Hok. destruct He as [e He]. congruence.
      * intros _ _. split; [intros path ok H; cbn in H; intuition discriminate|].
        split; [|exact He]. rewrite Hfs. unfold op_fs1.
        rewrite lookup_insert_eq. eauto.
    + destruct Hrest as (He & _ & _ & Hfs). split.
      * intros resp Hok. destruct He as [e He]. congruence.
      * intros _ _. split; [intros path ok H; cbn in H; intuition discriminate|].
        split; [|exact He]. rewrite Hfs. unfold op_fs2, op_fs1.
        rewrite lookup_insert. case_decide; [eauto|].
        rewrite lookup_insert_eq. eauto.
    + destruct Hrest as (He & _ & _ & Hfs). split.
      * intros resp Hok. destruct He as [e He]. congruence.
      * intros _ _. split; [intros path ok H; cbn in H; intuition discriminate|].
        split; [|exact He]. rewrite Hfs. unfold op_fs2, op_fs1.
        rewrite lookup_insert. case_decide; [eauto|].
        rewrite lookup_insert_eq. eauto.
  - assert (videoId' = videoId) as ->.
    { destruct Hv as [Hid' _ _ _ _ _ _]. congruence. }
    change staged with (ro_staged videoId).
    apply RO_run_terminal in Hrun. destruct Hrun as (evs & Hevs & Htr & Hrest).
    rewrite (newEvents_app _ _ _ Htr).
    destruct (ro_terminal o) as [|[]]; cbn [ro_events] in Hevs;
      try discriminate Hevs; injection Hevs as <-;
      unfold ro_write, ro_upload, ro_commit.
    + destruct Hrest as (Hr & _ & _ & Hfs). split.
      * intros resp Hok. rewrite Hr in Hok.
        destruct (rm_staged_ok o); [|discriminate Hok].
        rewrite Hfs. cbn [removeIf]. split; [cbn; auto 10|].
        apply lookup_delete_eq.
      * intros _ Hno. exfalso. eapply Hno. cbn. eauto 10.
    + destruct Hrest as (He & _). split.
      * intros resp Hok. destruct He as [e He]. congruence.
      * intros Hw. cbn in Hw. intuition discriminate.
    + destruct Hrest as (He & _ & _ & Hfs). split.
      * intros resp Hok. destruct He as [e He]. congruence.
      * intros _ _. split; [intros path ok H; cbn in H; intuition discriminate|].
        split; [|exact He]. rewrite Hfs. unfold ro_fs1.
        rewrite lookup_insert_eq. eauto.
    + destruct Hrest as (He & _ & _ & Hfs). split.
      * intros resp Hok. destruct He as [e He]. congruence.
      * intros _ _. split; [intros path ok H; cbn in H; intuition discriminate|].
        split; [|exact He]. rewrite Hfs. unfold ro_fs1.
        rewrite lookup_insert_eq. eauto.
Qed.

(** C5.  A request of an authenticated user who does not own the record
    is answered by [UserForbiddenError], and a request of the owner whose
    video file declares a media type other than [video/mp4] by a
    [BadRequestError]; in both cases the world is the one the request
    found: no temp file, no event (hence no probe), no change of the record
    store. *)
Theorem rejected_before_any_staging
    (handler : Handler) env o cfg req w videoId token userId video :
  In handler handlers ->
  params_videoId req = Some videoId ->
  videoId <> "" ->
  getBearerToken env (headers req) = Ok token ->
  validateJWT env token (jwtSecret cfg) = Ok userId ->
  db w !! videoId = Some video ->
  (userID video <> userId ->
   handler env o cfg req w =
     (Throw (UserForbiddenError "Forbidden access to the video"), w)) /\
  (forall form videoFile,
      userID video = userId ->
      body req = Some form ->
      FormData_get form "video" = Some (FormFile videoFile) ->
      type videoFile <> "video/mp4" ->
      exists message,
        handler env o cfg req w = (Throw (BadRequestError message), w)).
Proof.
  intros Hin Hid Hne Htok Hjwt Hfound.
  destruct videoId as [|c videoId']; [congruence|].
  destruct Hin as [<-|[<-|[]]].
  - split.
    + unfold OrientationPrefixed.handlerUploadVideo.
      rewrite Hid.
      unfold bind at 1. unfold lift at 1. rewrite Htok.
      unfold bind at 1. unfold lift at 1. rewrite Hjwt.
      unfold bind at 1. unfold getVideo at 1. rewrite Hfound.
      intros Hown. apply String.eqb_neq in Hown. rewrite Hown. reflexivity.
    + intros form videoFile Hown Hbody Hget Hty.
      apply String.eqb_eq in Hown. apply String.eqb_neq in Hty.
      destruct (size videoFile >? OrientationPrefixed.MAX_UPLOAD_SIZE) eqn:Hs;
        eexists; unfold OrientationPrefixed.handlerUploadVideo; rewrite Hid;
        unfold bind at 1; unfold lift at 1; rewrite Htok;
        unfold bind at 1; unfold lift at 1; rewrite Hjwt;
        unfold bind at 1; unfold getVideo at 1; rewrite Hfound;
        rewrite Hown; cbn [negb];
        unfold bind at 1; unfold formData; rewrite Hbody; unfold ret at 1;
        rewrite Hget, Hs, ?Hty; reflexivity.
  - split.
    + unfold RandomOpaque.handlerUploadVideo.
      rewrite Hid.
      unfold bind at 1. unfold lift at 1. rewrite Htok.
      unfold bind at 1. unfold lift at 1. rewrite Hjwt.
      unfold bind at 1. unfold getVideo at 1. rewrite Hfound.
      intros Hown. apply String.eqb_neq in Hown. rewrite Hown. reflexivity.
    + intros form videoFile Hown Hbody Hget Hty.
      apply String.eqb_eq in Hown. apply String.eqb_neq in Hty.
      destruct (size videoFile >? RandomOpaque.MAX_UPLOAD_SIZE) eqn:Hs;
        eexists; unfold RandomOpaque.handlerUploadVideo; rewrite Hid;
        unfold bind at 1; unfold lift at 1; rewrite Htok;
        unfold bind at 1; unfold lift at 1; rewrite Hjwt;
        unfold bind at 1; unfold getVideo at 1; rewrite Hfound;
        rewrite Hown; cbn [negb];
        unfold bind at 1; unfold formData; rewrite Hbody; unfold ret at 1;
        rewrite Hget, Hs, ?Hty; reflexivity.
Qed.

(** C6.  For a request that passes the checks made before the size check,
    with a video file declared [video/mp4]: a file of at most 2^30 bytes,
    so one of exactly 2^30 bytes, reaches the staging write, which is the
    first event of the run; a file of more than 2^30 bytes, so one of
    exactly 2^30 + 1 bytes, is answered by [BadRequestError] in the world
    the request found. *)
Theorem upload_size_cap
    (handler : Handler) env o cfg req w videoId token video form videoFile ext :
  In handler handlers ->
  params_videoId req = Some videoId ->
  videoId <> "" ->
  getBearerToken env (headers req) = Ok token ->
  validateJWT env token (jwtSecret cfg) = Ok (userID video) ->
  db w !! videoId = Some video ->
  body req = Some form ->
  FormData_get form "video" = Some (FormFile videoFile) ->
  type videoFile = "video/mp4" ->
  mediaTypeToExt env "video/mp4" = Ok ext ->
  (size videoFile <= 2 ^ 30 ->
   exists rest,
     newEvents w (snd (handler env o cfg req w)) =
       EvWrite (Path.join ["/tmp"; videoId +:+ ".mp4"]) (write_ok o) :: rest) /\
  (2 ^ 30 < size videoFile ->
   handler env o cfg req w =
     (Throw (BadRequestError
               "Video file exceeds the maximum allowed size of 1GB"), w)).
Proof.
  intros Hin Hid Hne Htok Hjwt Hfound Hbody Hget Hty Hext. split.
  - intros Hsize.
    assert (Hv : Validated env cfg req w videoId video videoFile).
    { split; eauto. }
    destruct Hin as [<-|[<-|[]]].
    + pose proof (OP_handler_validated env o cfg req w _ _ _ Hv) as Hrun.
      apply OP_run_terminal in Hrun. destruct Hrun as [Htr _].
      rewrite (newEvents_app _ _ _ Htr).
      unfold op_terminal.
      destruct (write_ok o); cbn [negb op_events]; [|eexists; reflexivity].
      destruct (probeResult o); [|eexists; reflexivity].
      destruct (negb (ffmpeg_exited o =? 0)); [eexists; reflexivity|].
      destruct (negb (s3_ok o)); [eexists; reflexivity|].
      destruct (negb (update_ok o)); eexists; reflexivity.
    + pose proof (RO_handler_validated env o cfg req w _ _ _ _ Hv Hext) as Hrun.
      apply RO_run_terminal in Hrun. destruct Hrun as (evs & Hevs & Htr & _).
      rewrite (newEvents_app _ _ _ Htr).
      unfold ro_terminal in Hevs.
      destruct (write_ok o); cbn [negb ro_events] in Hevs;
        [|injection Hevs as <-; eexists; reflexivity].
      destruct (negb (s3_ok o)); [injection Hevs as <-; eexists; reflexivity|].
      destruct (negb (update_ok o)); injection Hevs as <-; eexists; reflexivity.
  - intros Hsize.
    destruct videoId as [|c videoId']; [congruence|].
    destruct Hin as [<-|[<-|[]]].
    + unfold OrientationPrefixed.handlerUploadVideo.
      rewrite Hid.
      unfold bind at 1. unfold lift at 1. rewrite Htok.
      unfold bind at 1. unfold lift at 1. rewrite Hjwt.
      unfold bind at 1. unfold getVideo at 1. rewrite Hfound.
      rewrite String.eqb_refl. cbn [negb].
      unfold bind at 1. unfold formData. rewrite Hbody. unfold ret at 1.
      rewrite Hget.
      assert (Hs : (size videoFile >? OrientationPrefixed.MAX_UPLOAD_SIZE) = true).
      { rewrite Z.gtb_ltb. apply Z.ltb_lt. exact Hsize. }
      rewrite Hs. reflexivity.
    + unfold RandomOpaque.handlerUploadVideo.
      rewrite Hid.
      unfold bind at 1. unfold lift at 1. rewrite Htok.
      unfold bind at 1. unfold lift at 1. rewrite Hjwt.
      unfold bind at 1. unfold getVideo at 1. rewrite Hfound.
      rewrite String.eqb_refl. cbn [negb].
      unfold bind at 1. unfold formData. rewrite Hbody. unfold ret at 1.
      rewrite Hget.
      assert (Hs : (size videoFile >? RandomOpaque.MAX_UPLOAD_SIZE) = true).
      { rewrite Z.gtb_ltb. apply Z.ltb_lt. exact Hsize. }
      rewrite Hs. reflexivity.
Qed.

(** C7 (amended).  A request that passes validation makes the handler
    that probes perform the transitions staging, probe, rewrite, upload and
    commit in that order, up to the first stage that fails, where the run
    ends with an exception and an untouched record store: probe and rewrite
    read the staged file, the upload reads the rewritten file, the commit
    carries the URL of the uploaded key.  The handler of
    [src/api/videos.ts] performs staging, upload and commit only, in that
    order and up to the first stage that fails. *)
Theorem ingestion_transitions_in_order
    env o cfg req w videoId video videoFile :
  Validated env cfg req w videoId video videoFile ->
  (let run := OrientationPrefixed.handlerUploadVideo env o cfg req w in
   newEvents w (snd run) =
     op_events o cfg videoId video (op_geometry o) (op_terminal o) /\
   (forall stage, op_terminal o = Failed stage ->
      (exists e, fst run = Throw e) /\ db (snd run) = db w) /\
   (op_terminal o = Committed ->
      db (snd run) =
        updateRow (op_record cfg videoId video (op_geometry o)) (db w))) /\
  (forall ext,
      mediaTypeToExt env "video/mp4" = Ok ext ->
      let run := RandomOpaque.handlerUploadVideo env o cfg req w in
      Some (newEvents w (snd run)) =
        ro_events o cfg videoId video ext (ro_terminal o) /\
      (forall stage, ro_terminal o = Failed stage ->
         (exists e, fst run = Throw e) /\ db (snd run) = db w) /\
      (ro_terminal o = Committed ->
         db (snd run) = updateRow (ro_record o cfg video ext) (db w))).
Proof.
  intros Hv. split.
  - pose proof (OP_handler_validated env o cfg req w _ _ _ Hv) as Hrun.
    apply OP_run_terminal in Hrun. destruct Hrun as [Htr Hrest].
    cbv zeta. rewrite (newEvents_app _ _ _ Htr).
    split; [reflexivity|]. split.
    + intros stage Ht. rewrite Ht in Hrest. tauto.
    + intros Ht. rewrite Ht in Hrest. tauto.
  - intros ext Hext.
    pose proof (RO_handler_validated env o cfg req w _ _ _ _ Hv Hext) as Hrun.
    apply RO_run_terminal in Hrun. destruct Hrun as (evs & Hevs & Htr & Hrest).
    cbv zeta. rewrite (newEvents_app _ _ _ Htr).
    split; [symmetry; exact Hevs|]. split.
    + intros stage Ht. rewrite Ht in Hrest. tauto.
    + intros Ht. rewrite Ht in Hrest. tauto.
Qed.




(* ===================================================================== *)
(** * The staged path and the rewriter's output path *)
(* ===================================================================== *)

Lemma split_head_excludes (sep : ascii) (s : string) :
  match JsString.split sep s with
  | key :: _ => JsString.includes sep key = false
  | [] => False
  end.
Proof.
  induction s as [|c rest IH]; cbn [JsString.split].
  - reflexivity.
  - destruct (Ascii.eqb_spec c sep) as [->|Hne].
    + reflexivity.
    + destruct (JsString.split sep rest) as [|hd tl]; [destruct IH|].
      cbn [JsString.includes]. rewrite IH.
      apply Ascii.eqb_neq in Hne. rewrite Hne. reflexivity.
Qed.

Lemma string_length_append (a b : string) :
  String.length (a +:+ b) = (String.length a + String.length b)%nat.
Proof.
  induction a as [|c a IH]; [reflexivity|].
  change (String c a +:+ b) with (String c (a +:+ b)).
  cbn [String.length]. rewrite IH. reflexivity.
Qed.

Lemma append_cancel_r (a b s : string) : a +:+ s = b +:+ s -> a = b.
Proof.
  revert b. induction a as [|c a IH]; intros [|d b] H.
  - reflexivity.
  - exfalso. apply (f_equal String.length) in H.
    rewrite !string_length_append in H. cbn [String.length] in H. lia.
  - exfalso. apply (f_equal String.length) in H.
    rewrite !string_length_append in H. cbn [String.length] in H. lia.
  - change (String c (a +:+ s) = String d (b +:+ s)) in H.
    injection H as -> H. f_equal. apply IH. exact H.
Qed.

(** The path the rewriter writes is never the path the cleanup removes
    when the input path contains a dot, as every staged path does. *)
Lemma outputFilePath_is_not_removed (inputFilePath : string) :
  JsString.includes "." inputFilePath = true ->
  OrientationPrefixed.outputFilePath inputFilePath
    <> inputFilePath +:+ ".processed.mp4".
Proof.
  intros Hdot Heq. unfold OrientationPrefixed.outputFilePath in Heq.
  pose proof (split_head_excludes "." inputFilePath) as Hkey.
  destruct (JsString.split "." inputFilePath) as [|key rest]; [destruct Hkey|].
  apply append_cancel_r in Heq. subst key. congruence.
Qed.

Lemma includes_append (c : ascii) (a b : string) :
  JsString.includes c (a +:+ b) = JsString.includes c a || JsString.includes c b.
Proof.
  induction a as [|d a IH]; [reflexivity|].
  change (String d a +:+ b) with (String d (a +:+ b)).
  cbn [JsString.includes]. rewrite IH. apply orb_assoc.
Qed.

(** Splitting [a ++ b] when [b] has no separator: [b] extends the last
    segment of [a]. *)
Lemma split_append (sep : ascii) (a b : string) :
  JsString.includes sep b = false ->
  exists init last,
    JsString.split sep a = init ++ [last] /\
    JsString.split sep (a +:+ b) = init ++ [last +:+ b].
Proof.
  intros Hb. induction a as [|c a IH].
  - exists [], "". split; [reflexivity|].
    change ("" +:+ b) with b.
    induction b as [|d b IHb]; [reflexivity|].
    cbn [JsString.includes] in Hb. apply orb_false_iff in Hb as [Hd Hb].
    cbn [JsString.split]. rewrite Hd. rewrite (IHb Hb). reflexivity.
  - destruct IH as (init & last & Ha & Hab).
    change (String c a +:+ b) with (String c (a +:+ b)).
    cbn [JsString.split]. rewrite Ha, Hab.
    destruct (Ascii.eqb c sep).
    + exists ("" :: init), last. split; reflexivity.
    + destruct init as [|hd tl].
      * exists [], (String c last). split; reflexivity.
      * exists (String c hd :: tl), last. split; reflexivity.
Qed.

Lemma join_last_includes (c : ascii) (sep : string) (l : list string) (x : string) :
  JsString.includes c x = true ->
  JsString.includes c (JsString.join sep (l ++ [x])) = true.
Proof.
  intros Hx. induction l as [|y l IH]; [exact Hx|].
  change ((y :: l) ++ [x]) with (y :: (l ++ [x])).
  destruct (l ++ [x]) as [|z rest] eqn:El.
  - destruct l; discriminate El.
  - change (JsString.join sep (y :: z :: rest))
      with (y +:+ sep +:+ JsString.join sep (z :: rest)).
    rewrite !includes_append, IH. rewrite !orb_true_r. reflexivity.
Qed.

Lemma endsWith_append (c : ascii) (a b : string) :
  b <> "" -> JsString.endsWith c (a +:+ b) = JsString.endsWith c b.
Proof.
  intros Hb. induction a as [|d a IH]; [reflexivity|].
  change (String d a +:+ b) with (String d (a +:+ b)).
  cbn [JsString.endsWith]. destruct (a +:+ b) eqn:E; [|exact IH].
  destruct a; [|discriminate E]. contradiction.
Qed.

(** Every staged path contains a dot: the last segment of the joined
    path ends in [.mp4] and survives the normalization. *)
Lemma tempFilePath_includes_dot (videoId : string) :
  JsString.includes "." (OrientationPrefixed.tempFilePath videoId) = true.
Proof.
  unfold OrientationPrefixed.tempFilePath, Path.join.
  assert (Hne : String.eqb (videoId +:+ ".mp4") "" = false).
  { destruct videoId; reflexivity. }
  cbn [List.filter]. change (String.eqb "/tmp" "") with false. cbn [negb].
  rewrite Hne. cbn [negb].
  change (JsString.join "/" ["/tmp"; videoId +:+ ".mp4"])
    with ("/tmp/" +:+ (videoId +:+ ".mp4")).
  set (base := "/tmp/" +:+ videoId).
  assert (Hpath : "/tmp/" +:+ (videoId +:+ ".mp4") = base +:+ ".mp4").
  { unfold base. cbn. induction videoId; reflexivity. }
  rewrite Hpath. unfold Path.normalize.
  assert (Hne2 : String.eqb (base +:+ ".mp4") "" = false) by reflexivity.
  rewrite Hne2.
  assert (Habs : JsString.startsWith "/" (base +:+ ".mp4") = true) by reflexivity.
  rewrite Habs. cbn [negb].
  rewrite (endsWith_append "/" base ".mp4") by discriminate.
  change (JsString.endsWith "/" ".mp4") with false.
  destruct (split_append "/" base ".mp4" eq_refl) as (init & last & _ & Hsplit).
  unfold Path.normalizeString. rewrite Hsplit, fold_left_app. cbn [fold_left].
  set (stack := fold_left (Path.pushSegment false) init []).
  assert (Hpush : Path.pushSegment false stack (last +:+ ".mp4")
                  = (last +:+ ".mp4") :: stack).
  { unfold Path.pushSegment.
    assert (Hlen : forall short : string,
               (String.length short < 4)%nat ->
               String.eqb (last +:+ ".mp4") short = false).
    { intros short Hs. apply String.eqb_neq. intros H.
      apply (f_equal String.length) in H.
      rewrite string_length_append in H. cbn [String.length] in H. lia. }
    assert (H1 : String.eqb (last +:+ ".mp4") "" = false) by (apply Hlen; cbn; lia).
    assert (H2 : String.eqb (last +:+ ".mp4") "." = false) by (apply Hlen; cbn; lia).
    assert (H3 : String.eqb (last +:+ ".mp4") ".." = false) by (apply Hlen; cbn; lia).
    rewrite H1, H2, H3. reflexivity. }
  rewrite Hpush. cbn [rev].
  assert (Hdot : JsString.includes "."
                   (JsString.join "/" (rev stack ++ [last +:+ ".mp4"])) = true).
  { apply join_last_includes. rewrite includes_append. apply orb_true_r. }
  destruct (String.eqb (JsString.join "/" (rev stack ++ [last +:+ ".mp4"])) "")
    eqn:Hempty.
  - apply String.eqb_eq in Hempty. rewrite Hempty in Hdot. discriminate Hdot.
  - rewrite includes_append, Hdot. apply orb_true_r.
Qed.

(** C4 (evaluation at the failing input).  The path the rewriter writes
    is never the path the cleanup removes, whatever the video id.  For the
    video id [abc] the staged file is [/tmp/abc.mp4] and the rewriter writes
    [/tmp/abc.processed.mp4], whereas the cleanup removes
    [/tmp/abc.mp4.processed.mp4]: after a run in which every call succeeds
    the rewritten file is still in the temporary storage. *)
Theorem rewritten_file_survives_cleanup :
  let staged := OrientationPrefixed.tempFilePath "abc" in
  let run := OrientationPrefixed.handlerUploadVideo Sample.env
               (Sample.allGood 1280 720) Sample.cfg Sample.goodRequest
               Sample.world in
  (forall videoId,
      OrientationPrefixed.outputFilePath (OrientationPrefixed.tempFilePath videoId)
      <> OrientationPrefixed.tempFilePath videoId +:+ ".processed.mp4") /\
  staged = "/tmp/abc.mp4" /\
  OrientationPrefixed.outputFilePath staged = "/tmp/abc.processed.mp4" /\
  staged +:+ ".processed.mp4" = "/tmp/abc.mp4.processed.mp4" /\
  (exists resp, fst run = Ok resp) /\
  In (EvRm "/tmp/abc.mp4.processed.mp4" true) (newEvents Sample.world (snd run)) /\
  (forall ok, ~ In (EvRm "/tmp/abc.processed.mp4" ok)
                (newEvents Sample.world (snd run))) /\
  tmpfs (snd run) !! "/tmp/abc.processed.mp4"
    = Some (FastStart (Raw "ftyp-moov-mdat")).
Proof.
  cbv zeta.
  split.
  { intros videoId. apply outputFilePath_is_not_removed.
    apply tempFilePath_includes_dot. }
  split; [vm_compute; reflexivity|].
  split; [vm_compute; reflexivity|].
  split; [vm_compute; reflexivity|].
  split; [eexists; vm_compute; reflexivity|].
  split; [vm_compute; auto 10|].
  split; [|vm_compute; reflexivity].
  intros ok H. vm_compute in H. intuition discriminate.
Qed.

(* ===================================================================== *)
(** * Rounding of binary64 operations *)
(* ===================================================================== *)

Lemma digits2_pos_size (p : positive) : digits2_pos p = Pos.size p.
Proof. induction p; cbn; congruence. Qed.

Lemma digits2_log2 (p : positive) :
  Z.pos (digits2_pos p) = Z.log2 (Z.pos p) + 1.
Proof.
  rewrite digits2_pos_size.
  destruct p; cbn [Z.log2 Pos.size]; lia.
Qed.

(** A positive with [d] binary digits lies in [2^(d-1), 2^d). *)
Lemma digits2_bounds (p : positive) :
  2 ^ (Z.pos (digits2_pos p) - 1) <= Z.pos p < 2 ^ Z.pos (digits2_pos p).
Proof.
  rewrite digits2_log2.
  replace (Z.log2 (Z.pos p) + 1 - 1) with (Z.log2 (Z.pos p)) by lia.
  replace (Z.log2 (Z.pos p) + 1) with (Z.succ (Z.log2 (Z.pos p))) by lia.
  apply Z.log2_spec. lia.
Qed.

Lemma digits2_unique (p : positive) (d : Z) :
  2 ^ (d - 1) <= Z.pos p < 2 ^ d -> Z.pos (digits2_pos p) = d.
Proof.
  intros [Hlo Hhi].
  assert (0 < d).
  { destruct (Z.le_gt_cases d 0) as [Hd|Hd]; [|exact Hd].
    assert (2 ^ d <= 2 ^ 0) by (apply Z.pow_le_mono_r; lia).
    change (2 ^ 0) with 1 in *. lia. }
  rewrite digits2_log2.
  assert (Z.log2 (Z.pos p) = d - 1); [|lia].
  apply Z.log2_unique; [lia|].
  replace (Z.succ (d - 1)) with d by lia. lia.
Qed.

Lemma shr_1_m (mrs : shr_record) :
  0 <= shr_m mrs -> shr_m (shr_1 mrs) = shr_m mrs / 2.
Proof.
  destruct mrs as [m r s]. cbn [shr_m]. intros Hm.
  destruct m as [|p|p]; [reflexivity| |lia].
  destruct p as [p|p|]; cbn [shr_1 shr_m].
  - change (Z.pos p~1) with (2 * Z.pos p + 1). apply Z.div_unique with (r := 1); lia.
  - change (Z.pos p~0) with (2 * Z.pos p). apply Z.div_unique with (r := 0); lia.
  - reflexivity.
Qed.

Lemma iter_pos_shr_m (n : positive) (mrs : shr_record) :
  0 <= shr_m mrs ->
  shr_m (SpecFloat.iter_pos shr_1 n mrs) = shr_m mrs / 2 ^ Z.pos n.
Proof.
  revert mrs. induction n as [n IH|n IH|]; intros mrs Hm; cbn [SpecFloat.iter_pos].
  - assert (H1 : 0 <= shr_m (shr_1 mrs)).
    { rewrite shr_1_m by exact Hm. apply Z.div_pos; lia. }
    assert (H2 : 0 <= shr_m (SpecFloat.iter_pos shr_1 n (shr_1 mrs))).
    { rewrite IH by exact H1. apply Z.div_pos; [exact H1|]. apply Z.pow_pos_nonneg; lia. }
    rewrite IH by exact H2. rewrite IH by exact H1. rewrite shr_1_m by exact Hm.
    assert (Hp : 2 ^ Z.pos n~1 = 2 * (2 ^ Z.pos n * 2 ^ Z.pos n)).
    { change (Z.pos n~1) with (2 * Z.pos n + 1).
      replace (2 * Z.pos n + 1) with (Z.succ (2 * Z.pos n)) by lia.
      rewrite Z.pow_succ_r by lia. rewrite Z.pow_twice_r. reflexivity. }
    assert (0 < 2 ^ Z.pos n) by (apply Z.pow_pos_nonneg; lia).
    rewrite !Z.div_div by lia. rewrite Hp. reflexivity.
  - assert (H2 : 0 <= shr_m (SpecFloat.iter_pos shr_1 n mrs)).
    { rewrite IH by exact Hm. apply Z.div_pos; [exact Hm|]. apply Z.pow_pos_nonneg; lia. }
    rewrite IH by exact H2. rewrite IH by exact Hm.
    assert (Hp : 2 ^ Z.pos n~0 = 2 ^ Z.pos n * 2 ^ Z.pos n).
    { change (Z.pos n~0) with (2 * Z.pos n). apply Z.pow_twice_r. }
    assert (0 < 2 ^ Z.pos n) by (apply Z.pow_pos_nonneg; lia).
    rewrite !Z.div_div by lia. rewrite Hp. reflexivity.
  - rewrite shr_1_m by exact Hm. reflexivity.
Qed.

(** Shifting right by [n] digits truncates the mantissa. *)
Lemma shr_m_spec (mrs : shr_record) (e n : Z) :
  0 <= shr_m mrs -> 0 <= n ->
  shr_m (fst (shr mrs e n)) = shr_m mrs / 2 ^ n /\ snd (shr mrs e n) = e + n.
Proof.
  intros Hm Hn. destruct n as [|n|n]; [| |lia]; cbn [shr fst snd].
  - rewrite Z.div_1_r. split; [reflexivity|lia].
  - split; [apply iter_pos_shr_m; exact Hm|reflexivity].
Qed.

Lemma round_nearest_even_range (m : Z) (l : location) :
  round_nearest_even m l = m \/ round_nearest_even m l = m + 1.
Proof.
  destruct l as [|[]]; cbn [round_nearest_even]; auto.
  destruct (Z.even m); auto.
Qed.

Lemma shr_record_of_loc_m (m : Z) (l : location) :
  shr_m (shr_record_of_loc m l) = m.
Proof. destruct l as [|[]]; reflexivity. Qed.

Lemma fexp_normal (e : Z) : -1021 <= e -> fexp 53 1024 e = e - 53.
Proof. intros H. unfold fexp, emin. lia. Qed.

(** Rounding a significand of at least 53 digits: the result is a normal
    double within one unit in the last place. *)
Lemma binary_round_aux_bounds (sx : bool) (mx : positive) (ex : Z) (lx : location) :
  let d := Z.pos (digits2_pos mx) in
  53 <= d -> -1021 <= d + ex -> d + ex <= 1023 ->
  exists (m : positive) (e : Z),
    binary_round_aux 53 1024 sx (Z.pos mx) ex lx = S754_finite sx m e /\
    2 ^ 52 <= Z.pos m < 2 ^ 53 /\
    ex + (d - 53) <= e <= ex + (d - 53) + 1 /\
    (Z.pos m - 1) * 2 ^ (e - ex) <= Z.pos mx /\
    Z.pos mx + 1 <= (Z.pos m + 1) * 2 ^ (e - ex).
Proof.
  intros d Hd Hlo Hhi.
  pose proof (digits2_bounds mx) as Hmx. fold d in Hmx.
  set (n := d - 53).
  assert (Hn : 0 <= n) by (unfold n; lia).
  assert (Hpn : 0 < 2 ^ n) by (apply Z.pow_pos_nonneg; lia).
  assert (Hd1 : 2 ^ (d - 1) = 2 ^ 52 * 2 ^ n).
  { rewrite <- Z.pow_add_r by lia. f_equal. unfold n. lia. }
  assert (Hd2 : 2 ^ d = 2 ^ 53 * 2 ^ n).
  { rewrite <- Z.pow_add_r by lia. f_equal. unfold n. lia. }
  set (f := Z.pos mx / 2 ^ n).
  assert (Hf1 : f * 2 ^ n <= Z.pos mx).
  { unfold f. rewrite Z.mul_comm. apply Z.mul_div_le. exact Hpn. }
  assert (Hf2 : Z.pos mx < (f + 1) * 2 ^ n).
  { unfold f. rewrite Z.mul_comm.
    replace (Z.pos mx / 2 ^ n + 1) with (Z.succ (Z.pos mx / 2 ^ n)) by lia.
    apply Z.mul_succ_div_gt. exact Hpn. }
  assert (Hf : 2 ^ 52 <= f < 2 ^ 53).
  { split.
    - unfold f. apply Z.div_le_lower_bound; [exact Hpn|]. lia.
    - unfold f. apply Z.div_lt_upper_bound; [exact Hpn|]. lia. }
  unfold binary_round_aux.
  (* first shift *)
  unfold shr_fexp at 1. cbn [Zdigits2]. fold d.
  rewrite fexp_normal by lia.
  replace (d + ex - 53 - ex) with n by (unfold n; lia).
  destruct (shr_m_spec (shr_record_of_loc (Z.pos mx) lx) ex n) as [Hm1 He1];
    [rewrite shr_record_of_loc_m; lia|exact Hn|].
  rewrite shr_record_of_loc_m in Hm1. fold f in Hm1.
  destruct (shr (shr_record_of_loc (Z.pos mx) lx) ex n) as [mrs' e'].
  cbn [fst snd] in Hm1, He1. subst e'.
  rewrite Hm1.
  set (m1 := round_nearest_even f (loc_of_shr_record mrs')).
  assert (Hm1r : m1 = f \/ m1 = f + 1) by apply round_nearest_even_range.
  (* second shift *)
  destruct (Z.eq_dec m1 (2 ^ 53)) as [Hov|Hov].
  - (* the rounding overflows to 2^53 *)
    rewrite Hov. change (2 ^ 53) with (Z.pos (2 ^ 53)%positive) at 1.
    unfold shr_fexp. cbn [Zdigits2].
    change (Z.pos (digits2_pos (2 ^ 53))) with 54.
    rewrite fexp_normal by lia.
    replace (54 + (ex + n) - 53 - (ex + n)) with 1 by lia.
    cbn [shr shr_record_of_loc SpecFloat.iter_pos shr_1 shr_m].
    cbn [Pos.pow Pos.iter Pos.mul].
    replace (ex + n + 1 <=? 1024 - 53) with true
      by (symmetry; apply Z.leb_le; unfold n; lia).
    eexists. exists (ex + n + 1).
    split; [reflexivity|].
    split; [cbn; lia|].
    split; [unfold n; lia|].
    replace (ex + n + 1 - ex) with (Z.succ n) by lia.
    rewrite Z.pow_succ_r by lia.
    assert (f = 2 ^ 53 - 1) by lia.
    change (Z.pos 4503599627370496) with (2 ^ 52).
    split; nia.
  - (* no overflow *)
    assert (Hm1b : 2 ^ 52 <= m1 < 2 ^ 53) by lia.
    destruct m1 as [|p1|p1] eqn:Ep1; [lia| |lia].
    assert (Hdig : Z.pos (digits2_pos p1) = 53).
    { apply digits2_unique. change (53 - 1) with 52. lia. }
    unfold shr_fexp. cbn [Zdigits2]. rewrite Hdig.
    rewrite fexp_normal by lia.
    replace (53 + (ex + n) - 53 - (ex + n)) with 0 by lia.
    cbn [shr shr_record_of_loc shr_m].
    replace (ex + n <=? 1024 - 53) with true
      by (symmetry; apply Z.leb_le; unfold n; lia).
    exists p1, (ex + n).
    split; [reflexivity|].
    split; [lia|].
    split; [unfold n; lia|].
    replace (ex + n - ex) with n by lia.
    split; nia.
Qed.

(** A significand of exactly 53 digits is left as it is. *)
Lemma binary_round_aux_exact (sx : bool) (m : positive) (e : Z) :
  Z.pos (digits2_pos m) = 53 -> -1074 <= e <= 971 ->
  binary_round_aux 53 1024 sx (Z.pos m) e loc_Exact = S754_finite sx m e.
Proof.
  intros Hd He. unfold binary_round_aux, shr_fexp. cbn [Zdigits2].
  rewrite Hd. rewrite fexp_normal by lia.
  replace (53 + e - 53 - e) with 0 by lia.
  cbn [shr shr_record_of_loc loc_of_shr_record round_nearest_even shr_m Zdigits2].
  rewrite Hd. rewrite fexp_normal by lia.
  replace (53 + e - 53 - e) with 0 by lia.
  cbn [shr shr_record_of_loc shr_m].
  replace (e <=? 1024 - 53) with true by (symmetry; apply Z.leb_le; lia).
  reflexivity.
Qed.

Lemma Pos_iter_xO (p n : positive) :
  Z.pos (Pos.iter xO p n) = Z.pos p * 2 ^ Z.pos n.
Proof.
  induction n as [|n IH] using Pos.peano_ind.
  - cbn [Pos.iter]. change (2 ^ 1) with 2. lia.
  - rewrite Pos.iter_succ. change (Z.pos (Pos.iter xO p n)~0) with (2 * Z.pos (Pos.iter xO p n)).
    rewrite IH. rewrite Pos2Z.inj_succ. rewrite Z.pow_succ_r by lia. lia.
Qed.

(** [shl_align] towards a smaller exponent multiplies the significand. *)
Lemma shl_align_spec (m : positive) (e e' : Z) :
  e' <= e ->
  Z.pos (fst (shl_align m e e')) = Z.pos m * 2 ^ (e - e') /\
  snd (shl_align m e e') = e'.
Proof.
  intros H. unfold shl_align.
  destruct (e' - e) as [|d|d] eqn:Hd; [|lia|]; cbn [fst snd].
  - replace (e - e') with 0 by lia. lia.
  - rewrite Pos_iter_xO. replace (e - e') with (Z.pos d) by lia. lia.
Qed.

Lemma shl_align_id (m : positive) (e e' : Z) :
  e <= e' -> shl_align m e e' = (m, e).
Proof.
  intros H. unfold shl_align.
  destruct (e' - e) as [|d|d] eqn:Hd; [reflexivity|reflexivity|lia].
Qed.

Lemma digits2_shift (p : positive) (k : Z) (q : positive) :
  0 <= k -> Z.pos q = Z.pos p * 2 ^ k ->
  Z.pos (digits2_pos q) = Z.pos (digits2_pos p) + k.
Proof.
  intros Hk Hq. apply digits2_unique. rewrite Hq.
  pose proof (digits2_bounds p) as [Hlo Hhi].
  assert (0 < 2 ^ k) by (apply Z.pow_pos_nonneg; lia).
  replace (Z.pos (digits2_pos p) + k - 1) with (Z.pos (digits2_pos p) - 1 + k) by lia.
  rewrite !Z.pow_add_r by lia. nia.
Qed.

(** What [binary_round] makes of an exact positive significand: below 54
    digits the value is kept, above the result is within one unit in the
    last place. *)
Lemma binary_round_spec (sx : bool) (p : positive) (ez : Z) :
  let d := Z.pos (digits2_pos p) in
  -1021 <= d + ez -> d + ez <= 1023 ->
  exists (m : positive) (e : Z),
    binary_round 53 1024 sx p ez = S754_finite sx m e /\
    2 ^ 52 <= Z.pos m < 2 ^ 53 /\
    d + ez - 53 <= e /\
    (d <= 53 -> e = d + ez - 53 /\ Z.pos m = Z.pos p * 2 ^ (53 - d)).
Proof.
  intros d Hlo Hhi. unfold binary_round. fold d.
  rewrite fexp_normal by lia.
  destruct (Z.le_gt_cases d 53) as [Hd|Hd].
  - (* at most 53 digits: exact *)
    destruct (shl_align_spec p ez (d + ez - 53)) as [Hm He]; [lia|].
    destruct (shl_align p ez (d + ez - 53)) as [mz ez'].
    cbn [fst snd] in Hm, He. subst ez'.
    replace (ez - (d + ez - 53)) with (53 - d) in Hm by lia.
    assert (Hdz : Z.pos (digits2_pos mz) = 53).
    { rewrite (digits2_shift p (53 - d) mz) by (lia || exact Hm). fold d. lia. }
    rewrite binary_round_aux_exact by (lia || exact Hdz).
    exists mz, (d + ez - 53).
    split; [reflexivity|].
    pose proof (digits2_bounds mz) as Hb. rewrite Hdz in Hb.
    change (53 - 1) with 52 in Hb.
    split; [exact Hb|]. split; [lia|]. intros _. split; [reflexivity|exact Hm].
  - (* more than 53 digits: rounded *)
    rewrite shl_align_id by lia.
    destruct (binary_round_aux_bounds sx p ez loc_Exact)
      as (m & e & Hr & Hm & He & _); [fold d; lia..|].
    fold d in He.
    exists m, e. split; [exact Hr|]. split; [exact Hm|]. split; [lia|]. lia.
Qed.

(** The double of an integer between 1 and 2^53. *)
Lemma ofZ_spec (z : Z) :
  1 <= z < 2 ^ 53 ->
  exists (m : positive) (a : Z),
    binary_normalize 53 1024 z 0 false = S754_finite false m (- a) /\
    0 <= a <= 52 /\
    Z.pos m = z * 2 ^ a /\
    2 ^ 52 <= Z.pos m < 2 ^ 53.
Proof.
  intros Hz. destruct z as [|p|p]; [lia| |lia].
  cbn [binary_normalize].
  pose proof (digits2_bounds p) as Hb.
  set (d := Z.pos (digits2_pos p)) in *.
  assert (Hd : 1 <= d <= 53).
  { split; [unfold d; lia|].
    destruct (Z.le_gt_cases d 53) as [H|H]; [exact H|].
    assert (2 ^ 53 <= 2 ^ (d - 1)) by (apply Z.pow_le_mono_r; lia). lia. }
  destruct (binary_round_spec false p 0) as (m & e & Hr & Hm & _ & Hex);
    [fold d; lia..|].
  fold d in Hex. destruct (Hex ltac:(lia)) as [-> Hmz].
  exists m, (53 - d). split; [rewrite Hr; f_equal; lia|].
  split; [lia|]. split; [exact Hmz|exact Hm].
Qed.

(** The quotient of two normal positive doubles is a normal double within
    one unit in the last place of the exact quotient. *)
Lemma SFdiv_spec (m1 m2 : positive) (e1 e2 : Z) :
  2 ^ 52 <= Z.pos m1 < 2 ^ 53 -> 2 ^ 52 <= Z.pos m2 < 2 ^ 53 ->
  -400 <= e1 <= 400 -> -400 <= e2 <= 400 ->
  exists (m : positive) (e : Z),
    SFdiv 53 1024 (S754_finite false m1 e1) (S754_finite false m2 e2)
      = S754_finite false m e /\
    2 ^ 52 <= Z.pos m < 2 ^ 53 /\
    e1 - e2 - 53 <= e <= e1 - e2 - 53 + 2 /\
    (Z.pos m - 1) * 2 ^ (e - (e1 - e2 - 53)) * Z.pos m2 <= Z.pos m1 * 2 ^ 53 /\
    Z.pos m1 * 2 ^ 53 < (Z.pos m + 1) * 2 ^ (e - (e1 - e2 - 53)) * Z.pos m2.
Proof.
  intros Hm1 Hm2 He1 He2.
  assert (Hd1 : Z.pos (digits2_pos m1) = 53)
    by (apply digits2_unique; change (53 - 1) with 52; lia).
  assert (Hd2 : Z.pos (digits2_pos m2) = 53)
    by (apply digits2_unique; change (53 - 1) with 52; lia).
  unfold SFdiv, SFdiv_core_binary. cbn [Zdigits2 xorb].
  rewrite Hd1, Hd2. rewrite fexp_normal by lia.
  set (e0 := e1 - e2 - 53).
  replace (53 + e1 - (53 + e2) - 53) with e0 by (unfold e0; lia).
  rewrite Z.min_l by (unfold e0; lia).
  replace (e1 - e2 - e0) with 53 by (unfold e0; lia).
  rewrite Z.shiftl_mul_pow2 by lia.
  pose proof (Z_div_mod (Z.pos m1 * 2 ^ 53) (Z.pos m2) ltac:(lia)) as Hdiv.
  destruct (Z.div_eucl (Z.pos m1 * 2 ^ 53) (Z.pos m2)) as [q r].
  destruct Hdiv as [Hq Hr].
  assert (Hqb : 2 ^ 52 <= q < 2 ^ 54).
  { split.
    - destruct (Z.le_gt_cases (2 ^ 52) q) as [H|H]; [exact H|exfalso].
      assert (Z.pos m2 * q <= Z.pos m2 * (2 ^ 52 - 1))
        by (apply Z.mul_le_mono_nonneg_l; lia).
      lia.
    - destruct (Z.le_gt_cases (2 ^ 54) q) as [H|H]; [exfalso|lia].
      assert (Z.pos m2 * 2 ^ 54 <= Z.pos m2 * q)
        by (apply Z.mul_le_mono_nonneg_l; lia).
      lia. }
  destruct q as [|q|q]; [lia| |lia].
  pose proof (digits2_bounds q) as Hdq.
  set (d := Z.pos (digits2_pos q)) in *.
  assert (Hd : 53 <= d <= 54).
  { split.
    - destruct (Z.le_gt_cases 53 d) as [H|H]; [exact H|exfalso].
      assert (2 ^ d <= 2 ^ 52) by (apply Z.pow_le_mono_r; lia). lia.
    - destruct (Z.le_gt_cases d 54) as [H|H]; [exact H|exfalso].
      assert (2 ^ 54 <= 2 ^ (d - 1)) by (apply Z.pow_le_mono_r; lia). lia. }
  destruct (binary_round_aux_bounds false q e0 (new_location (Z.pos m2) r))
    as (m & e & Hres & Hm & He & Hlo & Hhi); [fold d; unfold e0; lia..|].
  fold d in He.
  exists m, e. split; [exact Hres|]. split; [exact Hm|].
  split; [lia|].
  assert (Hk : 0 < 2 ^ (e - e0)) by (apply Z.pow_pos_nonneg; lia).
  split.
  - assert ((Z.pos m - 1) * 2 ^ (e - e0) * Z.pos m2 <= Z.pos q * Z.pos m2)
      by (apply Z.mul_le_mono_nonneg_r; lia).
    lia.
  - assert ((Z.pos q + 1) * Z.pos m2 <= (Z.pos m + 1) * 2 ^ (e - e0) * Z.pos m2)
      by (apply Z.mul_le_mono_nonneg_r; lia).
    lia.
Qed.

(** The difference of two positive doubles is the rounding of the exact
    difference of their aligned significands. *)
Lemma SFsub_spec (mx my : positive) (ex ey : Z) :
  let ez := Z.min ex ey in
  let D := Z.pos mx * 2 ^ (ex - ez) - Z.pos my * 2 ^ (ey - ez) in
  SFsub 53 1024 (S754_finite false mx ex) (S754_finite false my ey) =
  match D with
  | Z0 => S754_zero false
  | Z.pos p => binary_round 53 1024 false p ez
  | Z.neg p => binary_round 53 1024 true p ez
  end.
Proof.
  intros ez D. unfold SFsub. fold ez. cbn [cond_Zopp].
  destruct (shl_align_spec mx ex ez) as [Hx _]; [unfold ez; lia|].
  destruct (shl_align_spec my ey ez) as [Hy _]; [unfold ez; lia|].
  rewrite Hx, Hy. fold D.
  destruct D; reflexivity.
Qed.

Lemma SFltb_finite (m mt : positive) (e et : Z) :
  SFltb (S754_finite false m e) (S754_finite false mt et) =
  match e ?= et with
  | Lt => true
  | Gt => false
  | Eq => Z.pos m <? Z.pos mt
  end.
Proof.
  unfold SFltb, SFcompare. destruct (e ?= et); reflexivity.
Qed.

(** The comparison of the test when the difference is small enough to be
    exact: the distance [|D| * 2^ez] is compared with [mt * 2^-56]. *)
Lemma SFltb_abs_sub_exact (mx my mt : positive) (ex ey : Z) :
  let ez := Z.min ex ey in
  let D := Z.pos mx * 2 ^ (ex - ez) - Z.pos my * 2 ^ (ey - ez) in
  2 ^ 52 <= Z.pos mt < 2 ^ 53 ->
  -56 <= ez <= 0 ->
  Z.abs D < 2 ^ 53 ->
  SFltb (SFabs (SFsub 53 1024 (S754_finite false mx ex) (S754_finite false my ey)))
        (S754_finite false mt (-56))
  = (Z.abs D * 2 ^ (ez + 56) <? Z.pos mt).
Proof.
  intros ez D Hmt Hez HD.
  rewrite SFsub_spec. fold ez D.
  assert (Hgen : forall (s : bool) (p : positive),
             Z.pos p = Z.abs D ->
             SFltb (SFabs (binary_round 53 1024 s p ez)) (S754_finite false mt (-56))
             = (Z.abs D * 2 ^ (ez + 56) <? Z.pos mt)).
  { intros s p Hp. rewrite <- Hp.
    pose proof (digits2_bounds p) as Hb.
    set (d := Z.pos (digits2_pos p)) in *.
    assert (Hd : 1 <= d <= 53).
    { split; [unfold d; lia|].
      destruct (Z.le_gt_cases d 53) as [H|H]; [exact H|].
      assert (2 ^ 53 <= 2 ^ (d - 1)) by (apply Z.pow_le_mono_r; lia). lia. }
    destruct (binary_round_spec s p ez) as (m & e & Hr & Hm & _ & Hex);
      [fold d; lia..|].
    fold d in Hex. destruct (Hex ltac:(lia)) as [He Hmz].
    rewrite Hr. cbn [SFabs]. rewrite SFltb_finite.
    destruct (Z.compare_spec e (-56)) as [Heq|Hlt|Hgt].
    - rewrite Hmz. replace (53 - d) with (ez + 56) by lia. reflexivity.
    - symmetry. apply Z.ltb_lt.
      assert (Z.pos p * 2 ^ (ez + 56) < 2 ^ d * 2 ^ (ez + 56)).
      { apply Z.mul_lt_mono_pos_r; [apply Z.pow_pos_nonneg; lia|lia]. }
      rewrite <- Z.pow_add_r in H by lia.
      assert (2 ^ (d + (ez + 56)) <= 2 ^ 52) by (apply Z.pow_le_mono_r; lia).
      lia.
    - symmetry. apply Z.ltb_ge.
      assert (2 ^ (d - 1) * 2 ^ (ez + 56) <= Z.pos p * 2 ^ (ez + 56)).
      { apply Z.mul_le_mono_nonneg_r; [apply Z.pow_nonneg; lia|lia]. }
      rewrite <- Z.pow_add_r in H by lia.
      assert (2 ^ 53 <= 2 ^ (d - 1 + (ez + 56))) by (apply Z.pow_le_mono_r; lia).
      lia. }
  destruct D as [|p|p] eqn:ED.
  - cbn. symmetry. apply Z.ltb_lt. lia.
  - apply Hgen. reflexivity.
  - apply Hgen. reflexivity.
Qed.

(** The comparison of the test fails when the difference is large. *)
Lemma SFltb_abs_sub_far (mx my mt : positive) (ex ey j : Z) :
  let ez := Z.min ex ey in
  let D := Z.pos mx * 2 ^ (ex - ez) - Z.pos my * 2 ^ (ey - ez) in
  0 <= j -> 2 ^ j <= Z.abs D ->
  -56 < j + ez - 52 ->
  -1021 <= ez -> Z.abs D < 2 ^ 400 -> ez <= 400 ->
  SFltb (SFabs (SFsub 53 1024 (S754_finite false mx ex) (S754_finite false my ey)))
        (S754_finite false mt (-56))
  = false.
Proof.
  intros ez D Hj HD Hfar Hez1 HD2 Hez2.
  rewrite SFsub_spec. fold ez D.
  assert (Hgen : forall (s : bool) (p : positive),
             Z.pos p = Z.abs D ->
             SFltb (SFabs (binary_round 53 1024 s p ez)) (S754_finite false mt (-56))
             = false).
  { intros s p Hp.
    pose proof (digits2_bounds p) as Hb.
    set (d := Z.pos (digits2_pos p)) in *.
    assert (Hd : j + 1 <= d <= 400).
    { split.
      - destruct (Z.le_gt_cases (j + 1) d) as [H|H]; [exact H|exfalso].
        assert (2 ^ d <= 2 ^ j) by (apply Z.pow_le_mono_r; lia). lia.
      - destruct (Z.le_gt_cases d 400) as [H|H]; [exact H|exfalso].
        assert (2 ^ 400 <= 2 ^ (d - 1)) by (apply Z.pow_le_mono_r; lia). lia. }
    destruct (binary_round_spec s p ez) as (m & e & Hr & Hm & He & _);
      [fold d; lia..|].
    fold d in He.
    rewrite Hr. cbn [SFabs]. rewrite SFltb_finite.
    destruct (Z.compare_spec e (-56)) as [Heq|Hlt|Hgt]; [lia|lia|reflexivity]. }
  destruct D as [|p|p] eqn:ED.
  - exfalso. cbn in HD. assert (0 < 2 ^ j) by (apply Z.pow_pos_nonneg; lia). lia.
  - apply Hgen. reflexivity.
  - apply Hgen. reflexivity.
Qed.

(** The quotient of two integers below 2^31, as doubles: a normal double
    [mr * 2^-E] within one unit in the last place of [w / h]. *)
Lemma div_ofZ_spec (w h : Z) :
  1 <= w < 2 ^ 31 -> 1 <= h < 2 ^ 31 ->
  exists (mr : positive) (E : Z),
    JsNumber.div (JsNumber.ofZ w) (JsNumber.ofZ h) = S754_finite false mr (- E) /\
    2 ^ 52 <= Z.pos mr < 2 ^ 53 /\
    21 <= E <= 84 /\
    (Z.pos mr - 1) * h <= w * 2 ^ E /\
    w * 2 ^ E < (Z.pos mr + 1) * h.
Proof.
  intros Hw Hh.
  destruct (ofZ_spec w) as (m1 & A & Hof1 & HA & Hm1 & Hc1); [lia|].
  destruct (ofZ_spec h) as (m2 & B & Hof2 & HB & Hm2 & Hc2); [lia|].
  assert (HA' : 22 <= A).
  { destruct (Z.le_gt_cases 22 A) as [H|H]; [exact H|exfalso].
    assert (2 ^ A <= 2 ^ 21) by (apply Z.pow_le_mono_r; lia).
    assert (w * 2 ^ A <= w * 2 ^ 21) by (apply Z.mul_le_mono_nonneg_l; lia).
    lia. }
  assert (HB' : 22 <= B).
  { destruct (Z.le_gt_cases 22 B) as [H|H]; [exact H|exfalso].
    assert (2 ^ B <= 2 ^ 21) by (apply Z.pow_le_mono_r; lia).
    assert (h * 2 ^ B <= h * 2 ^ 21) by (apply Z.mul_le_mono_nonneg_l; lia).
    lia. }
  unfold JsNumber.div, JsNumber.ofZ, JsNumber.prec, JsNumber.emax.
  rewrite Hof1, Hof2.
  destruct (SFdiv_spec m1 m2 (- A) (- B)) as (m & e & Hr & Hm & He & Hlo & Hhi);
    [lia..|].
  set (e0 := - A - - B - 53) in *.
  set (k := e - e0) in *.
  exists m, (- e). rewrite Z.opp_involutive.
  split; [exact Hr|]. split; [exact Hm|].
  split; [unfold e0 in *; lia|].
  assert (Hk : 0 <= k <= 2) by (unfold k; lia).
  assert (Hpow : 2 ^ A * 2 ^ 53 = 2 ^ (- e) * (2 ^ k * 2 ^ B)).
  { rewrite <- !Z.pow_add_r by (unfold k, e0 in *; lia).
    f_equal. unfold k, e0. lia. }
  assert (Hpos : 0 < 2 ^ k * 2 ^ B).
  { apply Z.mul_pos_pos; apply Z.pow_pos_nonneg; lia. }
  rewrite Hm1, Hm2 in Hlo, Hhi.
  set (a := 2 ^ A) in *. set (b := 2 ^ B) in *. set (c := 2 ^ k) in *.
  set (g := 2 ^ (- e)) in *. set (t := 2 ^ 53) in *.
  split.
  - apply (Z.mul_le_mono_pos_r _ _ (c * b) Hpos).
    replace (w * g * (c * b)) with (w * a * t).
    + replace ((Z.pos m - 1) * h * (c * b)) with ((Z.pos m - 1) * c * (h * b)).
      * exact Hlo.
      * ring.
    + rewrite <- !Z.mul_assoc. rewrite Hpow. reflexivity.
  - apply (Z.mul_lt_mono_pos_r (c * b) _ _ Hpos).
    replace (w * g * (c * b)) with (w * a * t).
    + replace ((Z.pos m + 1) * h * (c * b)) with ((Z.pos m + 1) * c * (h * b)).
      * exact Hhi.
      * ring.
    + rewrite <- !Z.mul_assoc. rewrite Hpow. reflexivity.
Qed.

Lemma sixteenNinths_eq :
  sixteenNinths = S754_finite false 8006399337547548 (-52).
Proof. vm_compute. reflexivity. Qed.

Lemma nineSixteenths_eq :
  nineSixteenths = S754_finite false 5066549580791808 (-53).
Proof. vm_compute. reflexivity. Qed.

Lemma lit_0_1_eq :
  JsNumber.lit_0_1 = S754_finite false 7205759403792794 (-56).
Proof. vm_compute. reflexivity. Qed.

Lemma pow2_ge (a b : Z) : 0 <= a <= b -> 2 ^ a <= 2 ^ b.
Proof. intros H. apply Z.pow_le_mono_r; lia. Qed.

(** The test against 16/9 on a normal double [mr * 2^-E]: it can succeed
    in the binade of 16/9 only, where the difference is exact. *)
Lemma near_sixteenNinths (mr : positive) (E : Z) :
  2 ^ 52 <= Z.pos mr < 2 ^ 53 -> 21 <= E <= 84 ->
  near (S754_finite false mr (- E)) sixteenNinths =
  if E =? 52
  then Z.abs (Z.pos mr - 8006399337547548) * 16 <? 7205759403792794
  else false.
Proof.
  intros Hm HE. unfold near, JsNumber.ltb, JsNumber.abs, JsNumber.sub,
    JsNumber.prec, JsNumber.emax.
  rewrite sixteenNinths_eq, lit_0_1_eq.
  destruct (Z.eqb_spec E 52) as [->|Hne].
  - rewrite SFltb_abs_sub_exact;
      change (Z.min (- (52)) (-52)) with (-52);
      change (- (52) - -52) with 0; change (-52 - -52) with 0;
      change (-52 + 56) with 4; change (2 ^ 0) with 1; change (2 ^ 4) with 16;
      rewrite ?Z.mul_1_r; [reflexivity|lia..].
  - destruct (Z.le_gt_cases E 51) as [Hle|Hgt].
    + apply SFltb_abs_sub_far with (j := 49).
      * lia.
      * rewrite Z.min_r by lia.
        replace (-52 - -52) with 0 by lia. change (2 ^ 0) with 1.
        replace (- E - -52) with (52 - E) by lia.
        pose proof (pow2_ge 1 (52 - E) ltac:(lia)) as Hp.
        change (2 ^ 1) with 2 in Hp.
        assert (Z.pos mr * 2 <= Z.pos mr * 2 ^ (52 - E))
          by (apply Z.mul_le_mono_nonneg_l; lia).
        lia.
      * rewrite Z.min_r by lia. lia.
      * lia.
      * rewrite Z.min_r by lia.
        replace (-52 - -52) with 0 by lia. change (2 ^ 0) with 1.
        replace (- E - -52) with (52 - E) by lia.
        pose proof (pow2_ge (52 - E) 31 ltac:(lia)) as Hp.
        pose proof (pow2_ge 0 (52 - E) ltac:(lia)) as Hp0.
        change (2 ^ 0) with 1 in Hp0.
        assert (Z.pos mr * 2 ^ (52 - E) <= 2 ^ 53 * 2 ^ 31)
          by (apply Z.mul_le_mono_nonneg; lia).
        assert (2 ^ 53 * 2 ^ 31 < 2 ^ 400) by (vm_compute; reflexivity).
        lia.
      * lia.
    + apply SFltb_abs_sub_far with (j := E - 1).
      * lia.
      * rewrite Z.min_l by lia.
        replace (- E - - E) with 0 by lia. change (2 ^ 0) with 1.
        replace (-52 - - E) with (E - 52) by lia.
        replace (E - 1) with (51 + (E - 52)) by lia.
        rewrite Z.pow_add_r by lia.
        pose proof (pow2_ge 1 (E - 52) ltac:(lia)) as Hp.
        change (2 ^ 1) with 2 in Hp.
        set (P := 2 ^ (E - 52)) in *. lia.
      * rewrite Z.min_l by lia. lia.
      * lia.
      * rewrite Z.min_l by lia.
        replace (- E - - E) with 0 by lia. change (2 ^ 0) with 1.
        replace (-52 - - E) with (E - 52) by lia.
        pose proof (pow2_ge (E - 52) 32 ltac:(lia)) as Hp.
        pose proof (pow2_ge 0 (E - 52) ltac:(lia)) as Hp0.
        change (2 ^ 0) with 1 in Hp0.
        assert (2 ^ 53 * 2 ^ 32 < 2 ^ 400) by (vm_compute; reflexivity).
        set (P := 2 ^ (E - 52)) in *. lia.
      * lia.
Qed.

(** The test against 9/16 on a normal double [mr * 2^-E]: it can succeed
    in the binade of 9/16 and in the one below, where the difference is
    exact. *)
Lemma near_nineSixteenths (mr : positive) (E : Z) :
  2 ^ 52 <= Z.pos mr < 2 ^ 53 -> 21 <= E <= 84 ->
  near (S754_finite false mr (- E)) nineSixteenths =
  if E =? 53
  then Z.abs (Z.pos mr - 5066549580791808) * 8 <? 7205759403792794
  else if E =? 54
  then Z.abs (Z.pos mr - 10133099161583616) * 4 <? 7205759403792794
  else false.
Proof.
  intros Hm HE. unfold near, JsNumber.ltb, JsNumber.abs, JsNumber.sub,
    JsNumber.prec, JsNumber.emax.
  rewrite nineSixteenths_eq, lit_0_1_eq.
  destruct (Z.eqb_spec E 53) as [->|Hne53].
  { rewrite SFltb_abs_sub_exact;
      change (Z.min (- (53)) (-53)) with (-53);
      change (- (53) - -53) with 0; change (-53 - -53) with 0;
      change (-53 + 56) with 3; change (2 ^ 0) with 1; change (2 ^ 3) with 8;
      rewrite ?Z.mul_1_r; [reflexivity|lia..]. }
  destruct (Z.eqb_spec E 54) as [->|Hne54].
  { rewrite SFltb_abs_sub_exact;
      change (Z.min (- (54)) (-53)) with (-54);
      change (- (54) - -54) with 0; change (-53 - -54) with 1;
      change (-54 + 56) with 2; change (2 ^ 0) with 1; change (2 ^ 1) with 2;
      change (2 ^ 2) with 4;
      rewrite ?Z.mul_1_r;
      change (5066549580791808 * 2) with 10133099161583616;
      [reflexivity|lia..]. }
  destruct (Z.le_gt_cases E 52) as [Hle|Hgt].
  - apply SFltb_abs_sub_far with (j := 51).
    + lia.
    + rewrite Z.min_r by lia.
      replace (-53 - -53) with 0 by lia. change (2 ^ 0) with 1.
      replace (- E - -53) with (53 - E) by lia.
      pose proof (pow2_ge 1 (53 - E) ltac:(lia)) as Hp.
      change (2 ^ 1) with 2 in Hp.
      assert (Z.pos mr * 2 <= Z.pos mr * 2 ^ (53 - E))
        by (apply Z.mul_le_mono_nonneg_l; lia).
      lia.
    + rewrite Z.min_r by lia. lia.
    + lia.
    + rewrite Z.min_r by lia.
      replace (-53 - -53) with 0 by lia. change (2 ^ 0) with 1.
      replace (- E - -53) with (53 - E) by lia.
      pose proof (pow2_ge (53 - E) 32 ltac:(lia)) as Hp.
      pose proof (pow2_ge 0 (53 - E) ltac:(lia)) as Hp0.
      change (2 ^ 0) with 1 in Hp0.
      assert (Z.pos mr * 2 ^ (53 - E) <= 2 ^ 53 * 2 ^ 32)
        by (apply Z.mul_le_mono_nonneg; lia).
      assert (2 ^ 53 * 2 ^ 32 < 2 ^ 400) by (vm_compute; reflexivity).
      lia.
    + lia.
  - apply SFltb_abs_sub_far with (j := E - 2).
    + lia.
    + rewrite Z.min_l by lia.
      replace (- E - - E) with 0 by lia. change (2 ^ 0) with 1.
      replace (-53 - - E) with (E - 53) by lia.
      replace (E - 2) with (51 + (E - 53)) by lia.
      rewrite Z.pow_add_r by lia.
      pose proof (pow2_ge 2 (E - 53) ltac:(lia)) as Hp.
      change (2 ^ 2) with 4 in Hp.
      set (P := 2 ^ (E - 53)) in *. lia.
    + rewrite Z.min_l by lia. lia.
    + lia.
    + rewrite Z.min_l by lia.
      replace (- E - - E) with 0 by lia. change (2 ^ 0) with 1.
      replace (-53 - - E) with (E - 53) by lia.
      pose proof (pow2_ge (E - 53) 31 ltac:(lia)) as Hp.
      pose proof (pow2_ge 0 (E - 53) ltac:(lia)) as Hp0.
      change (2 ^ 0) with 1 in Hp0.
      assert (2 ^ 53 * 2 ^ 31 < 2 ^ 400) by (vm_compute; reflexivity).
      set (P := 2 ^ (E - 53)) in *. lia.
    + lia.
Qed.

(** The exact rule as two integer comparisons. *)
Lemma exactAspectRatio_integers (w : Z) (h : positive) :
  exactAspectRatio w h =
  if 10 * Z.abs (9 * w - 16 * Z.pos h) <? 9 * Z.pos h then landscape
  else if 10 * Z.abs (16 * w - 9 * Z.pos h) <? 16 * Z.pos h then portrait
  else other.
Proof.
  unfold exactAspectRatio, Qcompare, Qabs, Qminus, Qplus, Qopp.
  cbn [Qnum Qden].
  repeat match goal with
  | |- context [?a ?= 1 * Z.pos (h * 9)] =>
      replace a with (10 * Z.abs (9 * w - 16 * Z.pos h)) by lia;
      replace (1 * Z.pos (h * 9)) with (9 * Z.pos h) by lia
  | |- context [?a ?= 1 * Z.pos (h * 16)] =>
      replace a with (10 * Z.abs (16 * w - 9 * Z.pos h)) by lia;
      replace (1 * Z.pos (h * 16)) with (16 * Z.pos h) by lia
  end.
  unfold Z.ltb.
  destruct (10 * Z.abs (9 * w - 16 * Z.pos h) ?= 9 * Z.pos h);
    destruct (10 * Z.abs (16 * w - 9 * Z.pos h) ?= 16 * Z.pos h);
    reflexivity.
Qed.

(** On integer sizes whose ratio is not exactly 1/10 away from 16/9, the
    test on doubles agrees with the exact comparison. *)
Lemma near_sixteenNinths_exact (w h : Z) :
  1 <= w < 2 ^ 31 -> 1 <= h < 2 ^ 31 ->
  10 * Z.abs (9 * w - 16 * h) <> 9 * h ->
  near (JsNumber.div (JsNumber.ofZ w) (JsNumber.ofZ h)) sixteenNinths =
  (10 * Z.abs (9 * w - 16 * h) <? 9 * h).
Proof.
  intros Hw Hh Hnb.
  destruct (div_ofZ_spec w h Hw Hh) as (mr & E & -> & Hm & HE & Hlo & Hhi).
  rewrite near_sixteenNinths by assumption.
  destruct (Z.eqb_spec E 52) as [->|Hne].
  - change (2 ^ 52) with 4503599627370496 in Hlo, Hhi.
    destruct (Z.ltb_spec (Z.abs (Z.pos mr - 8006399337547548) * 16) 7205759403792794)
      as [Hn|Hn];
    destruct (Z.ltb_spec (10 * Z.abs (9 * w - 16 * h)) (9 * h)) as [Hx|Hx];
    try reflexivity; exfalso.
    + (* the doubles are near, the exact ratio is not *)
      assert (Z.pos mr * h <= 8456759300284597 * h)
        by (apply Z.mul_le_mono_nonneg_r; lia).
      assert (7556039374810499 * h <= Z.pos mr * h)
        by (apply Z.mul_le_mono_nonneg_r; lia).
      lia.
    + (* the exact ratio is near, the doubles are not *)
      destruct (Z.le_gt_cases 8006399337547548 (Z.pos mr)) as [Hge|Hlt].
      * assert (8456759300284598 * h <= Z.pos mr * h)
          by (apply Z.mul_le_mono_nonneg_r; lia).
        lia.
      * assert (Z.pos mr * h <= 7556039374810498 * h)
          by (apply Z.mul_le_mono_nonneg_r; lia).
        lia.
  - symmetry. apply Z.ltb_ge.
    destruct (Z.le_gt_cases E 51) as [Hle|Hgt].
    + pose proof (pow2_ge E 51 ltac:(lia)) as Hp.
      assert (w * 2 ^ E <= w * 2 ^ 51) by (apply Z.mul_le_mono_nonneg_l; lia).
      assert (4503599627370496 * h <= Z.pos mr * h)
        by (apply Z.mul_le_mono_nonneg_r; lia).
      change (2 ^ 51) with 2251799813685248 in *.
      lia.
    + pose proof (pow2_ge 53 E ltac:(lia)) as Hp.
      assert (w * 2 ^ 53 <= w * 2 ^ E) by (apply Z.mul_le_mono_nonneg_l; lia).
      assert (Z.pos mr * h <= 9007199254740991 * h)
        by (apply Z.mul_le_mono_nonneg_r; lia).
      change (2 ^ 53) with 9007199254740992 in *.
      lia.
Qed.

(** The same for 9/16. *)
Lemma near_nineSixteenths_exact (w h : Z) :
  1 <= w < 2 ^ 31 -> 1 <= h < 2 ^ 31 ->
  10 * Z.abs (16 * w - 9 * h) <> 16 * h ->
  near (JsNumber.div (JsNumber.ofZ w) (JsNumber.ofZ h)) nineSixteenths =
  (10 * Z.abs (16 * w - 9 * h) <? 16 * h).
Proof.
  intros Hw Hh Hnb.
  destruct (div_ofZ_spec w h Hw Hh) as (mr & E & -> & Hm & HE & Hlo & Hhi).
  rewrite near_nineSixteenths by assumption.
  destruct (Z.eqb_spec E 53) as [->|Hne53].
  { change (2 ^ 53) with 9007199254740992 in Hlo, Hhi.
    destruct (Z.ltb_spec (Z.abs (Z.pos mr - 5066549580791808) * 8) 7205759403792794)
      as [Hn|Hn];
    destruct (Z.ltb_spec (10 * Z.abs (16 * w - 9 * h)) (16 * h)) as [Hx|Hx];
    try reflexivity; exfalso.
    - assert (Z.pos mr * h <= 5967269506265907 * h)
        by (apply Z.mul_le_mono_nonneg_r; lia).
      assert (4165829655317709 * h <= Z.pos mr * h)
        by (apply Z.mul_le_mono_nonneg_r; lia).
      lia.
    - destruct (Z.le_gt_cases 5066549580791808 (Z.pos mr)) as [Hge|Hlt].
      + assert (5967269506265908 * h <= Z.pos mr * h)
          by (apply Z.mul_le_mono_nonneg_r; lia).
        lia.
      + assert (Z.pos mr * h <= 4165829655317708 * h)
          by (apply Z.mul_le_mono_nonneg_r; lia).
        lia. }
  destruct (Z.eqb_spec E 54) as [->|Hne54].
  { change (2 ^ 54) with 18014398509481984 in Hlo, Hhi.
    assert (Z.pos mr * h <= 9007199254740991 * h)
      by (apply Z.mul_le_mono_nonneg_r; lia).
    destruct (Z.ltb_spec (Z.abs (Z.pos mr - 10133099161583616) * 4) 7205759403792794)
      as [Hn|Hn];
    destruct (Z.ltb_spec (10 * Z.abs (16 * w - 9 * h)) (16 * h)) as [Hx|Hx];
    try reflexivity; exfalso.
    - assert (8331659310635418 * h <= Z.pos mr * h)
        by (apply Z.mul_le_mono_nonneg_r; lia).
      lia.
    - assert (Z.pos mr * h <= 8331659310635417 * h)
        by (apply Z.mul_le_mono_nonneg_r; lia).
      lia. }
  symmetry. apply Z.ltb_ge.
  destruct (Z.le_gt_cases E 52) as [Hle|Hgt].
  - pose proof (pow2_ge E 52 ltac:(lia)) as Hp.
    assert (w * 2 ^ E <= w * 2 ^ 52) by (apply Z.mul_le_mono_nonneg_l; lia).
    assert (4503599627370496 * h <= Z.pos mr * h)
      by (apply Z.mul_le_mono_nonneg_r; lia).
    change (2 ^ 52) with 4503599627370496 in *.
    lia.
  - pose proof (pow2_ge 55 E ltac:(lia)) as Hp.
    assert (w * 2 ^ 55 <= w * 2 ^ E) by (apply Z.mul_le_mono_nonneg_l; lia).
    assert (Z.pos mr * h <= 9007199254740991 * h)
      by (apply Z.mul_le_mono_nonneg_r; lia).
    change (2 ^ 55) with 36028797018963968 in *.
    lia.
Qed.

(* ===================================================================== *)
(** * The classification and the exact rule *)
(* ===================================================================== *)

Lemma aspectRatio_near (width height : JsNumber.number) :
  OrientationPrefixed.aspectRatio width height =
  if near (JsNumber.div width height) sixteenNinths then landscape
  else if near (JsNumber.div width height) nineSixteenths then portrait
  else other.
Proof. reflexivity. Qed.

Lemma aspectRatio_zero_width (h : Z) :
  1 <= h < 2 ^ 31 ->
  OrientationPrefixed.aspectRatio (JsNumber.ofZ 0) (JsNumber.ofZ h) = other.
Proof.
  intros Hh.
  destruct (ofZ_spec h) as (m & a & Hof & _); [lia|].
  unfold OrientationPrefixed.aspectRatio, JsNumber.div at 1 3, JsNumber.ofZ at 1 2 5 6.
  unfold JsNumber.prec, JsNumber.emax. rewrite Hof.
  reflexivity.
Qed.

(** C2 (counterexample).  The ratio 151/90 is exactly 1/10 below 16/9, so
    the rule in exact arithmetic answers [other]; the handler's
    classification of a 151 x 90 stream is [landscape], because the
    rounded difference of the doubles 151/90 and 16/9 is below the double
    [0.1]. *)
Lemma boundary_ratio_below_is_landscape :
  (Qabs ((151 # 90) - (16 # 9)) == 1 # 10)%Q /\
  exactAspectRatio 151 90 = other /\
  OrientationPrefixed.aspectRatio (JsNumber.ofZ 151) (JsNumber.ofZ 90) = landscape.
Proof.
  split; [reflexivity|]. split; vm_compute; reflexivity.
Qed.

(** C2 (amended).  The classification is [landscape] when the rounded
    distance of the double [width / height] from the double [16/9] is
    strictly below the double [0.1], else [portrait] when its rounded
    distance from [9/16] is, else [other].  For an integer width and a
    positive integer height below 2^31 whose exact ratio is not exactly 1/10
    away from 16/9 or from 9/16, this is the rule in exact arithmetic:
    [landscape] if |w/h - 16/9| < 1/10, else [portrait] if
    |w/h - 9/16| < 1/10, else [other].  At a distance of exactly 1/10 the
    strict comparison is made on the rounded values: 169/90 is classified
    [other], whereas 151/90 is classified [landscape]. *)
Theorem classification_rule :
  (forall width height : JsNumber.number,
      OrientationPrefixed.aspectRatio width height =
      if near (JsNumber.div width height) sixteenNinths then landscape
      else if near (JsNumber.div width height) nineSixteenths then portrait
      else other) /\
  (forall (w : Z) (h : positive),
      0 <= w < 2 ^ 31 -> Z.pos h < 2 ^ 31 ->
      ~ (Qabs ((w # h) - (16 # 9)) == 1 # 10)%Q ->
      ~ (Qabs ((w # h) - (9 # 16)) == 1 # 10)%Q ->
      OrientationPrefixed.aspectRatio (JsNumber.ofZ w) (JsNumber.ofZ (Z.pos h)) =
      exactAspectRatio w h) /\
  OrientationPrefixed.aspectRatio (JsNumber.ofZ 169) (JsNumber.ofZ 90) = other /\
  OrientationPrefixed.aspectRatio (JsNumber.ofZ 151) (JsNumber.ofZ 90) = landscape.
Proof.
  split; [exact aspectRatio_near|].
  split; [|split; vm_compute; reflexivity].
  intros w h Hw Hh Hb1 Hb2.
  assert (Hn1 : 10 * Z.abs (9 * w - 16 * Z.pos h) <> 9 * Z.pos h).
  { intros Heq. apply Hb1.
    unfold Qeq, Qabs, Qminus, Qplus, Qopp. cbn [Qnum Qden]. lia. }
  assert (Hn2 : 10 * Z.abs (16 * w - 9 * Z.pos h) <> 16 * Z.pos h).
  { intros Heq. apply Hb2.
    unfold Qeq, Qabs, Qminus, Qplus, Qopp. cbn [Qnum Qden]. lia. }
  rewrite exactAspectRatio_integers.
  destruct (Z.eq_dec w 0) as [->|Hw0].
  - rewrite aspectRatio_zero_width by lia.
    destruct (Z.ltb_spec (10 * Z.abs (9 * 0 - 16 * Z.pos h)) (9 * Z.pos h)); [lia|].
    destruct (Z.ltb_spec (10 * Z.abs (16 * 0 - 9 * Z.pos h)) (16 * Z.pos h)); [lia|].
    reflexivity.
  - rewrite aspectRatio_near.
    rewrite near_sixteenNinths_exact by lia.
    rewrite near_nineSixteenths_exact by lia.
    reflexivity.
Qed.

(** C2 (amended) on a 1280 x 720 stream. *)
Lemma classification_rule_witness :
  (0 <= 1280 < 2 ^ 31 /\ 720 < 2 ^ 31 /\
   ~ (Qabs ((1280 # 720) - (16 # 9)) == 1 # 10)%Q /\
   ~ (Qabs ((1280 # 720) - (9 # 16)) == 1 # 10)%Q) /\
  OrientationPrefixed.aspectRatio (JsNumber.ofZ 1280) (JsNumber.ofZ 720) =
  exactAspectRatio 1280 720.
Proof.
  assert (H1 : 0 <= 1280 < 2 ^ 31) by lia.
  assert (H2 : 720 < 2 ^ 31) by lia.
  assert (H3 : ~ (Qabs ((1280 # 720) - (16 # 9)) == 1 # 10)%Q)
    by (vm_compute; discriminate).
  assert (H4 : ~ (Qabs ((1280 # 720) - (9 # 16)) == 1 # 10)%Q)
    by (vm_compute; discriminate).
  split; [auto|].
  exact (proj1 (proj2 classification_rule) 1280 720%positive H1 H2 H3 H4).
Defined.

(** C10.  Once the probe has exited with status 0 and reported a first
    stream with numeric width and height, [getVideoAspectRatio] returns a
    classification and does not raise.  With a height of zero, of either
    sign, the ratio is not finite whatever the width, both comparisons
    fail, and the classification is [other]. *)
Theorem classification_is_total o output first rest path w :
  ffprobe_exited o = 0 ->
  ffprobe_stdout o = Some output ->
  streams output = Some (first :: rest) ->
  fst (OrientationPrefixed.getVideoAspectRatio o path w) =
    Ok (OrientationPrefixed.aspectRatio (width first) (height first)) /\
  (forall s,
      height first = S754_zero s ->
      let ratio := JsNumber.div (width first) (height first) in
      JsNumber.isFinite ratio = false /\
      JsNumber.ltb
        (JsNumber.abs
           (JsNumber.sub ratio (JsNumber.div (JsNumber.ofZ 16) (JsNumber.ofZ 9))))
        JsNumber.lit_0_1 = false /\
      JsNumber.ltb
        (JsNumber.abs
           (JsNumber.sub ratio (JsNumber.div (JsNumber.ofZ 9) (JsNumber.ofZ 16))))
        JsNumber.lit_0_1 = false /\
      OrientationPrefixed.aspectRatio (width first) (height first) = other).
Proof.
  intros Hx Hout Hs. split.
  - rewrite (world_eta w), getVideoAspectRatio_run. cbn [fst].
    unfold probeResult. rewrite Hx, Hout, Hs. reflexivity.
  - intros s ->. cbv zeta. unfold OrientationPrefixed.aspectRatio.
    destruct (width first) as [[]|[]| |[] m e]; destruct s;
      repeat split; reflexivity.
Qed.

(* ===================================================================== *)
(** * The handlers on the sample request *)
(* ===================================================================== *)

(** The sample request passes every check made before staging. *)
Lemma sample_validated :
  Validated Sample.env Sample.cfg Sample.goodRequest Sample.world
    "abc" Sample.video (Sample.file 1000 "video/mp4").
Proof.
  split.
  - reflexivity.
  - discriminate.
  - exists "token-alice". split; reflexivity.
  - reflexivity.
  - eexists. split; reflexivity.
  - vm_compute. discriminate.
  - reflexivity.
Qed.

(** C3 (evaluation at the failing input).  On the sample request with
    every call succeeding, the handler removes the staged file
    [/tmp/abc.mp4] before it answers, and the file is gone.  On the same
    request with the probe failing after the upload has been staged, the
    handler raises, its only events are the staging write and the probe, no
    removal is attempted, and the staged file is still in the temporary
    storage: the removal the success path makes is missed on the failure
    path. *)
Lemma staged_file_left_behind_when_probe_fails :
  let good := OrientationPrefixed.handlerUploadVideo Sample.env
                (Sample.allGood 1280 720) Sample.cfg Sample.goodRequest
                Sample.world in
  let run := OrientationPrefixed.handlerUploadVideo Sample.env
               Sample.probeFails Sample.cfg Sample.goodRequest Sample.world in
  (In (EvRm "/tmp/abc.mp4" true) (newEvents Sample.world (snd good)) /\
   tmpfs (snd good) !! "/tmp/abc.mp4" = None) /\
  fst run = Throw (Error "ffprobe error: moov atom not found") /\
  newEvents Sample.world (snd run) =
    [EvWrite "/tmp/abc.mp4" true;
     EvSpawn (OrientationPrefixed.ffprobe_argv "/tmp/abc.mp4") 1] /\
  (forall path ok, ~ In (EvRm path ok) (newEvents Sample.world (snd run))) /\
  tmpfs (snd run) !! "/tmp/abc.mp4" = Some (Raw "ftyp-moov-mdat").
Proof.
  cbv zeta.
  split; [split; [vm_compute; auto 10|vm_compute; reflexivity]|].
  split; [vm_compute; reflexivity|].
  split; [vm_compute; reflexivity|].
  split; [|vm_compute; reflexivity].
  intros path ok H. vm_compute in H. intuition discriminate.
Qed.

(** C7 (counterexample).  The handler of [src/api/videos.ts] commits the
    sample request, every call succeeding, after a staging write and an
    upload only: no process is spawned, so neither a probe nor a rewrite
    takes place. *)
Lemma plain_handler_commits_without_probe_or_rewrite :
  let run := RandomOpaque.handlerUploadVideo Sample.env
               (Sample.allGood 1280 720) Sample.cfg Sample.goodRequest
               Sample.world in
  let key := "AwoRGB8mLTQ7QklQV15lbHN6gYiPlp2kq7K5wMfO1dw.mp4" in
  let record := set_videoURL Sample.video (objectURL Sample.cfg key) in
  fst run = Ok (respondWithJSON 200 record) /\
  newEvents Sample.world (snd run) =
    [EvWrite "/tmp/abc.mp4" true;
     EvUpload key "/tmp/abc.mp4" "video/mp4" true;
     EvUpdate record true;
     EvRm "/tmp/abc.mp4" true] /\
  db (snd run) !! "abc" = Some record /\
  forall argv exited,
    ~ In (EvSpawn argv exited) (newEvents Sample.world (snd run)).
Proof.
  cbv zeta. split; [vm_compute; reflexivity|].
  split; [vm_compute; reflexivity|].
  split; [vm_compute; reflexivity|].
  intros argv exited H. vm_compute in H. intuition discriminate.
Qed.

(** C1 on the sample request: the committed run, and the run whose upload
    fails. *)
Lemma url_published_only_after_upload_witness :
  let run := OrientationPrefixed.handlerUploadVideo Sample.env
               (Sample.allGood 1280 720) Sample.cfg Sample.goodRequest
               Sample.world in
  let failed := OrientationPrefixed.handlerUploadVideo Sample.env
               Sample.uploadFails Sample.cfg Sample.goodRequest
               Sample.world in
  let record := set_videoURL Sample.video
                  (objectURL Sample.cfg "landscape/abc.mp4") in
  let pre :=
    [EvWrite "/tmp/abc.mp4" true;
     EvSpawn (OrientationPrefixed.ffprobe_argv "/tmp/abc.mp4") 0;
     EvSpawn (OrientationPrefixed.ffmpeg_argv "/tmp/abc.mp4"
                "/tmp/abc.processed.mp4") 0;
     EvUpload "landscape/abc.mp4" "/tmp/abc.processed.mp4" "video/mp4" true] in
  In OrientationPrefixed.handlerUploadVideo handlers /\
  (exists key path content,
      In (EvUpload key path "video/mp4" true) pre /\
      videoURL record = Some (objectURL Sample.cfg key) /\
      payloadOf Sample.goodRequest content /\
      bucket (snd run) !! key = Some (content, "video/mp4")) /\
  (db (snd failed) = db Sample.world /\
   forall v ok, ~ In (EvUpdate v ok) (newEvents Sample.world (snd failed))).
Proof.
  cbv zeta. split; [left; reflexivity|]. split.
  - apply (proj1 (url_published_only_after_upload
                    OrientationPrefixed.handlerUploadVideo Sample.env
                    (Sample.allGood 1280 720) Sample.cfg Sample.goodRequest
                    Sample.world (or_introl eq_refl)))
      with (ok := true)
           (post := [EvRm "/tmp/abc.mp4" true;
                     EvRm "/tmp/abc.mp4.processed.mp4" true]).
    vm_compute. reflexivity.
  - apply (proj2 (url_published_only_after_upload
                    OrientationPrefixed.handlerUploadVideo Sample.env
                    Sample.uploadFails Sample.cfg Sample.goodRequest
                    Sample.world (or_introl eq_refl))).
    intros key path ct H. vm_compute in H. intuition discriminate.
Defined.

(** C9 on the sample request. *)
Lemma update_changes_only_playback_url_witness :
  let record := set_videoURL Sample.video
                  (objectURL Sample.cfg "landscape/abc.mp4") in
  In OrientationPrefixed.handlerUploadVideo handlers /\
  In (EvUpdate record true)
     (newEvents Sample.world
        (snd (OrientationPrefixed.handlerUploadVideo Sample.env
                (Sample.allGood 1280 720) Sample.cfg Sample.goodRequest
                Sample.world))) /\
  exists videoId fetched url,
    params_videoId Sample.goodRequest = Some videoId /\
    db Sample.world !! videoId = Some fetched /\
    record = set_videoURL fetched url /\
    id record = id fetched /\
    userID record = userID fetched /\
    thumbnailURL record = thumbnailURL fetched /\
    descriptive record = descriptive fetched /\
    videoURL record = Some url.
Proof.
  cbv zeta.
  assert (Hev : In (EvUpdate (set_videoURL Sample.video
                                (objectURL Sample.cfg "landscape/abc.mp4")) true)
     (newEvents Sample.world
        (snd (OrientationPrefixed.handlerUploadVideo Sample.env
                (Sample.allGood 1280 720) Sample.cfg Sample.goodRequest
                Sample.world)))).
  { vm_compute. auto 10. }
  split; [left; reflexivity|]. split; [exact Hev|].
  exact (update_changes_only_playback_url
           OrientationPrefixed.handlerUploadVideo Sample.env
           (Sample.allGood 1280 720) Sample.cfg Sample.goodRequest Sample.world
           _ true (or_introl eq_refl) Hev).
Defined.

(** The same on the sample request: a committed run of
    [src/api/videos.ts], and a run of the probing handler whose upload
    fails. *)
Lemma staged_file_removed_only_on_success_witness :
  let run := RandomOpaque.handlerUploadVideo Sample.env
               (Sample.allGood 1280 720) Sample.cfg Sample.goodRequest
               Sample.world in
  let failed := OrientationPrefixed.handlerUploadVideo Sample.env
               Sample.uploadFails Sample.cfg Sample.goodRequest
               Sample.world in
  (In (EvRm "/tmp/abc.mp4" true) (newEvents Sample.world (snd run)) /\
   tmpfs (snd run) !! "/tmp/abc.mp4" = None) /\
  ((forall path ok, ~ In (EvRm path ok) (newEvents Sample.world (snd failed))) /\
   is_Some (tmpfs (snd failed) !! "/tmp/abc.mp4") /\
   exists e, fst failed = Throw e).
Proof.
  cbv zeta. split.
  - eapply (proj1 (staged_file_removed_only_on_success
                     RandomOpaque.handlerUploadVideo Sample.env
                     (Sample.allGood 1280 720) Sample.cfg Sample.goodRequest
                     Sample.world "abc" (or_intror (or_introl eq_refl))
                     eq_refl)).
    vm_compute. reflexivity.
  - apply (proj2 (staged_file_removed_only_on_success
                    OrientationPrefixed.handlerUploadVideo Sample.env
                    Sample.uploadFails Sample.cfg Sample.goodRequest
                    Sample.world "abc" (or_introl eq_refl) eq_refl)).
    + vm_compute. auto.
    + intros v H. vm_compute in H. intuition discriminate.
Defined.

(** C5 on the sample record: a request of another user, and a request of
    the owner with a [video/quicktime] file. *)
Lemma rejected_before_any_staging_witness :
  let stranger := Sample.request "token-bob" (Sample.file 1000 "video/mp4") in
  let quicktime := Sample.request "token-alice" (Sample.file 1000 "video/quicktime") in
  OrientationPrefixed.handlerUploadVideo Sample.env Sample.probeFails
      Sample.cfg stranger Sample.world =
    (Throw (UserForbiddenError "Forbidden access to the video"), Sample.world) /\
  exists message,
    RandomOpaque.handlerUploadVideo Sample.env Sample.probeFails
      Sample.cfg quicktime Sample.world =
    (Throw (BadRequestError message), Sample.world).
Proof.
  cbv zeta. split.
  - apply (proj1 (rejected_before_any_staging
                    OrientationPrefixed.handlerUploadVideo Sample.env
                    Sample.probeFails Sample.cfg
                    (Sample.request "token-bob" (Sample.file 1000 "video/mp4"))
                    Sample.world "abc" "token-bob" "bob" Sample.video
                    (or_introl eq_refl) eq_refl ltac:(discriminate)
                    eq_refl eq_refl eq_refl)).
    vm_compute. discriminate.
  - apply (proj2 (rejected_before_any_staging
                    RandomOpaque.handlerUploadVideo Sample.env
                    Sample.probeFails Sample.cfg
                    (Sample.request "token-alice" (Sample.file 1000 "video/quicktime"))
                    Sample.world "abc" "token-alice" "alice" Sample.video
                    (or_intror (or_introl eq_refl)) eq_refl ltac:(discriminate)
                    eq_refl eq_refl eq_refl)
             [("video", FormFile (Sample.file 1000 "video/quicktime"))]
             (Sample.file 1000 "video/quicktime") eq_refl eq_refl eq_refl).
    vm_compute. discriminate.
Defined.

(** C6 on the sample request with files of 2^30 and of 2^30 + 1 bytes. *)
Lemma upload_size_cap_witness :
  let gib := Sample.request "token-alice" (Sample.file (2 ^ 30) "video/mp4") in
  let over := Sample.request "token-alice" (Sample.file (2 ^ 30 + 1) "video/mp4") in
  (exists rest,
      newEvents Sample.world
        (snd (OrientationPrefixed.handlerUploadVideo Sample.env
                (Sample.allGood 1280 720) Sample.cfg gib Sample.world)) =
      EvWrite "/tmp/abc.mp4" true :: rest) /\
  OrientationPrefixed.handlerUploadVideo Sample.env
      (Sample.allGood 1280 720) Sample.cfg over Sample.world =
    (Throw (BadRequestError
              "Video file exceeds the maximum allowed size of 1GB"),
     Sample.world).
Proof.
  cbv zeta. split.
  - apply (proj1 (upload_size_cap
                    OrientationPrefixed.handlerUploadVideo Sample.env
                    (Sample.allGood 1280 720) Sample.cfg
                    (Sample.request "token-alice" (Sample.file (2 ^ 30) "video/mp4"))
                    Sample.world "abc" "token-alice" Sample.video
                    [("video", FormFile (Sample.file (2 ^ 30) "video/mp4"))]
                    (Sample.file (2 ^ 30) "video/mp4") ".mp4"
                    (or_introl eq_refl) eq_refl ltac:(discriminate)
                    eq_refl eq_refl eq_refl eq_refl eq_refl eq_refl eq_refl)).
    vm_compute. discriminate.
  - apply (proj2 (upload_size_cap
                    OrientationPrefixed.handlerUploadVideo Sample.env
                    (Sample.allGood 1280 720) Sample.cfg
                    (Sample.request "token-alice" (Sample.file (2 ^ 30 + 1) "video/mp4"))
                    Sample.world "abc" "token-alice" Sample.video
                    [("video", FormFile (Sample.file (2 ^ 30 + 1) "video/mp4"))]
                    (Sample.file (2 ^ 30 + 1) "video/mp4") ".mp4"
                    (or_introl eq_refl) eq_refl ltac:(discriminate)
                    eq_refl eq_refl eq_refl eq_refl eq_refl eq_refl eq_refl)).
    vm_compute. reflexivity.
Defined.

(** C7 (amended) on the sample request, the upload failing. *)
Lemma ingestion_transitions_in_order_witness :
  newEvents Sample.world
    (snd (OrientationPrefixed.handlerUploadVideo Sample.env
            Sample.uploadFails Sample.cfg Sample.goodRequest Sample.world)) =
  [EvWrite "/tmp/abc.mp4" true;
   EvSpawn (OrientationPrefixed.ffprobe_argv "/tmp/abc.mp4") 0;
   EvSpawn (OrientationPrefixed.ffmpeg_argv "/tmp/abc.mp4"
              "/tmp/abc.processed.mp4") 0;
   EvUpload "landscape/abc.mp4" "/tmp/abc.processed.mp4" "video/mp4" false] /\
  Some (newEvents Sample.world
          (snd (RandomOpaque.handlerUploadVideo Sample.env
                  Sample.uploadFails Sample.cfg Sample.goodRequest Sample.world))) =
  Some [EvWrite "/tmp/abc.mp4" true;
        EvUpload "AAAAAAAAAAAAAAAAAAAAAAAAAAAAAAAAAAAAAAAAAAA.mp4" "/tmp/abc.mp4"
          "video/mp4" false].
Proof.
  pose proof (ingestion_transitions_in_order Sample.env Sample.uploadFails
                Sample.cfg Sample.goodRequest Sample.world _ _ _
                sample_validated) as [(Hop & _) Hro].
  split.
  - exact Hop.
  - exact (proj1 (Hro ".mp4" eq_refl)).
Defined.


(** C10 on a probe that reports 1280 x 0. *)
Lemma classification_is_total_witness :
  fst (OrientationPrefixed.getVideoAspectRatio (Sample.allGood 1280 0)
         "/tmp/abc.mp4" Sample.world) = Ok other.
Proof.
  destruct (classification_is_total (Sample.allGood 1280 0)
              {| streams := Some [Sample.stream 1280 0] |}
              (Sample.stream 1280 0) [] "/tmp/abc.mp4" Sample.world
              eq_refl eq_refl eq_refl) as [Hrun Hzero].
  exact (eq_trans Hrun
           (f_equal Ok (proj2 (proj2 (proj2 (Hzero false eq_refl)))))).
Defined.

(* ===================================================================== *)
(** * The thumbnail handlers *)
(* ===================================================================== *)

Lemma thumbnail_cap : JsNumber.shl 10 20 = 10 * 2 ^ 20.
Proof. vm_compute. reflexivity. Qed.

Lemma thumbnail_size_check (max : Z) (f : File) :
  max = JsNumber.shl 10 20 ->
  (size f >? max) = negb (size f <=? 10 * 2 ^ 20).
Proof.
  intros ->. rewrite thumbnail_cap, Z.gtb_ltb.
  destruct (Z.ltb_spec (10 * 2 ^ 20) (size f)), (Z.leb_spec (size f) (10 * 2 ^ 20));
    try reflexivity; lia.
Qed.

Lemma jpegOrPng_check (t : string) :
  negb (String.eqb t "image/jpeg") && negb (String.eqb t "image/png") =
  negb (jpegOrPng t).
Proof.
  unfold jpegOrPng.
  destruct (String.eqb t "image/jpeg"), (String.eqb t "image/png"); reflexivity.
Qed.

(** ** The disk variant *)

(** The handler on a request that names a video, authenticates and
    carries a thumbnail file: the checks of the file come first. *)
Lemma disk_presented_run env assets o cfg req w videoId userId thumbnail :
  Presented env cfg req "thumbnail" videoId userId thumbnail ->
  DiskThumbnail.handlerUploadThumbnail env assets o cfg req w =
  if negb (size thumbnail <=? 10 * 2 ^ 20)
  then (Throw (BadRequestError
                 "Thumbnail file exceeds the maximum allowed size of 10MB"), w)
  else if negb (jpegOrPng (type thumbnail))
  then (Throw (BadRequestError "Invalid file type. Only JPEG or PNG allowed."), w)
  else
    match db w !! videoId with
    | None => (Throw (NotFoundError "Video not found"), w)
    | Some video =>
        if negb (String.eqb (userID video) userId)
        then (Throw (UserForbiddenError "Forbidden access to the video"), w)
        else
          (ext <-- lift (mediaTypeToExt env (type thumbnail)) ;;
           assetDiskPath <-- lift (getAssetDiskPath assets cfg (videoId +:+ ext)) ;;
           _ <-- Bun_write (thumbnail_write_ok o) assetDiskPath thumbnail ;;
           urlPath <-- lift (getAssetUrl assets cfg (videoId +:+ ext)) ;;
           _ <-- updateVideo (thumbnail_update_ok o) (set_thumbnailURL video urlPath) ;;
           ret (respondWithJSON 200 (set_thumbnailURL video urlPath))) w
    end.
Proof.
  intros [Hid Hne (token & Htok & Hjwt) (form & Hbody & Hget)].
  unfold DiskThumbnail.handlerUploadThumbnail.
  rewrite Hid. destruct videoId as [|c videoId']; [congruence|].
  set (videoId := String c videoId') in *.
  unfold bind at 1. unfold lift at 1. rewrite Htok.
  unfold bind at 1. unfold lift at 1. rewrite Hjwt.
  unfold bind at 1. unfold formData. rewrite Hbody. unfold ret at 1.
  rewrite Hget.
  rewrite (thumbnail_size_check _ _ eq_refl).
  destruct (size thumbnail <=? 10 * 2 ^ 20); cbn [negb]; [|reflexivity].
  rewrite jpegOrPng_check.
  destruct (jpegOrPng (type thumbnail)); cbn [negb]; [|reflexivity].
  unfold bind at 1. unfold getVideo at 1.
  destruct (db w !! videoId) as [video|]; [|reflexivity].
  destruct (String.eqb (userID video) userId); reflexivity.
Qed.

Lemma disk_accepted_run env assets o cfg req w videoId video thumbnail ext path :
  DiskAccepted env assets cfg req w videoId video thumbnail ext path ->
  DT_run assets o cfg videoId video thumbnail ext path w
    (DiskThumbnail.handlerUploadThumbnail env assets o cfg req w).
Proof.
  intros [Hp Hsize Htype Hfound Hext Hpath].
  rewrite (disk_presented_run _ _ _ _ _ _ _ _ _ Hp).
  apply Z.leb_le in Hsize. rewrite Hsize, Htype, Hfound. cbn [negb].
  rewrite String.eqb_refl. cbn [negb].
  unfold bind at 1. unfold lift at 1. rewrite Hext.
  unfold bind at 1. unfold lift at 1. rewrite Hpath.
  clear Hfound. destruct w as [d fs b tr].
  change {| db := d; tmpfs := fs; bucket := b; trace := tr |} with (mkWorld d fs b tr).
  unfold bind at 1. rewrite Bun_write_run.
  destruct (thumbnail_write_ok o) eqn:Hw.
  2:{ apply DT_write_failed. exact Hw. }
  unfold bind at 1. unfold lift at 1.
  destruct (getAssetUrl assets cfg (videoId +:+ ext)) as [urlPath|e] eqn:Hurl.
  2:{ eapply DT_no_url; eassumption. }
  unfold bind at 1. rewrite updateVideo_run.
  destruct (thumbnail_update_ok o) eqn:Hu.
  2:{ eapply run_eq; [eapply DT_commit_failed; eassumption|].
      unfold dt_fs. cbn [db tmpfs bucket trace mkWorld].
      rewrite <- ?app_assoc. reflexivity. }
  eapply run_eq; [eapply DT_committed; eassumption|].
  unfold dt_fs, ret. cbn [db tmpfs bucket trace mkWorld].
  rewrite <- ?app_assoc. reflexivity.
Qed.

(** Every request is turned away with the world untouched, or passes
    every check made before the asset file is written. *)
Lemma disk_rejected_or_accepted env assets o cfg req w :
  (exists e,
      DiskThumbnail.handlerUploadThumbnail env assets o cfg req w = (Throw e, w)) \/
  (exists videoId video thumbnail ext path,
      DiskAccepted env assets cfg req w videoId video thumbnail ext path).
Proof.
  destruct (params_videoId req) as [[|c videoId']|] eqn:Hid.
  1,3: left; unfold DiskThumbnail.handlerUploadThumbnail; rewrite Hid;
       eexists; reflexivity.
  set (videoId := String c videoId') in *.
  destruct (getBearerToken env (headers req)) as [token|e] eqn:Htok.
  2:{ left. unfold DiskThumbnail.handlerUploadThumbnail. rewrite Hid.
      unfold bind at 1. unfold lift at 1. rewrite Htok. eexists; reflexivity. }
  destruct (validateJWT env token (jwtSecret cfg)) as [userId|e] eqn:Hjwt.
  2:{ left. unfold DiskThumbnail.handlerUploadThumbnail. rewrite Hid.
      unfold bind at 1. unfold lift at 1. rewrite Htok.
      unfold bind at 1. unfold lift at 1. rewrite Hjwt. eexists; reflexivity. }
  destruct (body req) as [form|] eqn:Hbody.
  2:{ left. unfold DiskThumbnail.handlerUploadThumbnail. rewrite Hid.
      unfold bind at 1. unfold lift at 1. rewrite Htok.
      unfold bind at 1. unfold lift at 1. rewrite Hjwt.
      unfold bind at 1. unfold formData. rewrite Hbody. eexists; reflexivity. }
  destruct (FormData_get form "thumbnail") as [[s|thumbnail]|] eqn:Hget.
  1,3: left; unfold DiskThumbnail.handlerUploadThumbnail; rewrite Hid;
       unfold bind at 1; unfold lift at 1; rewrite Htok;
       unfold bind at 1; unfold lift at 1; rewrite Hjwt;
       unfold bind at 1; unfold formData; rewrite Hbody; unfold ret at 1;
       rewrite Hget; eexists; reflexivity.
  assert (Hp : Presented env cfg req "thumbnail" videoId userId thumbnail).
  { split; eauto; discriminate. }
  rewrite (disk_presented_run _ assets o _ _ w _ _ _ Hp).
  destruct (Z.leb_spec (size thumbnail) (10 * 2 ^ 20)) as [Hsize|Hsize]; cbn [negb];
    [|left; eexists; reflexivity].
  destruct (jpegOrPng (type thumbnail)) eqn:Htype; cbn [negb];
    [|left; eexists; reflexivity].
  destruct (db w !! videoId) as [video|] eqn:Hfound; [|left; eexists; reflexivity].
  destruct (String.eqb (userID video) userId) eqn:Hown; cbn [negb];
    [|left; eexists; reflexivity].
  apply String.eqb_eq in Hown. subst userId.
  unfold bind at 1. unfold lift at 1.
  destruct (mediaTypeToExt env (type thumbnail)) as [ext|e] eqn:Hext;
    [|left; eexists; reflexivity].
  unfold bind at 1. unfold lift at 1.
  destruct (getAssetDiskPath assets cfg (videoId +:+ ext)) as [path|e] eqn:Hpath;
    [|left; eexists; reflexivity].
  right. exists videoId, video, thumbnail, ext, path.
  split; assumption.
Qed.

(** What a run of the disk variant after its checks leaves behind. *)
Lemma DT_run_effects assets o cfg videoId video thumbnail ext path w run :
  DT_run assets o cfg videoId video thumbnail ext path w run ->
  bucket (snd run) = bucket w /\
  ((exists ok, trace (snd run) = trace w ++ [EvWrite path ok] /\
              (ok = false -> tmpfs (snd run) = tmpfs w) /\
              (ok = true ->
               tmpfs (snd run) = <[path := Raw (bytes thumbnail)]> (tmpfs w)) /\
              db (snd run) = db w /\ exists e, fst run = Throw e) \/
  (exists urlPath ok,
      getAssetUrl assets cfg (videoId +:+ ext) = Ok urlPath /\
      trace (snd run) =
        trace w ++ [EvWrite path true; EvUpdate (set_thumbnailURL video urlPath) ok] /\
      tmpfs (snd run) = <[path := Raw (bytes thumbnail)]> (tmpfs w) /\
      (ok = false -> db (snd run) = db w /\ exists e, fst run = Throw e) /\
      (ok = true ->
       db (snd run) = updateRow (set_thumbnailURL video urlPath) (db w) /\
       fst run = Ok (respondWithJSON 200 (set_thumbnailURL video urlPath))))).
Proof.
  intros H. destruct H as [Hw|e Hw Hurl|urlPath Hw Hurl Hu|urlPath Hw Hurl Hu];
    cbn [fst snd db tmpfs bucket trace mkWorld]; (split; [reflexivity|]).
  - left. exists false. repeat split; try reflexivity; try discriminate. eauto.
  - left. exists true. repeat split; try reflexivity; try discriminate. eauto.
  - right. exists urlPath, false.
    repeat split; try reflexivity; try discriminate; try assumption. eauto.
  - right. exists urlPath, true.
    repeat split; try reflexivity; try discriminate; assumption.
Qed.

(** ** The in-memory variant *)

Lemma process_eta (s : Process) : s = mkProcess (outside s) (videoThumbnails s).
Proof. destruct s; reflexivity. Qed.

Lemma onWorld_getVideo videoId w thumbs :
  onWorld (getVideo videoId) (mkProcess w thumbs) =
  (Ok (db w !! videoId), mkProcess w thumbs).
Proof. reflexivity. Qed.

Lemma onWorld_updateVideo ok video d fs b tr thumbs :
  onWorld (updateVideo ok video) (mkProcess (mkWorld d fs b tr) thumbs) =
  if ok
  then (Ok tt, mkProcess (mkWorld (updateRow video d) fs b (tr ++ [EvUpdate video true]))
                 thumbs)
  else (Throw (Rejected "SQLiteError"),
        mkProcess (mkWorld d fs b (tr ++ [EvUpdate video false])) thumbs).
Proof. destruct ok; reflexivity. Qed.

(** ** The header values of a response *)

Lemma printable_not_refused (v : string) :
  printable v = true -> HttpHeaders.some HttpHeaders.isRefused v = false.
Proof.
  induction v as [|c v IH]; [reflexivity|].
  cbn [printable HttpHeaders.some]. intros H.
  apply andb_true_iff in H as [H Hv]. apply andb_true_iff in H as [Hlo Hhi].
  rewrite (IH Hv), orb_false_r.
  apply N.leb_le in Hlo, Hhi. unfold HttpHeaders.isRefused.
  destruct (N.eqb_spec (HttpHeaders.code c) 0); [lia|].
  destruct (N.eqb_spec (HttpHeaders.code c) 10); [lia|].
  destruct (N.eqb_spec (HttpHeaders.code c) 13); [lia|].
  destruct (N.leb_spec 196 (HttpHeaders.code c)); [lia|reflexivity].
Qed.

Lemma value_printable (given : string) :
  printable (HttpHeaders.normalize given) = true ->
  HttpHeaders.value given = Ok (HttpHeaders.normalize given).
Proof.
  intros H. unfold HttpHeaders.value. cbv zeta.
  rewrite (printable_not_refused _ H). reflexivity.
Qed.

Lemma value_Ok (given v : string) :
  HttpHeaders.value given = Ok v -> v = HttpHeaders.normalize given.
Proof.
  unfold HttpHeaders.value. cbv zeta.
  destruct (HttpHeaders.some HttpHeaders.isRefused (HttpHeaders.normalize given));
    [discriminate|]. intros H. injection H as <-. reflexivity.
Qed.

(** Among printable characters the space is the only whitespace. *)
Lemma printable_whitespace (c : ascii) :
  (32 <=? HttpHeaders.code c)%N = true ->
  HttpHeaders.isWhitespace c = Ascii.eqb c " ".
Proof.
  intros Hlo. apply N.leb_le in Hlo. unfold HttpHeaders.isWhitespace.
  destruct (N.eqb_spec (HttpHeaders.code c) 9); [lia|].
  destruct (N.eqb_spec (HttpHeaders.code c) 10); [lia|].
  destruct (N.eqb_spec (HttpHeaders.code c) 13); [lia|].
  cbn [orb].
  destruct (Ascii.eqb_spec c " ") as [->|Hne]; [reflexivity|].
  destruct (N.eqb_spec (HttpHeaders.code c) 32) as [H32|H32]; [|reflexivity].
  exfalso. apply Hne. unfold HttpHeaders.code in H32.
  rewrite <- (ascii_N_embedding c), H32. reflexivity.
Qed.

Lemma trimEnd_id (s : string) :
  printable s = true -> JsString.endsWith " " s = false ->
  HttpHeaders.trimEnd s = s.
Proof.
  induction s as [|c s IH]; [reflexivity|].
  cbn [printable HttpHeaders.trimEnd JsString.endsWith]. intros H Hend.
  apply andb_true_iff in H as [H Hs]. apply andb_true_iff in H as [Hlo _].
  rewrite (printable_whitespace c Hlo).
  destruct s as [|d s'].
  - cbn [HttpHeaders.trimEnd]. rewrite Hend. reflexivity.
  - rewrite (IH Hs Hend). cbn [String.eqb]. rewrite andb_false_r. reflexivity.
Qed.

(** A printable value that neither starts nor ends with a space is kept
    as it is. *)
Lemma normalize_id (s : string) :
  printable s = true ->
  JsString.startsWith " " s = false -> JsString.endsWith " " s = false ->
  HttpHeaders.normalize s = s.
Proof.
  intros Hp Hstart Hend. unfold HttpHeaders.normalize.
  assert (Hts : HttpHeaders.trimStart s = s).
  { destruct s as [|c s']; [reflexivity|].
    cbn [HttpHeaders.trimStart]. cbn [printable] in Hp.
    apply andb_true_iff in Hp as [Hp _]. apply andb_true_iff in Hp as [Hlo _].
    rewrite (printable_whitespace c Hlo).
    cbn [JsString.startsWith] in Hstart. rewrite Hstart. reflexivity. }
  rewrite Hts. apply trimEnd_id; assumption.
Qed.

(** The fetch of a thumbnail never changes the state, and it answers by
    the stored thumbnail when the video and the thumbnail both exist and
    the stored media type makes a header value. *)
Lemma handlerGetThumbnail_run cfg req s :
  MemoryThumbnail.handlerGetThumbnail cfg req s =
  (match params_videoId req with
   | None | Some "" => Throw (BadRequestError "Invalid video ID")
   | Some videoId =>
       match db (outside s) !! videoId with
       | None => Throw (NotFoundError "Couldn't find video")
       | Some _ =>
           match videoThumbnails s !! videoId with
           | None => Throw (NotFoundError "Thumbnail not found")
           | Some t =>
               match HttpHeaders.value (mediaType t) with
               | Ok v => Ok (served (data t) v)
               | Throw e => Throw e
               end
           end
       end
   end, s).
Proof.
  unfold MemoryThumbnail.handlerGetThumbnail.
  destruct (params_videoId req) as [[|c videoId']|]; try reflexivity.
  destruct s as [w thumbs].
  change {| outside := w; videoThumbnails := thumbs |} with (mkProcess w thumbs).
  unfold bindP at 1. rewrite onWorld_getVideo.
  cbn [outside videoThumbnails mkProcess].
  destruct (db w !! String c videoId'); [|reflexivity].
  unfold bindP, videoThumbnails_get. cbn [videoThumbnails mkProcess].
  destruct (thumbs !! String c videoId') as [t|]; [|reflexivity].
  unfold liftP, newResponse. cbn [HttpHeaders.fill].
  destruct (HttpHeaders.value (mediaType t)) as [kept|e]; [|reflexivity].
  change (HttpHeaders.value "no-store") with (@Ok string "no-store").
  reflexivity.
Qed.

(** The upload on a request that names a video, authenticates and carries
    a thumbnail file, up to the store of the thumbnail. *)
Lemma memory_presented_run env assets o cfg req s videoId userId thumbnail :
  Presented env cfg req "thumbnail" videoId userId thumbnail ->
  MemoryThumbnail.handlerUploadThumbnail env assets o cfg req s =
  if negb (size thumbnail <=? 10 * 2 ^ 20)
  then (Throw (BadRequestError
                 "Thumbnail file exceeds the maximum allowed size of 10MB"), s)
  else if String.eqb (type thumbnail) ""
  then (Throw (BadRequestError "Missing Content-Type for thumbnail"), s)
  else if negb (thumbnail_read_ok o)
  then (Throw (Rejected "SystemError"), s)
  else
    match db (outside s) !! videoId with
    | None => (Throw (NotFoundError "Video not found"), s)
    | Some video =>
        if negb (String.eqb (userID video) userId)
        then (Throw (UserForbiddenError "Forbidden access to the video"), s)
        else
          (urlPath <~~ liftP (getInMemoryURL assets cfg videoId) ;;
           _ <~~ onWorld (updateVideo (thumbnail_update_ok o)
                            (set_thumbnailURL video urlPath)) ;;
           retP (respondWithJSON 200 (set_thumbnailURL video urlPath)))
            (mkProcess (outside s)
               (<[videoId := {| data := bytes thumbnail; mediaType := type thumbnail |}]>
                  (videoThumbnails s)))
    end.
Proof.
  intros [Hid Hne (token & Htok & Hjwt) (form & Hbody & Hget)].
  unfold MemoryThumbnail.handlerUploadThumbnail.
  rewrite Hid. destruct videoId as [|c videoId']; [congruence|].
  set (videoId := String c videoId') in *.
  destruct s as [w thumbs].
  change {| outside := w; videoThumbnails := thumbs |} with (mkProcess w thumbs).
  unfold bindP at 1. unfold liftP at 1. rewrite Htok.
  unfold bindP at 1. unfold liftP at 1. rewrite Hjwt.
  unfold bindP at 1. unfold onWorld at 1, formData.
  cbn [outside videoThumbnails mkProcess]. rewrite Hbody. unfold ret at 1.
  change {| outside := w; videoThumbnails := thumbs |} with (mkProcess w thumbs).
  rewrite Hget.
  rewrite (thumbnail_size_check _ _ eq_refl).
  destruct (size thumbnail <=? 10 * 2 ^ 20); cbn [negb]; [|reflexivity].
  destruct (String.eqb (type thumbnail) ""); [reflexivity|].
  unfold bindP at 1. unfold arrayBuffer.
  destruct (thumbnail_read_ok o); cbn [negb]; [|reflexivity].
  unfold retP at 1.
  unfold bindP at 1. rewrite onWorld_getVideo.
  destruct (db w !! videoId) as [video|]; [|reflexivity].
  destruct (String.eqb (userID video) userId); cbn [negb]; [|reflexivity].
  unfold bindP at 1. unfold videoThumbnails_set at 1.
  reflexivity.
Qed.

Lemma memory_accepted_run env assets o cfg req s videoId video thumbnail :
  MemoryAccepted env o cfg req s videoId video thumbnail ->
  MT_run assets o cfg videoId video thumbnail s
    (MemoryThumbnail.handlerUploadThumbnail env assets o cfg req s).
Proof.
  intros [Hp Hsize Htype Hread Hfound].
  rewrite (memory_presented_run _ _ _ _ _ _ _ _ _ Hp).
  apply Z.leb_le in Hsize. apply String.eqb_neq in Htype.
  rewrite Hsize, Htype, Hread, Hfound. cbn [negb].
  rewrite String.eqb_refl. cbn [negb].
  unfold bindP at 1. unfold liftP at 1.
  destruct (getInMemoryURL assets cfg videoId) as [urlPath|e] eqn:Hurl.
  2:{ eapply MT_no_url. exact Hurl. }
  rewrite (world_eta (outside s)) at 1.
  unfold bindP at 1. rewrite onWorld_updateVideo.
  destruct (thumbnail_update_ok o) eqn:Hu.
  - eapply MT_committed; eassumption.
  - eapply MT_commit_failed; eassumption.
Qed.

(** Every upload is turned away with the state untouched, or passes
    every check made before the thumbnail is stored. *)
Lemma memory_rejected_or_accepted env assets o cfg req s :
  (exists e,
      MemoryThumbnail.handlerUploadThumbnail env assets o cfg req s = (Throw e, s)) \/
  (exists videoId video thumbnail,
      MemoryAccepted env o cfg req s videoId video thumbnail).
Proof.
  destruct (params_videoId req) as [[|c videoId']|] eqn:Hid.
  1,3: left; unfold MemoryThumbnail.handlerUploadThumbnail; rewrite Hid;
       eexists; reflexivity.
  set (videoId := String c videoId') in *.
  destruct (getBearerToken env (headers req)) as [token|e] eqn:Htok.
  2:{ left. unfold MemoryThumbnail.handlerUploadThumbnail. rewrite Hid.
      unfold bindP at 1. unfold liftP at 1. rewrite Htok. eexists; reflexivity. }
  destruct (validateJWT env token (jwtSecret cfg)) as [userId|e] eqn:Hjwt.
  2:{ left. unfold MemoryThumbnail.handlerUploadThumbnail. rewrite Hid.
      unfold bindP at 1. unfold liftP at 1. rewrite Htok.
      unfold bindP at 1. unfold liftP at 1. rewrite Hjwt. eexists; reflexivity. }
  destruct (body req) as [form|] eqn:Hbody.
  2:{ left. unfold MemoryThumbnail.handlerUploadThumbnail. rewrite Hid.
      unfold bindP at 1. unfold liftP at 1. rewrite Htok.
      unfold bindP at 1. unfold liftP at 1. rewrite Hjwt.
      unfold bindP at 1. unfold onWorld at 1, formData. rewrite Hbody.
      destruct s; eexists; reflexivity. }
  destruct (FormData_get form "thumbnail") as [[x|thumbnail]|] eqn:Hget.
  1,3: left; unfold MemoryThumbnail.handlerUploadThumbnail; rewrite Hid;
       unfold bindP at 1; unfold liftP at 1; rewrite Htok;
       unfold bindP at 1; unfold liftP at 1; rewrite Hjwt;
       unfold bindP at 1; unfold onWorld at 1, formData; rewrite Hbody;
       unfold ret at 1; rewrite Hget; destruct s; eexists; reflexivity.
  assert (Hp : Presented env cfg req "thumbnail" videoId userId thumbnail).
  { split; eauto; discriminate. }
  rewrite (memory_presented_run _ assets o _ _ s _ _ _ Hp).
  destruct (Z.leb_spec (size thumbnail) (10 * 2 ^ 20)) as [Hsize|Hsize]; cbn [negb];
    [|left; eexists; reflexivity].
  destruct (String.eqb_spec (type thumbnail) "") as [Htype|Htype];
    [left; eexists; reflexivity|].
  destruct (thumbnail_read_ok o) eqn:Hread; cbn [negb];
    [|left; eexists; reflexivity].
  destruct (db (outside s) !! videoId) as [video|] eqn:Hfound;
    [|left; eexists; reflexivity].
  destruct (String.eqb (userID video) userId) eqn:Hown; cbn [negb];
    [|left; eexists; reflexivity].
  apply String.eqb_eq in Hown. subst userId.
  right. exists videoId, video, thumbnail.
  split; assumption.
Qed.

(** What a run of the in-memory variant after its checks leaves behind. *)
Lemma MT_run_effects assets o cfg videoId video thumbnail s run :
  MT_run assets o cfg videoId video thumbnail s run ->
  videoThumbnails (snd run) =
    <[videoId := {| data := bytes thumbnail; mediaType := type thumbnail |}]>
      (videoThumbnails s) /\
  tmpfs (outside (snd run)) = tmpfs (outside s) /\
  bucket (outside (snd run)) = bucket (outside s) /\
  ((trace (outside (snd run)) = trace (outside s) /\
    db (outside (snd run)) = db (outside s) /\
    exists e, getInMemoryURL assets cfg videoId = Throw e /\ fst run = Throw e) \/
   (exists urlPath ok,
       getInMemoryURL assets cfg videoId = Ok urlPath /\
       thumbnail_update_ok o = ok /\
       trace (outside (snd run)) =
         trace (outside s) ++ [EvUpdate (set_thumbnailURL video urlPath) ok] /\
       (ok = false ->
        db (outside (snd run)) = db (outside s) /\
        fst run = Throw (Rejected "SQLiteError")) /\
       (ok = true ->
        db (outside (snd run)) =
          updateRow (set_thumbnailURL video urlPath) (db (outside s)) /\
        fst run = Ok (respondWithJSON 200 (set_thumbnailURL video urlPath))))).
Proof.
  intros H. destruct H as [e Hurl|urlPath Hurl Hu|urlPath Hurl Hu];
    cbn [fst snd db tmpfs bucket trace mkWorld outside videoThumbnails mkProcess];
    (split; [reflexivity|]); (split; [reflexivity|]); (split; [reflexivity|]).
  - left. eauto.
  - right. exists urlPath, false.
    repeat split; try reflexivity; try discriminate; assumption.
  - right. exists urlPath, true.
    repeat split; try reflexivity; try discriminate; assumption.
Qed.

(** A row of the record store that exists still exists after an update. *)
Lemma updateRow_keeps_rows (video : Video) (d : gmap string Video) (k : string) :
  is_Some (d !! k) -> is_Some (updateRow video d !! k).
Proof.
  intros Hk. unfold updateRow.
  destruct (d !! id video) eqn:Hd; [|exact Hk].
  destruct (decide (id video = k)) as [<-|Hne].
  - rewrite lookup_insert_eq. eauto.
  - rewrite lookup_insert_ne by exact Hne. exact Hk.
Qed.

Lemma updateRow_at_id (video : Video) (d : gmap string Video) :
  is_Some (d !! id video) -> updateRow video d !! id video = Some video.
Proof.
  intros [v Hv]. unfold updateRow. rewrite Hv. apply lookup_insert_eq.
Qed.

(* ===================================================================== *)
(** * Properties of the thumbnail handlers *)
(* ===================================================================== *)

Lemma jpegOrPng_false (t : string) :
  t <> "image/jpeg" -> t <> "image/png" -> jpegOrPng t = false.
Proof.
  intros H1 H2. unfold jpegOrPng.
  apply String.eqb_neq in H1, H2. rewrite H1, H2. reflexivity.
Qed.

Lemma sample_presented videoId token user f :
  videoId <> "" ->
  validateJWT ThumbnailSample.env token "secret" = Ok user ->
  Presented ThumbnailSample.env Sample.cfg (ThumbnailSample.request videoId token f)
    "thumbnail" videoId user f.
Proof.
  intros Hne Hjwt. split.
  - reflexivity.
  - exact Hne.
  - exists token. split; [reflexivity|exact Hjwt].
  - eexists. split; reflexivity.
Qed.

(** X1.  The disk variant of the thumbnail upload checks the file before
    it looks the video up.  A request that names a video, authenticates
    and carries a thumbnail of more than 10 * 2^20 bytes is answered by
    [BadRequestError], and so is one whose thumbnail is neither
    [image/jpeg] nor [image/png], whether or not the video exists and
    whoever owns it; the world is left as the request found it. *)
Theorem disk_thumbnail_file_checks_come_first
    env assets o cfg req w videoId userId thumbnail :
  Presented env cfg req "thumbnail" videoId userId thumbnail ->
  (10 * 2 ^ 20 < size thumbnail ->
   DiskThumbnail.handlerUploadThumbnail env assets o cfg req w =
     (Throw (BadRequestError
               "Thumbnail file exceeds the maximum allowed size of 10MB"), w)) /\
  (size thumbnail <= 10 * 2 ^ 20 ->
   type thumbnail <> "image/jpeg" ->
   type thumbnail <> "image/png" ->
   DiskThumbnail.handlerUploadThumbnail env assets o cfg req w =
     (Throw (BadRequestError "Invalid file type. Only JPEG or PNG allowed."), w)).
Proof.
  intros Hp. rewrite (disk_presented_run _ assets o _ _ w _ _ _ Hp). split.
  - intros Hsize.
    destruct (Z.leb_spec (size thumbnail) (10 * 2 ^ 20)); [lia|reflexivity].
  - intros Hsize Hj Hpng.
    destruct (Z.leb_spec (size thumbnail) (10 * 2 ^ 20)); [|lia].
    rewrite (jpegOrPng_false _ Hj Hpng). reflexivity.
Qed.

(** X1 on a request for a video that does not exist: a thumbnail of
    10 * 2^20 + 1 bytes, and a GIF. *)
Lemma disk_thumbnail_file_checks_come_first_witness :
  let big := ThumbnailSample.file (10 * 2 ^ 20 + 1) "image/png" in
  let gif := ThumbnailSample.file 1000 "image/gif" in
  DiskThumbnail.handlerUploadThumbnail ThumbnailSample.env ThumbnailSample.assets
      ThumbnailSample.allGood Sample.cfg
      (ThumbnailSample.request "nowhere" "token-alice" big) Sample.world =
    (Throw (BadRequestError
              "Thumbnail file exceeds the maximum allowed size of 10MB"),
     Sample.world) /\
  DiskThumbnail.handlerUploadThumbnail ThumbnailSample.env ThumbnailSample.assets
      ThumbnailSample.allGood Sample.cfg
      (ThumbnailSample.request "nowhere" "token-alice" gif) Sample.world =
    (Throw (BadRequestError "Invalid file type. Only JPEG or PNG allowed."),
     Sample.world).
Proof.
  cbv zeta.
  assert (Hbig : 10 * 2 ^ 20 <
                 size (ThumbnailSample.file (10 * 2 ^ 20 + 1) "image/png"))
    by (vm_compute; reflexivity).
  assert (Hsmall : size (ThumbnailSample.file 1000 "image/gif") <= 10 * 2 ^ 20)
    by (vm_compute; discriminate).
  assert (Hj : type (ThumbnailSample.file 1000 "image/gif") <> "image/jpeg")
    by discriminate.
  assert (Hp : type (ThumbnailSample.file 1000 "image/gif") <> "image/png")
    by discriminate.
  split.
  - exact (proj1 (disk_thumbnail_file_checks_come_first
                    ThumbnailSample.env ThumbnailSample.assets
                    ThumbnailSample.allGood Sample.cfg
                    (ThumbnailSample.request "nowhere" "token-alice"
                       (ThumbnailSample.file (10 * 2 ^ 20 + 1) "image/png"))
                    Sample.world "nowhere" "alice"
                    (ThumbnailSample.file (10 * 2 ^ 20 + 1) "image/png")
                    (sample_presented "nowhere" "token-alice" "alice"
                       (ThumbnailSample.file (10 * 2 ^ 20 + 1) "image/png")
                       ltac:(discriminate) eq_refl))
             Hbig).
  - exact (proj2 (disk_thumbnail_file_checks_come_first
                    ThumbnailSample.env ThumbnailSample.assets
                    ThumbnailSample.allGood Sample.cfg
                    (ThumbnailSample.request "nowhere" "token-alice"
                       (ThumbnailSample.file 1000 "image/gif"))
                    Sample.world "nowhere" "alice"
                    (ThumbnailSample.file 1000 "image/gif")
                    (sample_presented "nowhere" "token-alice" "alice"
                       (ThumbnailSample.file 1000 "image/gif")
                       ltac:(discriminate) eq_refl))
             Hsmall Hj Hp).
Defined.

(** X2.  In the disk variant, a request whose thumbnail passes the checks
    of the file is answered by [NotFoundError] when no record is stored
    under the video id, and by [UserForbiddenError] when the record belongs
    to another user; in both cases nothing is written: the world is the one
    the request found. *)
Theorem disk_thumbnail_refused_for_foreign_video
    env assets o cfg req w videoId userId thumbnail :
  Presented env cfg req "thumbnail" videoId userId thumbnail ->
  size thumbnail <= 10 * 2 ^ 20 ->
  type thumbnail = "image/jpeg" \/ type thumbnail = "image/png" ->
  (db w !! videoId = None ->
   DiskThumbnail.handlerUploadThumbnail env assets o cfg req w =
     (Throw (NotFoundError "Video not found"), w)) /\
  (forall video,
      db w !! videoId = Some video ->
      userID video <> userId ->
      DiskThumbnail.handlerUploadThumbnail env assets o cfg req w =
        (Throw (UserForbiddenError "Forbidden access to the video"), w)).
Proof.
  intros Hp Hsize Htype.
  rewrite (disk_presented_run _ assets o _ _ w _ _ _ Hp).
  apply Z.leb_le in Hsize. rewrite Hsize. cbn [negb].
  assert (Hty : jpegOrPng (type thumbnail) = true).
  { unfold jpegOrPng. destruct Htype as [-> | ->]; reflexivity. }
  rewrite Hty. cbn [negb]. split.
  - intros ->. reflexivity.
  - intros video -> Hown. apply String.eqb_neq in Hown. rewrite Hown. reflexivity.
Qed.

(** X2 on the sample record: a request for an unknown video, and a
    request of another user. *)
Lemma disk_thumbnail_refused_for_foreign_video_witness :
  let png := ThumbnailSample.file 1000 "image/png" in
  DiskThumbnail.handlerUploadThumbnail ThumbnailSample.env ThumbnailSample.assets
      ThumbnailSample.allGood Sample.cfg
      (ThumbnailSample.request "nowhere" "token-alice" png) Sample.world =
    (Throw (NotFoundError "Video not found"), Sample.world) /\
  DiskThumbnail.handlerUploadThumbnail ThumbnailSample.env ThumbnailSample.assets
      ThumbnailSample.allGood Sample.cfg
      (ThumbnailSample.request "abc" "token-bob" png) Sample.world =
    (Throw (UserForbiddenError "Forbidden access to the video"), Sample.world).
Proof.
  cbv zeta.
  assert (Hsize : size (ThumbnailSample.file 1000 "image/png") <= 10 * 2 ^ 20)
    by (vm_compute; discriminate).
  assert (Hbob : userID Sample.video <> "bob") by discriminate.
  split.
  - exact (proj1 (disk_thumbnail_refused_for_foreign_video
                    ThumbnailSample.env ThumbnailSample.assets
                    ThumbnailSample.allGood Sample.cfg
                    (ThumbnailSample.request "nowhere" "token-alice"
                       (ThumbnailSample.file 1000 "image/png"))
                    Sample.world "nowhere" "alice"
                    (ThumbnailSample.file 1000 "image/png")
                    (sample_presented "nowhere" "token-alice" "alice"
                       (ThumbnailSample.file 1000 "image/png")
                       ltac:(discriminate) eq_refl)
                    Hsize (or_intror eq_refl))
             eq_refl).
  - exact (proj2 (disk_thumbnail_refused_for_foreign_video
                    ThumbnailSample.env ThumbnailSample.assets
                    ThumbnailSample.allGood Sample.cfg
                    (ThumbnailSample.request "abc" "token-bob"
                       (ThumbnailSample.file 1000 "image/png"))
                    Sample.world "abc" "bob"
                    (ThumbnailSample.file 1000 "image/png")
                    (sample_presented "abc" "token-bob" "bob"
                       (ThumbnailSample.file 1000 "image/png")
                       ltac:(discriminate) eq_refl)
                    Hsize (or_intror eq_refl))
             Sample.video eq_refl Hbob).
Defined.

Lemma sample_disk_accepted :
  DiskAccepted ThumbnailSample.env ThumbnailSample.assets Sample.cfg
    (ThumbnailSample.request "abc" "token-alice"
       (ThumbnailSample.file (10 * 2 ^ 20) "image/png"))
    Sample.world "abc" Sample.video
    (ThumbnailSample.file (10 * 2 ^ 20) "image/png") ".png" "assets/abc.png".
Proof.
  split.
  - apply sample_presented; [discriminate|reflexivity].
  - vm_compute. discriminate.
  - reflexivity.
  - reflexivity.
  - reflexivity.
  - reflexivity.
Qed.

(** X3.  When a thumbnail request passes every check of the disk variant
    (so with a thumbnail of up to 10 * 2^20 bytes) and the write of the
    asset file, the computation of its URL and the update of the record
    store all succeed, the handler answers 200 with the fetched record
    carrying that URL; the asset path holds the bytes of the thumbnail and
    no other path has changed; the record store has been updated with the
    answered record, which is then the one stored under the video id when
    the fetched record carries that id; and the run consists of the write
    followed by the update. *)
Theorem disk_thumbnail_stored_then_committed
    env assets o cfg req w videoId video thumbnail ext path urlPath :
  DiskAccepted env assets cfg req w videoId video thumbnail ext path ->
  thumbnail_write_ok o = true ->
  getAssetUrl assets cfg (videoId +:+ ext) = Ok urlPath ->
  thumbnail_update_ok o = true ->
  let run := DiskThumbnail.handlerUploadThumbnail env assets o cfg req w in
  let record := set_thumbnailURL video urlPath in
  fst run = Ok (respondWithJSON 200 record) /\
  tmpfs (snd run) !! path = Some (Raw (bytes thumbnail)) /\
  (forall p, p <> path -> tmpfs (snd run) !! p = tmpfs w !! p) /\
  db (snd run) = updateRow record (db w) /\
  (id video = videoId -> db (snd run) !! videoId = Some record) /\
  newEvents w (snd run) = [EvWrite path true; EvUpdate record true].
Proof.
  intros Hacc Hw Hurl Hu run record.
  pose proof (disk_accepted_run env assets o cfg req w _ _ _ _ _ Hacc) as Hrun.
  fold run in Hrun. clearbody run.
  destruct Hrun as [Hw'|e Hw' Hurl'|urlPath' Hw' Hurl' Hu'|urlPath' Hw' Hurl' Hu'];
    try congruence.
  assert (urlPath' = urlPath) as -> by congruence.
  cbn [fst snd db tmpfs bucket trace mkWorld]. fold record.
  split; [reflexivity|].
  split; [apply lookup_insert_eq|].
  split; [intros p Hp; apply lookup_insert_ne; congruence|].
  split; [reflexivity|].
  split.
  - intros Hid. rewrite <- Hid.
    change (id video) with (id record). apply updateRow_at_id.
    change (id record) with (id video). rewrite Hid.
    destruct Hacc as [_ _ _ Hfound _ _]. rewrite Hfound. eauto.
  - apply newEvents_app. reflexivity.
Qed.

(** X3 on the sample record, with a PNG of exactly 10 * 2^20 bytes. *)
Lemma disk_thumbnail_stored_then_committed_witness :
  let thumbnail := ThumbnailSample.file (10 * 2 ^ 20) "image/png" in
  let run :=
    DiskThumbnail.handlerUploadThumbnail ThumbnailSample.env ThumbnailSample.assets
      ThumbnailSample.allGood Sample.cfg
      (ThumbnailSample.request "abc" "token-alice" thumbnail) Sample.world in
  let record :=
    set_thumbnailURL Sample.video "http://localhost:8091/assets/abc.png" in
  fst run = Ok (respondWithJSON 200 record) /\
  tmpfs (snd run) !! "assets/abc.png" = Some (Raw (bytes thumbnail)) /\
  (forall p, p <> "assets/abc.png" ->
             tmpfs (snd run) !! p = tmpfs Sample.world !! p) /\
  db (snd run) = updateRow record (db Sample.world) /\
  (id Sample.video = "abc" -> db (snd run) !! "abc" = Some record) /\
  newEvents Sample.world (snd run) =
    [EvWrite "assets/abc.png" true; EvUpdate record true].
Proof.
  exact (disk_thumbnail_stored_then_committed
           ThumbnailSample.env ThumbnailSample.assets ThumbnailSample.allGood
           Sample.cfg _ Sample.world "abc" Sample.video _ ".png" "assets/abc.png"
           "http://localhost:8091/assets/abc.png"
           sample_disk_accepted eq_refl eq_refl eq_refl).
Defined.

(** X4.  The disk variant does not roll back.  When the asset file has
    been written and the computation of its URL or the update of the record
    store then fails, the handler raises, the record store is the one the
    request found, and the asset path holds the bytes of the thumbnail.
    When the write itself fails, the handler raises with the local files
    and the record store as the request found them, and no update is
    attempted. *)
Theorem disk_thumbnail_is_not_rolled_back
    env assets o cfg req w videoId video thumbnail ext path :
  DiskAccepted env assets cfg req w videoId video thumbnail ext path ->
  let run := DiskThumbnail.handlerUploadThumbnail env assets o cfg req w in
  (thumbnail_write_ok o = true ->
   (exists e, getAssetUrl assets cfg (videoId +:+ ext) = Throw e) \/
   thumbnail_update_ok o = false ->
   (exists e, fst run = Throw e) /\
   db (snd run) = db w /\
   tmpfs (snd run) !! path = Some (Raw (bytes thumbnail))) /\
  (thumbnail_write_ok o = false ->
   (exists e, fst run = Throw e) /\
   db (snd run) = db w /\
   tmpfs (snd run) = tmpfs w /\
   newEvents w (snd run) = [EvWrite path false]).
Proof.
  intros Hacc run.
  pose proof (disk_accepted_run env assets o cfg req w _ _ _ _ _ Hacc) as Hrun.
  fold run in Hrun. clearbody run.
  destruct Hrun as [Hw'|e Hw' Hurl'|urlPath' Hw' Hurl' Hu'|urlPath' Hw' Hurl' Hu'];
    cbn [fst snd db tmpfs bucket trace mkWorld]; split.
  all: try (intros Hw; congruence).
  - intros _. split; [eauto|]. split; [reflexivity|]. split; [reflexivity|].
    apply newEvents_app. reflexivity.
  - intros _ _. split; [eauto|]. split; [reflexivity|]. apply lookup_insert_eq.
  - intros _ _. split; [eauto|]. split; [reflexivity|]. apply lookup_insert_eq.
  - intros _ [[e He]|Hu]; congruence.
Qed.

(** X4 on the sample record, the update of the record store failing. *)
Lemma disk_thumbnail_is_not_rolled_back_witness :
  let thumbnail := ThumbnailSample.file (10 * 2 ^ 20) "image/png" in
  let run :=
    DiskThumbnail.handlerUploadThumbnail ThumbnailSample.env ThumbnailSample.assets
      ThumbnailSample.updateFails Sample.cfg
      (ThumbnailSample.request "abc" "token-alice" thumbnail) Sample.world in
  (exists e, fst run = Throw e) /\
  db (snd run) = db Sample.world /\
  tmpfs (snd run) !! "assets/abc.png" = Some (Raw (bytes thumbnail)).
Proof.
  exact (proj1 (disk_thumbnail_is_not_rolled_back
                  ThumbnailSample.env ThumbnailSample.assets
                  ThumbnailSample.updateFails
                  Sample.cfg _ Sample.world "abc" Sample.video _ ".png"
                  "assets/abc.png" sample_disk_accepted)
           eq_refl (or_intror eq_refl)).
Defined.

Lemma sample_memory_accepted o mediaType :
  thumbnail_read_ok o = true ->
  mediaType <> "" ->
  MemoryAccepted ThumbnailSample.env o Sample.cfg
    (ThumbnailSample.request "abc" "token-alice"
       (ThumbnailSample.file 1000 mediaType))
    ThumbnailSample.process "abc" Sample.video
    (ThumbnailSample.file 1000 mediaType).
Proof.
  intros Hread Hty. split.
  - apply sample_presented; [discriminate|reflexivity].
  - vm_compute. discriminate.
  - exact Hty.
  - exact Hread.
  - reflexivity.
Qed.

(** X5.  The record either thumbnail handler hands to the record store's
    update operation is the record it fetched under the request's video id
    with the thumbnail URL replaced: identity, owning user, playback URL
    and descriptive fields are those of the fetched record.  The new
    thumbnail URL is what [getAssetUrl] gives for the video id followed by
    the extension of the thumbnail's media type in the disk variant, and
    what [getInMemoryURL] gives for the video id in the in-memory variant. *)
Theorem thumbnail_update_changes_only_thumbnail_url env assets o cfg req v ok :
  (forall w,
      In (EvUpdate v ok)
         (newEvents w
            (snd (DiskThumbnail.handlerUploadThumbnail env assets o cfg req w))) ->
      exists videoId fetched form thumbnail ext urlPath,
        params_videoId req = Some videoId /\
        db w !! videoId = Some fetched /\
        body req = Some form /\
        FormData_get form "thumbnail" = Some (FormFile thumbnail) /\
        mediaTypeToExt env (type thumbnail) = Ok ext /\
        getAssetUrl assets cfg (videoId +:+ ext) = Ok urlPath /\
        v = set_thumbnailURL fetched urlPath /\
        id v = id fetched /\
        userID v = userID fetched /\
        videoURL v = videoURL fetched /\
        descriptive v = descriptive fetched /\
        thumbnailURL v = Some urlPath) /\
  (forall s,
      In (EvUpdate v ok)
         (newEvents (outside s)
            (outside
               (snd (MemoryThumbnail.handlerUploadThumbnail env assets o cfg req s)))) ->
      exists videoId fetched urlPath,
        params_videoId req = Some videoId /\
        db (outside s) !! videoId = Some fetched /\
        getInMemoryURL assets cfg videoId = Ok urlPath /\
        v = set_thumbnailURL fetched urlPath /\
        id v = id fetched /\
        userID v = userID fetched /\
        videoURL v = videoURL fetched /\
        descriptive v = descriptive fetched /\
        thumbnailURL v = Some urlPath).
Proof.
  split.
  - intros w Hev.
    destruct (disk_rejected_or_accepted env assets o cfg req w)
      as [[e He]|(videoId & video & thumbnail & ext & path & Hacc)].
    { rewrite He in Hev. cbn [snd] in Hev. rewrite newEvents_same in Hev.
      destruct Hev. }
    pose proof (disk_accepted_run env assets o cfg req w _ _ _ _ _ Hacc) as Hrun.
    apply DT_run_effects in Hrun.
    destruct Hrun as [_ [(ok' & Htr & _)|(urlPath & ok' & Hurl & Htr & _)]];
      rewrite (newEvents_app _ _ _ Htr) in Hev; cbn in Hev.
    { destruct Hev as [Hev|[]]. discriminate Hev. }
    destruct Hev as [Hev|[Hev|[]]]; [discriminate Hev|].
    injection Hev as <- <-.
    destruct Hacc as [[Hid _ _ (form & Hbody & Hget)] _ _ Hfound Hext _].
    exists videoId, video, form, thumbnail, ext, urlPath.
    repeat split; assumption.
  - intros s Hev.
    destruct (memory_rejected_or_accepted env assets o cfg req s)
      as [[e He]|(videoId & video & thumbnail & Hacc)].
    { rewrite He in Hev. cbn [snd] in Hev. rewrite newEvents_same in Hev.
      destruct Hev. }
    pose proof (memory_accepted_run env assets o cfg req s _ _ _ Hacc) as Hrun.
    apply MT_run_effects in Hrun.
    destruct Hrun as (_ & _ & _ & [(Htr & _)|(urlPath & ok' & Hurl & _ & Htr & _)]).
    { rewrite (newEvents_app _ _ [] ) in Hev; [destruct Hev|].
      rewrite Htr. symmetry. apply app_nil_r. }
    rewrite (newEvents_app _ _ _ Htr) in Hev; cbn in Hev.
    destruct Hev as [Hev|[]].
    injection Hev as <- <-.
    destruct Hacc as [[Hid _ _ _] _ _ _ Hfound].
    exists videoId, video, urlPath.
    repeat split; assumption.
Qed.

(** X5 on the sample record, for the disk variant. *)
Lemma thumbnail_update_changes_only_thumbnail_url_witness :
  let record :=
    set_thumbnailURL Sample.video "http://localhost:8091/assets/abc.png" in
  let req :=
    ThumbnailSample.request "abc" "token-alice"
      (ThumbnailSample.file (10 * 2 ^ 20) "image/png") in
  In (EvUpdate record true)
     (newEvents Sample.world
        (snd (DiskThumbnail.handlerUploadThumbnail ThumbnailSample.env
                ThumbnailSample.assets ThumbnailSample.allGood Sample.cfg req
                Sample.world))) /\
  exists videoId fetched form thumbnail ext urlPath,
    params_videoId req = Some videoId /\
    db Sample.world !! videoId = Some fetched /\
    body req = Some form /\
    FormData_get form "thumbnail" = Some (FormFile thumbnail) /\
    mediaTypeToExt ThumbnailSample.env (type thumbnail) = Ok ext /\
    getAssetUrl ThumbnailSample.assets Sample.cfg (videoId +:+ ext) = Ok urlPath /\
    record = set_thumbnailURL fetched urlPath /\
    id record = id fetched /\
    userID record = userID fetched /\
    videoURL record = videoURL fetched /\
    descriptive record = descriptive fetched /\
    thumbnailURL record = Some urlPath.
Proof.
  cbv zeta.
  assert (Hev :
    In (EvUpdate (set_thumbnailURL Sample.video
                    "http://localhost:8091/assets/abc.png") true)
       (newEvents Sample.world
          (snd (DiskThumbnail.handlerUploadThumbnail ThumbnailSample.env
                  ThumbnailSample.assets ThumbnailSample.allGood Sample.cfg
                  (ThumbnailSample.request "abc" "token-alice"
                     (ThumbnailSample.file (10 * 2 ^ 20) "image/png"))
                  Sample.world)))).
  { vm_compute. auto. }
  split; [exact Hev|].
  exact (proj1 (thumbnail_update_changes_only_thumbnail_url
                  ThumbnailSample.env ThumbnailSample.assets
                  ThumbnailSample.allGood Sample.cfg
                  (ThumbnailSample.request "abc" "token-alice"
                     (ThumbnailSample.file (10 * 2 ^ 20) "image/png"))
                  (set_thumbnailURL Sample.video
                     "http://localhost:8091/assets/abc.png") true)
           Sample.world Hev).
Defined.

(** X6.  Whatever the request and the outcomes of its external calls, the
    disk variant of the thumbnail upload leaves the object store alone,
    writes to at most one local path and removes no local file, makes no
    other external call than a file write and a record update, and
    changes the record store only when it answers with a response. *)
Theorem disk_thumbnail_footprint env assets o cfg req w :
  let run := DiskThumbnail.handlerUploadThumbnail env assets o cfg req w in
  bucket (snd run) = bucket w /\
  (exists path, forall p, p <> path -> tmpfs (snd run) !! p = tmpfs w !! p) /\
  (forall p, is_Some (tmpfs w !! p) -> is_Some (tmpfs (snd run) !! p)) /\
  (forall ev, In ev (newEvents w (snd run)) ->
     (exists path ok, ev = EvWrite path ok) \/ (exists v ok, ev = EvUpdate v ok)) /\
  (db (snd run) <> db w -> exists resp, fst run = Ok resp).
Proof.
  intros run. subst run.
  destruct (disk_rejected_or_accepted env assets o cfg req w)
    as [[e He]|(videoId & video & thumbnail & ext & path & Hacc)].
  { rewrite He. cbn [fst snd]. rewrite newEvents_same.
    split; [reflexivity|]. split; [exists ""; reflexivity|].
    split; [auto|]. split; [intros ev []|]. intros H. congruence. }
  pose proof (disk_accepted_run env assets o cfg req w _ _ _ _ _ Hacc) as Hrun.
  apply DT_run_effects in Hrun.
  destruct Hrun as [Hb [(ok & Htr & Hfs0 & Hfs1 & Hdb & He)
                       |(urlPath & ok & Hurl & Htr & Hfs & Hfail & Hsucc)]];
    rewrite (newEvents_app _ _ _ Htr); (split; [exact Hb|]).
  - destruct ok.
    + rewrite (Hfs1 eq_refl).
      split; [exists path; intros p Hp; apply lookup_insert_ne; congruence|].
      split.
      { intros p Hp. destruct (decide (path = p)) as [<-|Hne].
        - rewrite lookup_insert_eq. eauto.
        - rewrite lookup_insert_ne by exact Hne. exact Hp. }
      split; [|congruence].
      intros ev [<-|[]]. left. eauto.
    + rewrite (Hfs0 eq_refl).
      split; [exists path; reflexivity|]. split; [auto|].
      split; [|congruence].
      intros ev [<-|[]]. left. eauto.
  - rewrite Hfs.
    split; [exists path; intros p Hp; apply lookup_insert_ne; congruence|].
    split.
    { intros p Hp. destruct (decide (path = p)) as [<-|Hne].
      - rewrite lookup_insert_eq. eauto.
      - rewrite lookup_insert_ne by exact Hne. exact Hp. }
    split.
    { intros ev [<-|[<-|[]]]; [left|right]; eauto. }
    destruct ok.
    + destruct (Hsucc eq_refl) as [_ ->]. eauto.
    + destruct (Hfail eq_refl) as [-> _]. congruence.
Qed.

(** X6 on the sample request: the record store has changed, so the
    handler has answered. *)
Lemma disk_thumbnail_footprint_witness :
  let run :=
    DiskThumbnail.handlerUploadThumbnail ThumbnailSample.env ThumbnailSample.assets
      ThumbnailSample.allGood Sample.cfg
      (ThumbnailSample.request "abc" "token-alice"
         (ThumbnailSample.file (10 * 2 ^ 20) "image/jpeg")) Sample.world in
  db (snd run) <> db Sample.world /\ exists resp, fst run = Ok resp.
Proof.
  cbv zeta.
  assert (Hdb :
    db (snd (DiskThumbnail.handlerUploadThumbnail ThumbnailSample.env
               ThumbnailSample.assets ThumbnailSample.allGood Sample.cfg
               (ThumbnailSample.request "abc" "token-alice"
                  (ThumbnailSample.file (10 * 2 ^ 20) "image/jpeg")) Sample.world))
    <> db Sample.world).
  { intros H. apply (f_equal (fun d => d !! "abc")) in H.
    vm_compute in H. discriminate H. }
  split; [exact Hdb|].
  exact (proj2 (proj2 (proj2 (proj2
           (disk_thumbnail_footprint ThumbnailSample.env ThumbnailSample.assets
              ThumbnailSample.allGood Sample.cfg
              (ThumbnailSample.request "abc" "token-alice"
                 (ThumbnailSample.file (10 * 2 ^ 20) "image/jpeg"))
              Sample.world)))) Hdb).
Defined.

(** X7.  The fetch of a thumbnail never changes the state.  It answers
    with a response only when the request names a video that the record
    store holds and under whose id a thumbnail is stored, and it does
    answer then when the stored media type, without the HTTP whitespace
    around it, is printable ASCII.  The response carries the stored bytes,
    the stored media type with its leading and trailing HTTP whitespace
    removed as [Content-Type], and [Cache-Control: no-store].  For a named
    video that is unknown or has no thumbnail the fetch raises
    [NotFoundError], and without a video id [BadRequestError]. *)
Theorem thumbnail_fetch_reads_only cfg req s :
  let run := MemoryThumbnail.handlerGetThumbnail cfg req s in
  snd run = s /\
  (forall resp,
      fst run = Ok resp ->
      exists videoId video t,
        params_videoId req = Some videoId /\ videoId <> "" /\
        db (outside s) !! videoId = Some video /\
        videoThumbnails s !! videoId = Some t /\
        resp = {| data_status := 200;
                  data_body := data t;
                  data_headers :=
                    [("Content-Type", HttpHeaders.normalize (mediaType t));
                     ("Cache-Control", "no-store")] |}) /\
  (forall videoId video t,
      params_videoId req = Some videoId -> videoId <> "" ->
      db (outside s) !! videoId = Some video ->
      videoThumbnails s !! videoId = Some t ->
      printable (HttpHeaders.normalize (mediaType t)) = true ->
      fst run = Ok {| data_status := 200;
                      data_body := data t;
                      data_headers :=
                        [("Content-Type", HttpHeaders.normalize (mediaType t));
                         ("Cache-Control", "no-store")] |}) /\
  (forall videoId,
      params_videoId req = Some videoId -> videoId <> "" ->
      db (outside s) !! videoId = None \/ videoThumbnails s !! videoId = None ->
      exists message, fst run = Throw (NotFoundError message)) /\
  (params_videoId req = None \/ params_videoId req = Some "" ->
   fst run = Throw (BadRequestError "Invalid video ID")).
Proof.
  intros run. subst run. rewrite handlerGetThumbnail_run. cbn [fst snd].
  split; [reflexivity|]. split; [|split; [|split]].
  - intros resp.
    destruct (params_videoId req) as [[|c videoId']|]; try discriminate.
    destruct (db (outside s) !! String c videoId') as [video|] eqn:Hdb;
      [|discriminate].
    destruct (videoThumbnails s !! String c videoId') as [t|] eqn:Ht;
      [|discriminate].
    destruct (HttpHeaders.value (mediaType t)) as [v|e] eqn:Hv; [|discriminate].
    apply value_Ok in Hv. subst v.
    intros H. injection H as <-.
    exists (String c videoId'), video, t.
    repeat split; try assumption; discriminate.
  - intros videoId video t -> Hne -> -> Hp.
    destruct videoId; [congruence|].
    rewrite (value_printable _ Hp). reflexivity.
  - intros videoId -> Hne Hmiss.
    destruct videoId as [|c videoId']; [congruence|].
    destruct (db (outside s) !! String c videoId') as [video|]; [|eauto].
    destruct Hmiss as [Hmiss| ->]; [discriminate Hmiss|eauto].
  - intros [-> | ->]; reflexivity.
Qed.

(** X7 on a process that holds a thumbnail of media type [ image/png ],
    with a blank on either side: the fetch serves [image/png]. *)
Lemma thumbnail_fetch_reads_only_witness :
  fst (MemoryThumbnail.handlerGetThumbnail Sample.cfg (getRequest "abc")
         ThumbnailSample.padded) =
  Ok {| data_status := 200;
        data_body := "IHDR-IDAT-IEND";
        data_headers := [("Content-Type", "image/png");
                         ("Cache-Control", "no-store")] |}.
Proof.
  exact (proj1 (proj2 (proj2
           (thumbnail_fetch_reads_only Sample.cfg (getRequest "abc")
              ThumbnailSample.padded)))
           "abc" Sample.video
           {| data := "IHDR-IDAT-IEND"; mediaType := " image/png " |}
           eq_refl ltac:(discriminate) eq_refl eq_refl eq_refl).
Defined.

(** X8.  Upload, then fetch.  When the in-memory variant answers an upload
    with a response and the media type the file declared, without the HTTP
    whitespace around it, is printable ASCII, a fetch for the same video id
    on the state the upload leaves is answered with the bytes of the
    uploaded file, the declared media type with its leading and trailing
    HTTP whitespace removed as [Content-Type], and
    [Cache-Control: no-store]; a printable type that neither starts nor
    ends with a space is served as declared, whichever type it is.  The
    state the upload started from is arbitrary, so a later upload replaces
    an earlier thumbnail. *)
Theorem stored_thumbnail_is_served
    env assets o cfg req s videoId form thumbnail resp fetch :
  params_videoId req = Some videoId ->
  body req = Some form ->
  FormData_get form "thumbnail" = Some (FormFile thumbnail) ->
  let run := MemoryThumbnail.handlerUploadThumbnail env assets o cfg req s in
  fst run = Ok resp ->
  params_videoId fetch = Some videoId ->
  printable (HttpHeaders.normalize (type thumbnail)) = true ->
  MemoryThumbnail.handlerGetThumbnail cfg fetch (snd run) =
    (Ok {| data_status := 200;
           data_body := bytes thumbnail;
           data_headers :=
             [("Content-Type", HttpHeaders.normalize (type thumbnail));
              ("Cache-Control", "no-store")] |},
     snd run) /\
  (printable (type thumbnail) = true ->
   JsString.startsWith " " (type thumbnail) = false ->
   JsString.endsWith " " (type thumbnail) = false ->
   HttpHeaders.normalize (type thumbnail) = type thumbnail).
Proof.
  intros Hid Hbody Hget run Hok Hfetch Hprint. subst run.
  split; [|apply normalize_id].
  destruct (memory_rejected_or_accepted env assets o cfg req s)
    as [[e He]|(videoId' & video & thumbnail' & Hacc)].
  { rewrite He in Hok. discriminate Hok. }
  pose proof (memory_accepted_run env assets o cfg req s _ _ _ Hacc) as Hrun.
  apply MT_run_effects in Hrun.
  destruct Hacc as [[Hid' Hne _ (form' & Hbody' & Hget')] _ _ _ Hfound].
  assert (videoId' = videoId) as -> by congruence.
  assert (form' = form) as -> by congruence.
  assert (thumbnail' = thumbnail) as -> by congruence.
  destruct Hrun as (Hth & _ & _ & Hcases).
  rewrite handlerGetThumbnail_run, Hfetch.
  destruct videoId as [|c videoId']; [congruence|].
  set (videoId := String c videoId') in *.
  assert (Hdb : is_Some
                  (db (outside (snd (MemoryThumbnail.handlerUploadThumbnail
                                       env assets o cfg req s))) !! videoId)).
  { destruct Hcases as [(_ & Hdb & e & _ & He)
                       |(urlPath & ok & _ & _ & _ & Hfail & Hsucc)].
    - rewrite He in Hok. discriminate Hok.
    - destruct ok.
      + destruct (Hsucc eq_refl) as [-> _]. apply updateRow_keeps_rows.
        rewrite Hfound. eauto.
      + destruct (Hfail eq_refl) as [_ He]. rewrite He in Hok. discriminate Hok. }
  destruct Hdb as [video' ->]. rewrite Hth, lookup_insert_eq.
  cbn [mediaType data]. rewrite (value_printable _ Hprint). reflexivity.
Qed.

(** X8 on the sample record, with a file that declares [ image/png ], a
    blank on either side: the fetch serves [image/png]. *)
Lemma stored_thumbnail_is_served_witness :
  let png := ThumbnailSample.file 1000 " image/png " in
  let run :=
    MemoryThumbnail.handlerUploadThumbnail ThumbnailSample.env
      ThumbnailSample.assets ThumbnailSample.allGood Sample.cfg
      (ThumbnailSample.request "abc" "token-alice" png) ThumbnailSample.process in
  MemoryThumbnail.handlerGetThumbnail Sample.cfg (getRequest "abc") (snd run) =
    (Ok {| data_status := 200;
           data_body := bytes png;
           data_headers := [("Content-Type", "image/png");
                            ("Cache-Control", "no-store")] |},
     snd run).
Proof.
  exact (proj1
           (stored_thumbnail_is_served
              ThumbnailSample.env ThumbnailSample.assets ThumbnailSample.allGood
              Sample.cfg
              (ThumbnailSample.request "abc" "token-alice"
                 (ThumbnailSample.file 1000 " image/png "))
              ThumbnailSample.process "abc"
              [("thumbnail", FormFile (ThumbnailSample.file 1000 " image/png "))]
              (ThumbnailSample.file 1000 " image/png ")
              (respondWithJSON 200
                 (set_thumbnailURL Sample.video
                    "http://localhost:8091/api/thumbnails/abc"))
              (getRequest "abc")
              eq_refl eq_refl eq_refl eq_refl eq_refl eq_refl)).
Defined.

(** X9.  The in-memory variant stores the thumbnail before it updates the
    record store and does not take it back.  When a request passes every
    check and the computation of the URL or the update of the record store
    then fails, the handler raises and the record store is the one the
    request found, yet the new thumbnail is the one stored under the video
    id, and a fetch for the id is answered with it: its bytes, and as
    [Content-Type] the declared media type with its leading and trailing
    HTTP whitespace removed, when that is printable ASCII. *)
Theorem thumbnail_is_served_after_a_failed_update
    env assets o cfg req s videoId video thumbnail fetch :
  MemoryAccepted env o cfg req s videoId video thumbnail ->
  (exists e, getInMemoryURL assets cfg videoId = Throw e) \/
  thumbnail_update_ok o = false ->
  params_videoId fetch = Some videoId ->
  let run := MemoryThumbnail.handlerUploadThumbnail env assets o cfg req s in
  (exists e, fst run = Throw e) /\
  db (outside (snd run)) = db (outside s) /\
  videoThumbnails (snd run) !! videoId =
    Some {| data := bytes thumbnail; mediaType := type thumbnail |} /\
  (printable (HttpHeaders.normalize (type thumbnail)) = true ->
   MemoryThumbnail.handlerGetThumbnail cfg fetch (snd run) =
     (Ok {| data_status := 200;
            data_body := bytes thumbnail;
            data_headers :=
              [("Content-Type", HttpHeaders.normalize (type thumbnail));
               ("Cache-Control", "no-store")] |},
      snd run)).
Proof.
  intros Hacc Hfail Hfetch run. subst run.
  pose proof (memory_accepted_run env assets o cfg req s _ _ _ Hacc) as Hrun.
  apply MT_run_effects in Hrun.
  destruct Hacc as [[Hid Hne _ _] _ _ _ Hfound].
  destruct Hrun as (Hth & _ & _ & Hcases).
  assert (Hthrow :
    (exists e, fst (MemoryThumbnail.handlerUploadThumbnail env assets o cfg req s)
               = Throw e) /\
    db (outside (snd (MemoryThumbnail.handlerUploadThumbnail env assets o cfg req s)))
    = db (outside s)).
  { destruct Hcases as [(_ & Hdb & e & _ & He)
                       |(urlPath & ok & Hurl & Hok & _ & Hf & _)].
    - eauto.
    - destruct Hfail as [[e He]|Hu]; [congruence|].
      assert (ok = false) as -> by congruence.
      destruct (Hf eq_refl) as [Hdb He]. eauto. }
  destruct Hthrow as [Hthrow Hdb].
  split; [exact Hthrow|]. split; [exact Hdb|].
  split; [rewrite Hth; apply lookup_insert_eq|].
  intros Hprint.
  rewrite handlerGetThumbnail_run, Hfetch.
  destruct videoId as [|c videoId']; [congruence|].
  rewrite Hdb, Hfound, Hth, lookup_insert_eq.
  cbn [mediaType data]. rewrite (value_printable _ Hprint). reflexivity.
Qed.

(** X9 on the sample record, the update of the record store failing. *)
Lemma thumbnail_is_served_after_a_failed_update_witness :
  let svg := ThumbnailSample.file 1000 "image/svg+xml" in
  let run :=
    MemoryThumbnail.handlerUploadThumbnail ThumbnailSample.env
      ThumbnailSample.assets ThumbnailSample.updateFails Sample.cfg
      (ThumbnailSample.request "abc" "token-alice" svg) ThumbnailSample.process in
  (exists e, fst run = Throw e) /\
  db (outside (snd run)) = db (outside ThumbnailSample.process) /\
  MemoryThumbnail.handlerGetThumbnail Sample.cfg (getRequest "abc") (snd run) =
    (Ok {| data_status := 200;
           data_body := bytes svg;
           data_headers := [("Content-Type", "image/svg+xml");
                            ("Cache-Control", "no-store")] |},
     snd run).
Proof.
  destruct (thumbnail_is_served_after_a_failed_update
              ThumbnailSample.env ThumbnailSample.assets ThumbnailSample.updateFails
              Sample.cfg
              (ThumbnailSample.request "abc" "token-alice"
                 (ThumbnailSample.file 1000 "image/svg+xml"))
              ThumbnailSample.process "abc" Sample.video
              (ThumbnailSample.file 1000 "image/svg+xml") (getRequest "abc")
              (sample_memory_accepted ThumbnailSample.updateFails "image/svg+xml"
                 eq_refl ltac:(discriminate))
              (or_intror eq_refl) eq_refl)
    as (He & Hdb & _ & Hget).
  split; [exact He|]. split; [exact Hdb|].
  exact (Hget eq_refl).
Defined.

(** X10.  In the in-memory variant, a request that names a video,
    authenticates and carries a thumbnail is refused with the state, and so
    the stored thumbnails, as the request found them: by [BadRequestError]
    when the file has more than 10 * 2^20 bytes or declares no media type,
    and, for a file that passes these checks and can be read, by
    [NotFoundError] when no record is stored under the video id and by
    [UserForbiddenError] when the record belongs to another user. *)
Theorem memory_thumbnail_refusals
    env assets o cfg req s videoId userId thumbnail :
  Presented env cfg req "thumbnail" videoId userId thumbnail ->
  let run := MemoryThumbnail.handlerUploadThumbnail env assets o cfg req s in
  (10 * 2 ^ 20 < size thumbnail ->
   run = (Throw (BadRequestError
                   "Thumbnail file exceeds the maximum allowed size of 10MB"), s)) /\
  (size thumbnail <= 10 * 2 ^ 20 -> type thumbnail = "" ->
   run = (Throw (BadRequestError "Missing Content-Type for thumbnail"), s)) /\
  (size thumbnail <= 10 * 2 ^ 20 -> type thumbnail <> "" ->
   thumbnail_read_ok o = true ->
   (db (outside s) !! videoId = None ->
    run = (Throw (NotFoundError "Video not found"), s)) /\
   (forall video,
       db (outside s) !! videoId = Some video -> userID video <> userId ->
       run = (Throw (UserForbiddenError "Forbidden access to the video"), s))).
Proof.
  intros Hp run. subst run.
  rewrite (memory_presented_run _ assets o _ _ s _ _ _ Hp).
  split; [|split].
  - intros Hsize.
    destruct (Z.leb_spec (size thumbnail) (10 * 2 ^ 20)); [lia|reflexivity].
  - intros Hsize ->.
    destruct (Z.leb_spec (size thumbnail) (10 * 2 ^ 20)); [|lia]. reflexivity.
  - intros Hsize Hty Hread.
    destruct (Z.leb_spec (size thumbnail) (10 * 2 ^ 20)); [|lia].
    apply String.eqb_neq in Hty. rewrite Hty, Hread. cbn [negb]. split.
    + intros ->. reflexivity.
    + intros video -> Hown. apply String.eqb_neq in Hown. rewrite Hown.
      reflexivity.
Qed.

(** X10 on the sample record: a request of another user. *)
Lemma memory_thumbnail_refusals_witness :
  MemoryThumbnail.handlerUploadThumbnail ThumbnailSample.env ThumbnailSample.assets
      ThumbnailSample.allGood Sample.cfg
      (ThumbnailSample.request "abc" "token-bob"
         (ThumbnailSample.file 1000 "image/png")) ThumbnailSample.process =
    (Throw (UserForbiddenError "Forbidden access to the video"),
     ThumbnailSample.process).
Proof.
  assert (Hsize : size (ThumbnailSample.file 1000 "image/png") <= 10 * 2 ^ 20)
    by (vm_compute; discriminate).
  assert (Hty : type (ThumbnailSample.file 1000 "image/png") <> "")
    by discriminate.
  assert (Hbob : userID Sample.video <> "bob") by discriminate.
  exact (proj2
           (proj2 (proj2
              (memory_thumbnail_refusals
                 ThumbnailSample.env ThumbnailSample.assets ThumbnailSample.allGood
                 Sample.cfg
                 (ThumbnailSample.request "abc" "token-bob"
                    (ThumbnailSample.file 1000 "image/png"))
                 ThumbnailSample.process "abc" "bob"
                 (ThumbnailSample.file 1000 "image/png")
                 (sample_presented "abc" "token-bob" "bob"
                    (ThumbnailSample.file 1000 "image/png")
                    ltac:(discriminate) eq_refl)))
              Hsize Hty eq_refl)
           Sample.video eq_refl Hbob).
Defined.

(** X11.  Whatever the request and the outcomes of its external calls, an
    upload of the in-memory variant leaves the thumbnails of every other
    video as they were, touches neither local files nor the object store,
    makes no other external call than a record update, and changes the
    record store only when it answers with a response. *)
Theorem memory_thumbnail_footprint env assets o cfg req s :
  let run := MemoryThumbnail.handlerUploadThumbnail env assets o cfg req s in
  (forall k, params_videoId req <> Some k ->
             videoThumbnails (snd run) !! k = videoThumbnails s !! k) /\
  tmpfs (outside (snd run)) = tmpfs (outside s) /\
  bucket (outside (snd run)) = bucket (outside s) /\
  (forall ev, In ev (newEvents (outside s) (outside (snd run))) ->
     exists v ok, ev = EvUpdate v ok) /\
  (db (outside (snd run)) <> db (outside s) -> exists resp, fst run = Ok resp).
Proof.
  intros run. subst run.
  destruct (memory_rejected_or_accepted env assets o cfg req s)
    as [[e He]|(videoId & video & thumbnail & Hacc)].
  { rewrite He. cbn [fst snd]. rewrite newEvents_same.
    split; [reflexivity|]. split; [reflexivity|]. split; [reflexivity|].
    split; [intros ev []|]. intros H. congruence. }
  pose proof (memory_accepted_run env assets o cfg req s _ _ _ Hacc) as Hrun.
  apply MT_run_effects in Hrun.
  destruct Hacc as [[Hid _ _ _] _ _ _ _].
  destruct Hrun as (Hth & Hfs & Hb & Hcases).
  split.
  { intros k Hk. rewrite Hth. apply lookup_insert_ne. congruence. }
  split; [exact Hfs|]. split; [exact Hb|].
  destruct Hcases as [(Htr & Hdb & _)|(urlPath & ok & _ & _ & Htr & Hfail & Hsucc)].
  - rewrite (newEvents_app _ _ []) by (rewrite Htr; symmetry; apply app_nil_r).
    split; [intros ev []|]. congruence.
  - rewrite (newEvents_app _ _ _ Htr). split.
    + intros ev [<-|[]]. eauto.
    + destruct ok.
      * destruct (Hsucc eq_refl) as [_ ->]. eauto.
      * destruct (Hfail eq_refl) as [-> _]. congruence.
Qed.

(** X11 on the sample request: the thumbnails of other videos. *)
Lemma memory_thumbnail_footprint_witness :
  let run :=
    MemoryThumbnail.handlerUploadThumbnail ThumbnailSample.env
      ThumbnailSample.assets ThumbnailSample.allGood Sample.cfg
      (ThumbnailSample.request "abc" "token-alice"
         (ThumbnailSample.file 1000 "image/png")) ThumbnailSample.process in
  videoThumbnails (snd run) !! "xyz" =
  videoThumbnails ThumbnailSample.process !! "xyz".
Proof.
  exact (proj1 (memory_thumbnail_footprint
                  ThumbnailSample.env ThumbnailSample.assets
                  ThumbnailSample.allGood Sample.cfg
                  (ThumbnailSample.request "abc" "token-alice"
                     (ThumbnailSample.file 1000 "image/png"))
                  ThumbnailSample.process)
           "xyz" ltac:(discriminate)).
Defined.

(* ===================================================================== *)
(** * Further properties of the upload-video handlers *)
(* ===================================================================== *)

(** X12.  Both upload-video handlers ask for a video id first and for the
    caller's identity second, before they look at the record store: a
    request without a video id, or with an empty one, is answered by
    [BadRequestError]; with a video id, an error raised by
    [getBearerToken] or by [validateJWT] is the outcome of the request.  In
    each case the world is the one the request found, whatever the record
    store holds. *)
Theorem video_upload_needs_id_and_identity (handler : Handler) env o cfg req w :
  In handler handlers ->
  (params_videoId req = None \/ params_videoId req = Some "" ->
   handler env o cfg req w = (Throw (BadRequestError "Invalid video ID"), w)) /\
  (forall videoId e,
      params_videoId req = Some videoId -> videoId <> "" ->
      getBearerToken env (headers req) = Throw e ->
      handler env o cfg req w = (Throw e, w)) /\
  (forall videoId token e,
      params_videoId req = Some videoId -> videoId <> "" ->
      getBearerToken env (headers req) = Ok token ->
      validateJWT env token (jwtSecret cfg) = Throw e ->
      handler env o cfg req w = (Throw e, w)).
Proof.
  intros [<-|[<-|[]]].
  - split; [|split].
    + unfold OrientationPrefixed.handlerUploadVideo.
      intros [-> | ->]; reflexivity.
    + intros videoId e Hid Hne Htok.
      unfold OrientationPrefixed.handlerUploadVideo. rewrite Hid.
      destruct videoId; [congruence|].
      unfold bind at 1. unfold lift at 1. rewrite Htok. reflexivity.
    + intros videoId token e Hid Hne Htok Hjwt.
      unfold OrientationPrefixed.handlerUploadVideo. rewrite Hid.
      destruct videoId; [congruence|].
      unfold bind at 1. unfold lift at 1. rewrite Htok.
      unfold bind at 1. unfold lift at 1. rewrite Hjwt. reflexivity.
  - split; [|split].
    + unfold RandomOpaque.handlerUploadVideo.
      intros [-> | ->]; reflexivity.
    + intros videoId e Hid Hne Htok.
      unfold RandomOpaque.handlerUploadVideo. rewrite Hid.
      destruct videoId; [congruence|].
      unfold bind at 1. unfold lift at 1. rewrite Htok. reflexivity.
    + intros videoId token e Hid Hne Htok Hjwt.
      unfold RandomOpaque.handlerUploadVideo. rewrite Hid.
      destruct videoId; [congruence|].
      unfold bind at 1. unfold lift at 1. rewrite Htok.
      unfold bind at 1. unfold lift at 1. rewrite Hjwt. reflexivity.
Qed.

(** X12 on the sample request with a token that is not accepted. *)
Lemma video_upload_needs_id_and_identity_witness :
  RandomOpaque.handlerUploadVideo Sample.env (Sample.allGood 1280 720) Sample.cfg
      (Sample.request "token-eve" (Sample.file 1000 "video/mp4")) Sample.world =
    (Throw (Rejected "UserNotAuthenticatedError"), Sample.world).
Proof.
  exact (proj2 (proj2 (video_upload_needs_id_and_identity
                         RandomOpaque.handlerUploadVideo Sample.env
                         (Sample.allGood 1280 720) Sample.cfg
                         (Sample.request "token-eve" (Sample.file 1000 "video/mp4"))
                         Sample.world (or_intror (or_introl eq_refl))))
           "abc" "token-eve" (Rejected "UserNotAuthenticatedError")
           eq_refl ltac:(discriminate) eq_refl eq_refl).
Defined.

(** X13.  For an authenticated request with a video id, both upload-video
    handlers answer by [NotFoundError] when the record store holds nothing
    under the id; and for the owner of the record they raise when the body
    cannot be read as a form, and answer by [BadRequestError] when the form
    has no file under [video] (no such field, or a text field).  The world
    is the one the request found. *)
Theorem video_upload_needs_known_video_and_file
    (handler : Handler) env o cfg req w videoId token userId :
  In handler handlers ->
  params_videoId req = Some videoId -> videoId <> "" ->
  getBearerToken env (headers req) = Ok token ->
  validateJWT env token (jwtSecret cfg) = Ok userId ->
  (db w !! videoId = None ->
   handler env o cfg req w = (Throw (NotFoundError "Video not found"), w)) /\
  (forall video,
      db w !! videoId = Some video -> userID video = userId ->
      (body req = None -> exists e, handler env o cfg req w = (Throw e, w)) /\
      (forall form,
          body req = Some form ->
          (forall f, FormData_get form "video" <> Some (FormFile f)) ->
          handler env o cfg req w =
            (Throw (BadRequestError "Video file missing"), w))).
Proof.
  intros Hin Hid Hne Htok Hjwt.
  destruct videoId as [|c videoId']; [congruence|].
  assert (Hfile : forall (A : Type) (form : list (string * FormValue))
                    (k : File -> A) (d : A),
             (forall f, FormData_get form "video" <> Some (FormFile f)) ->
             match FormData_get form "video" with
             | Some (FormFile f) => k f
             | _ => d
             end = d).
  { intros A form k d Hget.
    destruct (FormData_get form "video") as [[s|f]|];
      [reflexivity|exfalso; apply (Hget f); reflexivity|reflexivity]. }
  destruct Hin as [<-|[<-|[]]].
  - split; [|intros video Hfound Hown; split; [|intros form Hbody Hget]];
      intros; unfold OrientationPrefixed.handlerUploadVideo; rewrite Hid;
      unfold bind at 1; unfold lift at 1; rewrite Htok;
      unfold bind at 1; unfold lift at 1; rewrite Hjwt;
      unfold bind at 1; unfold getVideo at 1.
    + match goal with H : db w !! _ = None |- _ => rewrite H end. reflexivity.
    + rewrite Hfound. apply String.eqb_eq in Hown. rewrite Hown. cbn [negb].
      unfold bind at 1. unfold formData.
      match goal with H : body req = None |- _ => rewrite H end.
      eexists. reflexivity.
    + rewrite Hfound. apply String.eqb_eq in Hown. rewrite Hown. cbn [negb].
      unfold bind at 1. unfold formData. rewrite Hbody. unfold ret at 1.
      rewrite (Hfile _ form _ _ Hget). reflexivity.
  - split; [|intros video Hfound Hown; split; [|intros form Hbody Hget]];
      intros; unfold RandomOpaque.handlerUploadVideo; rewrite Hid;
      unfold bind at 1; unfold lift at 1; rewrite Htok;
      unfold bind at 1; unfold lift at 1; rewrite Hjwt;
      unfold bind at 1; unfold getVideo at 1.
    + match goal with H : db w !! _ = None |- _ => rewrite H end. reflexivity.
    + rewrite Hfound. apply String.eqb_eq in Hown. rewrite Hown. cbn [negb].
      unfold bind at 1. unfold formData.
      match goal with H : body req = None |- _ => rewrite H end.
      eexists. reflexivity.
    + rewrite Hfound. apply String.eqb_eq in Hown. rewrite Hown. cbn [negb].
      unfold bind at 1. unfold formData. rewrite Hbody. unfold ret at 1.
      rewrite (Hfile _ form _ _ Hget). reflexivity.
Qed.

(** X13 on the sample record: a thumbnail request sent to the upload-video
    handler has no [video] field. *)
Lemma video_upload_needs_known_video_and_file_witness :
  OrientationPrefixed.handlerUploadVideo Sample.env (Sample.allGood 1280 720)
      Sample.cfg
      (ThumbnailSample.request "abc" "token-alice"
         (ThumbnailSample.file 1000 "image/png")) Sample.world =
    (Throw (BadRequestError "Video file missing"), Sample.world).
Proof.
  assert (Hget : forall f,
             FormData_get
               [("thumbnail", FormFile (ThumbnailSample.file 1000 "image/png"))]
               "video" <> Some (FormFile f)) by (intros f; discriminate).
  exact (proj2 (proj2 (video_upload_needs_known_video_and_file
                         OrientationPrefixed.handlerUploadVideo Sample.env
                         (Sample.allGood 1280 720) Sample.cfg
                         (ThumbnailSample.request "abc" "token-alice"
                            (ThumbnailSample.file 1000 "image/png"))
                         Sample.world "abc" "token-alice" "alice"
                         (or_introl eq_refl) eq_refl ltac:(discriminate)
                         eq_refl eq_refl)
                  Sample.video eq_refl eq_refl)
           [("thumbnail", FormFile (ThumbnailSample.file 1000 "image/png"))]
           eq_refl Hget).
Defined.

(** X14.  Neither upload-video handler takes an upload back.  When a
    request passes every check and every stage up to the upload to the
    object store succeeds but the update of the record store fails, the
    handler raises, the record store is the one the request found, and the
    object store holds the uploaded object under the key of the run, every
    other key being as before; no removal of a local file is attempted. *)
Theorem failed_commit_leaves_the_object_behind
    env o cfg req w videoId video videoFile :
  Validated env cfg req w videoId video videoFile ->
  (op_terminal o = Failed Commit ->
   let run := OrientationPrefixed.handlerUploadVideo env o cfg req w in
   let key := AspectRatio_toString (op_geometry o) +:+ "/" +:+ videoId +:+ ".mp4" in
   (exists e, fst run = Throw e) /\
   db (snd run) = db w /\
   bucket (snd run) !! key = Some (FastStart (Raw (bytes videoFile)), "video/mp4") /\
   (forall k, k <> key -> bucket (snd run) !! k = bucket w !! k) /\
   (forall path ok, ~ In (EvRm path ok) (newEvents w (snd run)))) /\
  (forall ext,
      mediaTypeToExt env "video/mp4" = Ok ext ->
      ro_terminal o = Failed Commit ->
      let run := RandomOpaque.handlerUploadVideo env o cfg req w in
      let key := Base64url.encode (randomBytes o 32) +:+ ext in
      (exists e, fst run = Throw e) /\
      db (snd run) = db w /\
      bucket (snd run) !! key = Some (Raw (bytes videoFile), "video/mp4") /\
      (forall k, k <> key -> bucket (snd run) !! k = bucket w !! k) /\
      (forall path ok, ~ In (EvRm path ok) (newEvents w (snd run)))).
Proof.
  intros Hv. split.
  - intros Ht run key.
    pose proof (OP_handler_validated env o cfg req w _ _ _ Hv) as Hrun.
    apply OP_run_terminal in Hrun. fold run in Hrun.
    destruct Hrun as [Htr Hrest]. rewrite Ht in Htr, Hrest.
    destruct Hrest as (He & Hdb & Hb & _).
    split; [exact He|]. split; [exact Hdb|].
    rewrite Hb. unfold op_bucket. fold (op_key videoId (op_geometry o)).
    change (op_key videoId (op_geometry o)) with key.
    split; [apply lookup_insert_eq|].
    split; [intros k Hk; apply lookup_insert_ne; congruence|].
    intros path ok Hin. rewrite (newEvents_app _ _ _ Htr) in Hin.
    cbn [op_events In] in Hin.
    unfold op_write, op_probe, op_rewrite, op_upload, op_commit in Hin.
    intuition discriminate.
  - intros ext Hext Ht run key.
    pose proof (RO_handler_validated env o cfg req w _ _ _ _ Hv Hext) as Hrun.
    apply RO_run_terminal in Hrun. fold run in Hrun.
    destruct Hrun as (evs & Hevs & Htr & Hrest). rewrite Ht in Hevs, Hrest.
    destruct Hrest as (He & Hdb & Hb & _).
    split; [exact He|]. split; [exact Hdb|].
    rewrite Hb. unfold ro_bucket. change (ro_key o ext) with key.
    split; [apply lookup_insert_eq|].
    split; [intros k Hk; apply lookup_insert_ne; congruence|].
    intros path ok Hin. rewrite (newEvents_app _ _ _ Htr) in Hin.
    cbn [ro_events] in Hevs. injection Hevs as <-. cbn [In] in Hin.
    unfold ro_write, ro_upload, ro_commit in Hin.
    intuition discriminate.
Qed.

(** X14 on the sample request, for the handler that probes. *)
Lemma failed_commit_leaves_the_object_behind_witness :
  let run := OrientationPrefixed.handlerUploadVideo Sample.env
               FailureSample.commitFails Sample.cfg Sample.goodRequest
               Sample.world in
  (exists e, fst run = Throw e) /\
  db (snd run) = db Sample.world /\
  bucket (snd run) !! "landscape/abc.mp4" =
    Some (FastStart (Raw (bytes (Sample.file 1000 "video/mp4"))), "video/mp4").
Proof.
  assert (Ht : op_terminal FailureSample.commitFails = Failed Commit)
    by (vm_compute; reflexivity).
  destruct (proj1 (failed_commit_leaves_the_object_behind
                     Sample.env FailureSample.commitFails Sample.cfg
                     Sample.goodRequest Sample.world "abc" Sample.video
                     (Sample.file 1000 "video/mp4") sample_validated) Ht)
    as (He & Hdb & Hb & _).
  split; [exact He|]. split; [exact Hdb|].
  assert (Hkey : AspectRatio_toString (op_geometry FailureSample.commitFails)
                 +:+ "/" +:+ "abc" +:+ ".mp4" = "landscape/abc.mp4")
    by (vm_compute; reflexivity).
  rewrite Hkey in Hb. exact Hb.
Defined.

(** X15.  The handler that probes can raise after the record has been
    committed.  When a request passes every check and every stage up to the
    update of the record store succeeds, the record store has been updated
    and both removals of the cleanup have been attempted, each with its own
    outcome; the handler answers 200 with the committed record when both
    removals succeed, and raises when either fails, the record store
    staying updated.  The staged file is gone whenever its own removal
    succeeds, also when the other removal fails. *)
Theorem failed_cleanup_comes_after_the_commit
    env o cfg req w videoId video videoFile :
  Validated env cfg req w videoId video videoFile ->
  op_terminal o = Committed ->
  let run := OrientationPrefixed.handlerUploadVideo env o cfg req w in
  let staged := OrientationPrefixed.tempFilePath videoId in
  let record :=
    set_videoURL video
      (objectURL cfg
         (AspectRatio_toString (op_geometry o) +:+ "/" +:+ videoId +:+ ".mp4")) in
  db (snd run) = updateRow record (db w) /\
  In (EvRm staged (rm_staged_ok o)) (newEvents w (snd run)) /\
  In (EvRm (staged +:+ ".processed.mp4") (rm_processed_ok o))
     (newEvents w (snd run)) /\
  (rm_staged_ok o = true -> tmpfs (snd run) !! staged = None) /\
  (rm_staged_ok o = true -> rm_processed_ok o = true ->
   fst run = Ok (respondWithJSON 200 record)) /\
  (rm_staged_ok o = false \/ rm_processed_ok o = false ->
   exists e, fst run = Throw e).
Proof.
  intros Hv Ht run staged record.
  pose proof (OP_handler_validated env o cfg req w _ _ _ Hv) as Hrun.
  apply OP_run_terminal in Hrun. fold run in Hrun.
  destruct Hrun as [Htr Hrest]. rewrite Ht in Htr, Hrest.
  destruct Hrest as (He & Hdb & _ & Hfs).
  rewrite (newEvents_app _ _ _ Htr).
  split; [exact Hdb|].
  split; [cbn; auto 10|]. split; [cbn; auto 10|].
  split; [|split].
  - intros Hok. rewrite Hfs, Hok. unfold removeIf.
    destruct (rm_processed_ok o).
    + apply lookup_delete_None. right. apply lookup_delete_eq.
    + apply lookup_delete_eq.
  - intros H1 H2. rewrite He, H1, H2. reflexivity.
  - intros [H|H]; rewrite He, H; unfold cleanupResult;
      destruct (rm_staged_ok o); eauto.
Qed.

(** X15 on the sample request, the second removal failing. *)
Lemma failed_cleanup_comes_after_the_commit_witness :
  let run := OrientationPrefixed.handlerUploadVideo Sample.env
               FailureSample.cleanupFails Sample.cfg Sample.goodRequest
               Sample.world in
  (exists e, fst run = Throw e) /\
  db (snd run) =
    updateRow
      (set_videoURL Sample.video (objectURL Sample.cfg "landscape/abc.mp4"))
      (db Sample.world) /\
  tmpfs (snd run) !! "/tmp/abc.mp4" = None.
Proof.
  assert (Ht : op_terminal FailureSample.cleanupFails = Committed)
    by (vm_compute; reflexivity).
  destruct (failed_cleanup_comes_after_the_commit
              Sample.env FailureSample.cleanupFails Sample.cfg
              Sample.goodRequest Sample.world "abc" Sample.video
              (Sample.file 1000 "video/mp4") sample_validated Ht)
    as (Hdb & _ & _ & Hfs & _ & He).
  split; [exact (He (or_intror eq_refl))|].
  split; [exact Hdb|exact (Hfs eq_refl)].
Defined.

(** X16.  When either upload-video handler answers with a response, the
    status is 200 and the answered record is the record fetched under the
    request's video id with a playback URL; that URL is the public URL of a
    key under which the object store now holds the request's payload with
    content type [video/mp4]; and the record store has been updated with
    the answered record, which is the one stored under the video id when
    the fetched record carries that id. *)
Theorem answered_record_is_stored (handler : Handler) env o cfg req w resp :
  In handler handlers ->
  let run := handler env o cfg req w in
  fst run = Ok resp ->
  status resp = 200 /\
  exists videoId fetched key content,
    params_videoId req = Some videoId /\
    db w !! videoId = Some fetched /\
    payload resp = set_videoURL fetched (objectURL cfg key) /\
    payloadOf req content /\
    bucket (snd run) !! key = Some (content, "video/mp4") /\
    db (snd run) = updateRow (payload resp) (db w) /\
    (id fetched = videoId -> db (snd run) !! videoId = Some (payload resp)).
Proof.
  intros Hin run Hok. subst run.
  destruct (handler_summary handler env o cfg req w Hin)
    as [e He|videoId video videoFile Hv Hrun
       |videoId video videoFile ext Hv Hext Hrun].
  - rewrite He in Hok. discriminate Hok.
  - apply OP_run_terminal in Hrun. destruct Hrun as [_ Hrest].
    destruct (op_terminal o) as [|stage].
    2:{ destruct Hrest as ((e & He) & _). rewrite He in Hok. discriminate Hok. }
    destruct Hrest as (He & Hdb & Hb & _).
    rewrite He in Hok.
    destruct (cleanupResult_Ok _ _ _ _ Hok) as [H1 H2].
    rewrite H1, H2 in Hok. cbn [cleanupResult] in Hok. injection Hok as <-.
    split; [reflexivity|].
    exists videoId, video, (op_key videoId (op_geometry o)),
      (FastStart (Raw (bytes videoFile))).
    pose proof Hv as [Hid _ _ Hfound (form & Hbody & Hget) _ _].
    split; [exact Hid|]. split; [exact Hfound|]. split; [reflexivity|].
    split; [exists form, videoFile; auto|].
    split; [rewrite Hb; apply lookup_insert_eq|].
    split; [exact Hdb|].
    intros Hsame. rewrite Hdb. cbn [payload respondWithJSON].
    rewrite <- Hsame at 1.
    change (id video) with (id (op_record cfg videoId video (op_geometry o))).
    apply updateRow_at_id.
    change (id (op_record cfg videoId video (op_geometry o))) with (id video).
    rewrite Hsame, Hfound. eauto.
  - apply RO_run_terminal in Hrun. destruct Hrun as (evs & _ & _ & Hrest).
    destruct (ro_terminal o) as [|stage].
    2:{ destruct Hrest as ((e & He) & _). rewrite He in Hok. discriminate Hok. }
    destruct Hrest as (He & Hdb & Hb & _).
    rewrite He in Hok.
    destruct (rm_staged_ok o); [|discriminate Hok]. injection Hok as <-.
    split; [reflexivity|].
    exists videoId, video, (ro_key o ext), (Raw (bytes videoFile)).
    pose proof Hv as [Hid _ _ Hfound (form & Hbody & Hget) _ _].
    split; [exact Hid|]. split; [exact Hfound|]. split; [reflexivity|].
    split; [exists form, videoFile; auto|].
    split; [rewrite Hb; apply lookup_insert_eq|].
    split; [exact Hdb|].
    intros Hsame. rewrite Hdb. cbn [payload respondWithJSON].
    rewrite <- Hsame at 1.
    change (id video) with (id (ro_record o cfg video ext)).
    apply updateRow_at_id.
    change (id (ro_record o cfg video ext)) with (id video).
    rewrite Hsame, Hfound. eauto.
Qed.

(** X16 on the sample request, for the handler of [src/api/videos.ts]. *)
Lemma answered_record_is_stored_witness :
  let run := RandomOpaque.handlerUploadVideo Sample.env (Sample.allGood 1280 720)
               Sample.cfg Sample.goodRequest Sample.world in
  exists resp,
    fst run = Ok resp /\
    status resp = 200 /\
    exists videoId fetched key content,
      params_videoId Sample.goodRequest = Some videoId /\
      db Sample.world !! videoId = Some fetched /\
      payload resp = set_videoURL fetched (objectURL Sample.cfg key) /\
      payloadOf Sample.goodRequest content /\
      bucket (snd run) !! key = Some (content, "video/mp4") /\
      db (snd run) = updateRow (payload resp) (db Sample.world) /\
      (id fetched = videoId -> db (snd run) !! videoId = Some (payload resp)).
Proof.
  cbv zeta.
  destruct (fst (RandomOpaque.handlerUploadVideo Sample.env (Sample.allGood 1280 720)
                   Sample.cfg Sample.goodRequest Sample.world)) as [resp|e] eqn:Hok.
  - exists resp. split; [reflexivity|].
    exact (answered_record_is_stored
             RandomOpaque.handlerUploadVideo Sample.env (Sample.allGood 1280 720)
             Sample.cfg Sample.goodRequest Sample.world resp
             (or_intror (or_introl eq_refl)) Hok).
  - vm_compute in Hok. discriminate Hok.
Defined.

Lemma AspectRatio_toString_slash (a1 a2 : AspectRatio) (x1 x2 : string) :
  AspectRatio_toString a1 +:+ "/" +:+ x1 = AspectRatio_toString a2 +:+ "/" +:+ x2 ->
  a1 = a2 /\ x1 = x2.
Proof.
  destruct a1, a2; cbn; intros H; try discriminate H;
    (split; [reflexivity|]); injection H as H; exact H.
Qed.

(** X17.  The keys of the handler that probes do not collide: two keys
    [<geometry>/<videoId>.mp4] are equal only for the same geometry and
    the same video id, whatever characters the ids contain. *)
Theorem orientation_key_is_injective (a1 a2 : AspectRatio) (videoId1 videoId2 : string) :
  AspectRatio_toString a1 +:+ "/" +:+ videoId1 +:+ ".mp4" =
  AspectRatio_toString a2 +:+ "/" +:+ videoId2 +:+ ".mp4" ->
  a1 = a2 /\ videoId1 = videoId2.
Proof.
  intros H. apply AspectRatio_toString_slash in H. destruct H as [Ha Hx].
  split; [exact Ha|]. apply (append_cancel_r _ _ ".mp4"). exact Hx.
Qed.

(** X17 on two equal keys. *)
Lemma orientation_key_is_injective_witness :
  AspectRatio_toString portrait +:+ "/" +:+ "abc" +:+ ".mp4" = "portrait/abc.mp4" /\
  portrait = portrait /\ "abc" = "abc".
Proof.
  split; [reflexivity|].
  exact (orientation_key_is_injective portrait portrait "abc" "abc" eq_refl).
Defined.

(* ===================================================================== *)
(** * The staged path and the output path, computed *)
(* ===================================================================== *)

Lemma split_without (sep : ascii) (s : string) :
  JsString.includes sep s = false -> JsString.split sep s = [s].
Proof.
  induction s as [|c s IH]; [reflexivity|].
  cbn [JsString.includes JsString.split]. intros H.
  apply orb_false_iff in H as [Hc Hs].
  rewrite Hc, (IH Hs). reflexivity.
Qed.

Lemma split_at_first (sep : ascii) (a b : string) :
  JsString.includes sep a = false ->
  JsString.split sep (a +:+ String sep b) = a :: JsString.split sep b.
Proof.
  induction a as [|c a IH].
  - intros _. change ("" +:+ String sep b) with (String sep b).
    cbn [JsString.split]. rewrite Ascii.eqb_refl. reflexivity.
  - cbn [JsString.includes]. intros H. apply orb_false_iff in H as [Hc Ha].
    change (String c a +:+ String sep b) with (String c (a +:+ String sep b)).
    cbn [JsString.split]. rewrite Hc, (IH Ha). reflexivity.
Qed.

Lemma outputFilePath_stem (stem rest : string) :
  JsString.includes "." stem = false ->
  OrientationPrefixed.outputFilePath (stem +:+ String "." rest) =
  stem +:+ ".processed.mp4".
Proof.
  intros H. unfold OrientationPrefixed.outputFilePath.
  rewrite (split_at_first "." stem rest H). reflexivity.
Qed.

Lemma outputFilePath_plain (p : string) :
  JsString.includes "." p = false ->
  OrientationPrefixed.outputFilePath p = p +:+ ".processed.mp4".
Proof.
  intros H. unfold OrientationPrefixed.outputFilePath.
  rewrite (split_without "." p H). reflexivity.
Qed.

Lemma string_append_assoc (a b c : string) : (a +:+ b) +:+ c = a +:+ (b +:+ c).
Proof.
  induction a as [|x a IH]; [reflexivity|].
  change (String x (a +:+ b) +:+ c = String x (a +:+ (b +:+ c))).
  change (String x ((a +:+ b) +:+ c) = String x (a +:+ (b +:+ c))).
  rewrite IH. reflexivity.
Qed.

(** X18.  The output path of the rewriter keeps the input path up to its
    first dot only, wherever that dot is: for an input [stem.rest] whose
    stem has no dot it is [stem.processed.mp4], so inputs that agree up to
    their first dot share one output path; for an input without a dot the
    suffix is appended.  The output path of an output path is that path
    itself. *)
Theorem output_path_cuts_at_the_first_dot :
  (forall stem rest,
      JsString.includes "." stem = false ->
      OrientationPrefixed.outputFilePath (stem +:+ "." +:+ rest) =
      stem +:+ ".processed.mp4") /\
  (forall p,
      JsString.includes "." p = false ->
      OrientationPrefixed.outputFilePath p = p +:+ ".processed.mp4") /\
  (forall p,
      OrientationPrefixed.outputFilePath (OrientationPrefixed.outputFilePath p) =
      OrientationPrefixed.outputFilePath p).
Proof.
  split; [|split].
  - intros stem rest H. apply outputFilePath_stem. exact H.
  - exact outputFilePath_plain.
  - intros p. unfold OrientationPrefixed.outputFilePath at 2 3.
    pose proof (split_head_excludes "." p) as Hkey.
    destruct (JsString.split "." p) as [|key tl]; [destruct Hkey|].
    apply (outputFilePath_stem key "processed.mp4" Hkey).
Qed.

(** X18 on two inputs that differ after their first dot. *)
Lemma output_path_cuts_at_the_first_dot_witness :
  OrientationPrefixed.outputFilePath ("/tmp/a" +:+ "." +:+ "b.mp4") =
    "/tmp/a.processed.mp4" /\
  OrientationPrefixed.outputFilePath ("/tmp/a" +:+ "." +:+ "c.mp4") =
    "/tmp/a.processed.mp4".
Proof.
  split.
  - exact (proj1 output_path_cuts_at_the_first_dot "/tmp/a" "b.mp4" eq_refl).
  - exact (proj1 output_path_cuts_at_the_first_dot "/tmp/a" "c.mp4" eq_refl).
Defined.

Lemma endsWith_includes (c : ascii) (s : string) :
  JsString.endsWith c s = true -> JsString.includes c s = true.
Proof.
  induction s as [|d s IH]; [discriminate|].
  cbn [JsString.endsWith JsString.includes]. destruct s as [|e s'].
  - intros ->. reflexivity.
  - intros H. rewrite (IH H). apply orb_true_r.
Qed.

(** The join of [/tmp] and a file name without a slash. *)
Lemma join_tmp (name : string) :
  JsString.includes "/" name = false ->
  (3 <= String.length name)%nat ->
  Path.join ["/tmp"; name] = "/tmp/" +:+ name.
Proof.
  intros Hslash Hlen.
  assert (Hshort : forall short : string,
             (String.length short < 3)%nat -> String.eqb name short = false).
  { intros short Hs. apply String.eqb_neq. intros ->. lia. }
  assert (H0 : String.eqb name "" = false) by (apply Hshort; cbn; lia).
  assert (H1 : String.eqb name "." = false) by (apply Hshort; cbn; lia).
  assert (H2 : String.eqb name ".." = false) by (apply Hshort; cbn; lia).
  unfold Path.join. cbn [List.filter].
  change (String.eqb "/tmp" "") with false. rewrite H0. cbn [negb].
  change (JsString.join "/" ["/tmp"; name]) with ("/tmp/" +:+ name).
  unfold Path.normalize.
  change (String.eqb ("/tmp/" +:+ name) "") with false.
  change (JsString.startsWith "/" ("/tmp/" +:+ name)) with true. cbn [negb].
  assert (Hend : JsString.endsWith "/" ("/tmp/" +:+ name) = false).
  { rewrite endsWith_append by (intros ->; discriminate H0).
    destruct (JsString.endsWith "/" name) eqn:E; [|reflexivity].
    apply endsWith_includes in E. congruence. }
  rewrite Hend.
  assert (Hsplit : JsString.split "/" ("/tmp/" +:+ name) = [""; "tmp"; name]).
  { change ("/tmp/" +:+ name)
      with (String "/" (String "t" (String "m" (String "p" (String "/" name))))).
    cbn [JsString.split]. rewrite (split_without "/" name Hslash). reflexivity. }
  unfold Path.normalizeString. rewrite Hsplit.
  cbn [fold_left]. unfold Path.pushSegment at 3. cbn [String.eqb].
  unfold Path.pushSegment at 2.
  change (String.eqb "tmp" "") with false.
  change (String.eqb "tmp" ".") with false.
  change (String.eqb "tmp" "..") with false.
  unfold Path.pushSegment. rewrite H0, H1, H2.
  cbn [rev app JsString.join].
  change (String.eqb ("tmp" +:+ "/" +:+ name) "") with false.
  reflexivity.
Qed.

(** X19.  For a video id without a slash the staged path is
    [/tmp/<videoId>.mp4], in both handlers, so distinct such ids are staged
    at distinct paths.  The rewriter then writes to
    [/tmp/<videoId>.processed.mp4] when the id has no dot, and to
    [/tmp/<stem>.processed.mp4] when the id is [stem.rest] with a stem
    without dots: the rewritten files of two ids with the same stem are one
    file. *)
Theorem staged_path_of_a_plain_id (videoId : string) :
  JsString.includes "/" videoId = false ->
  OrientationPrefixed.tempFilePath videoId = "/tmp/" +:+ videoId +:+ ".mp4" /\
  RandomOpaque.tempFilePath videoId = "/tmp/" +:+ videoId +:+ ".mp4" /\
  (JsString.includes "." videoId = false ->
   OrientationPrefixed.outputFilePath (OrientationPrefixed.tempFilePath videoId) =
   "/tmp/" +:+ videoId +:+ ".processed.mp4") /\
  (forall stem rest,
      videoId = stem +:+ "." +:+ rest ->
      JsString.includes "." stem = false ->
      OrientationPrefixed.outputFilePath (OrientationPrefixed.tempFilePath videoId) =
      "/tmp/" +:+ stem +:+ ".processed.mp4").
Proof.
  intros Hslash.
  assert (Hjoin : Path.join ["/tmp"; videoId +:+ ".mp4"] =
                  "/tmp/" +:+ videoId +:+ ".mp4").
  { apply join_tmp.
    - rewrite includes_append, Hslash. reflexivity.
    - rewrite string_length_append. cbn [String.length]. lia. }
  unfold OrientationPrefixed.tempFilePath, RandomOpaque.tempFilePath.
  rewrite Hjoin.
  split; [reflexivity|]. split; [reflexivity|]. split.
  - intros Hdot.
    rewrite <- (string_append_assoc "/tmp/" videoId ".mp4").
    rewrite <- (string_append_assoc "/tmp/" videoId ".processed.mp4").
    apply (outputFilePath_stem ("/tmp/" +:+ videoId) "mp4").
    rewrite includes_append, Hdot. reflexivity.
  - intros stem rest -> Hdot.
    rewrite <- (string_append_assoc "/tmp/" stem ".processed.mp4").
    rewrite <- (string_append_assoc "/tmp/" (stem +:+ "." +:+ rest) ".mp4").
    rewrite <- (string_append_assoc "/tmp/" stem ("." +:+ rest)).
    rewrite (string_append_assoc ("/tmp/" +:+ stem) ("." +:+ rest) ".mp4").
    apply (outputFilePath_stem ("/tmp/" +:+ stem) (rest +:+ ".mp4")).
    rewrite includes_append, Hdot. reflexivity.
Qed.

(** X19 on the ids [a.b] and [a.c]: one rewritten file for two videos. *)
Lemma staged_path_of_a_plain_id_witness :
  OrientationPrefixed.tempFilePath "a.b" = "/tmp/a.b.mp4" /\
  OrientationPrefixed.tempFilePath "a.c" = "/tmp/a.c.mp4" /\
  OrientationPrefixed.outputFilePath (OrientationPrefixed.tempFilePath "a.b") =
  OrientationPrefixed.outputFilePath (OrientationPrefixed.tempFilePath "a.c").
Proof.
  split; [exact (proj1 (staged_path_of_a_plain_id "a.b" eq_refl))|].
  split; [exact (proj1 (staged_path_of_a_plain_id "a.c" eq_refl))|].
  exact (eq_trans
           (proj2 (proj2 (proj2 (staged_path_of_a_plain_id "a.b" eq_refl)))
              "a" "b" eq_refl eq_refl)
           (eq_sym
              (proj2 (proj2 (proj2 (staged_path_of_a_plain_id "a.c" eq_refl)))
                 "a" "c" eq_refl eq_refl))).
Defined.

(* ===================================================================== *)
(** * Failures of the external tools, and the geometry of rotated videos *)
(* ===================================================================== *)

(** X20.  A failure of an external tool stops the ingestion of the handler
    that probes, and the handler raises the error of the failing function.
    After the upload has been staged: when the probe exits with a status
    other than 0, the error is [ffprobe error: ] followed by what the probe
    wrote to its standard error, whatever it wrote to its standard output;
    when it exits with 0 and reports no stream, the error is
    [No video streams found]; in both cases the rewriter is not started.
    When the probe succeeds and the rewriter exits with a status other than
    0, the error is [FFmpeg error: ] followed by its standard error.  In
    all three cases nothing is uploaded and the record store is the one the
    request found. *)
Theorem tool_failure_stops_the_ingestion
    env o cfg req w videoId video videoFile :
  Validated env cfg req w videoId video videoFile ->
  write_ok o = true ->
  let run := OrientationPrefixed.handlerUploadVideo env o cfg req w in
  let staged := OrientationPrefixed.tempFilePath videoId in
  let write := EvWrite staged true in
  let probe := EvSpawn (OrientationPrefixed.ffprobe_argv staged) (ffprobe_exited o) in
  let rewriter :=
    EvSpawn (OrientationPrefixed.ffmpeg_argv staged
               (OrientationPrefixed.outputFilePath staged)) (ffmpeg_exited o) in
  (ffprobe_exited o <> 0 ->
   fst run = Throw (Error ("ffprobe error: " +:+ ffprobe_stderr o)) /\
   newEvents w (snd run) = [write; probe] /\
   bucket (snd run) = bucket w /\ db (snd run) = db w) /\
  (forall output,
      ffprobe_exited o = 0 ->
      ffprobe_stdout o = Some output ->
      streams output = None \/ streams output = Some [] ->
      fst run = Throw (Error "No video streams found") /\
      newEvents w (snd run) = [write; probe] /\
      bucket (snd run) = bucket w /\ db (snd run) = db w) /\
  (forall output first rest,
      ffprobe_exited o = 0 ->
      ffprobe_stdout o = Some output ->
      streams output = Some (first :: rest) ->
      ffmpeg_exited o <> 0 ->
      fst run = Throw (Error ("FFmpeg error: " +:+ ffmpeg_stderr o)) /\
      newEvents w (snd run) = [write; probe; rewriter] /\
      bucket (snd run) = bucket w /\ db (snd run) = db w).
Proof.
  intros Hv Hw run staged write probe rewriter.
  pose proof (OP_handler_validated env o cfg req w _ _ _ Hv) as Hrun.
  fold run in Hrun. clearbody run.
  split; [|split].
  - intros Hx.
    assert (Hp : probeResult o = Throw (Error ("ffprobe error: " +:+ ffprobe_stderr o))).
    { unfold probeResult. apply Z.eqb_neq in Hx. rewrite Hx. reflexivity. }
    destruct Hrun as [Hw'|e Hw' Hp'|a Hw' Hp' Hf|a Hw' Hp' Hf Hs
                     |a Hw' Hp' Hf Hs Hu|a Hw' Hp' Hf Hs Hu]; try congruence.
    assert (e = Error ("ffprobe error: " +:+ ffprobe_stderr o)) as -> by congruence.
    cbn [fst snd db bucket mkWorld].
    split; [reflexivity|]. split; [apply newEvents_app; reflexivity|].
    split; reflexivity.
  - intros output Hx Hout Hstreams.
    assert (Hp : probeResult o = Throw (Error "No video streams found")).
    { unfold probeResult. rewrite Hx, Hout. cbn [Z.eqb negb].
      destruct Hstreams as [-> | ->]; reflexivity. }
    destruct Hrun as [Hw'|e Hw' Hp'|a Hw' Hp' Hf|a Hw' Hp' Hf Hs
                     |a Hw' Hp' Hf Hs Hu|a Hw' Hp' Hf Hs Hu]; try congruence.
    assert (e = Error "No video streams found") as -> by congruence.
    cbn [fst snd db bucket mkWorld].
    split; [reflexivity|]. split; [apply newEvents_app; reflexivity|].
    split; reflexivity.
  - intros output first rest Hx Hout Hstreams Hf'.
    assert (Hp : probeResult o =
                 Ok (OrientationPrefixed.aspectRatio (width first) (height first))).
    { unfold probeResult. rewrite Hx, Hout, Hstreams. reflexivity. }
    destruct Hrun as [Hw'|e Hw' Hp'|a Hw' Hp' Hf|a Hw' Hp' Hf Hs
                     |a Hw' Hp' Hf Hs Hu|a Hw' Hp' Hf Hs Hu]; try congruence.
    cbn [fst snd db bucket mkWorld].
    split; [reflexivity|]. split; [apply newEvents_app; reflexivity|].
    split; reflexivity.
Qed.

(** X20 on the sample request, the probe exiting with status 1. *)
Lemma tool_failure_stops_the_ingestion_witness :
  let run := OrientationPrefixed.handlerUploadVideo Sample.env Sample.probeFails
               Sample.cfg Sample.goodRequest Sample.world in
  fst run = Throw (Error "ffprobe error: moov atom not found") /\
  bucket (snd run) = bucket Sample.world /\ db (snd run) = db Sample.world.
Proof.
  assert (Hx : ffprobe_exited Sample.probeFails <> 0) by discriminate.
  destruct (proj1 (tool_failure_stops_the_ingestion
                     Sample.env Sample.probeFails Sample.cfg Sample.goodRequest
                     Sample.world "abc" Sample.video (Sample.file 1000 "video/mp4")
                     sample_validated eq_refl) Hx)
    as (He & _ & Hb & Hdb).
  split; [exact He|]. split; [exact Hb|exact Hdb].
Defined.

Lemma near_sixteenNinths_bound (w h : Z) :
  1 <= w < 2 ^ 31 -> 1 <= h < 2 ^ 31 ->
  near (JsNumber.div (JsNumber.ofZ w) (JsNumber.ofZ h)) sixteenNinths = true ->
  10 * Z.abs (9 * w - 16 * h) <= 9 * h.
Proof.
  intros Hw Hh Hnear.
  destruct (Z.eq_dec (10 * Z.abs (9 * w - 16 * h)) (9 * h)) as [Heq|Hne]; [lia|].
  rewrite (near_sixteenNinths_exact w h Hw Hh Hne) in Hnear.
  apply Z.ltb_lt in Hnear. lia.
Qed.

(** X21.  A video the handler classifies as [landscape] is classified as
    [portrait] when its width and height are exchanged, for integer sizes
    from 1 to 2^31 - 1.  The converse does not hold: 1000 x 2000 is
    [portrait], whereas 2000 x 1000 is [other]. *)
Theorem rotated_landscape_is_portrait :
  (forall w h : Z,
      1 <= w < 2 ^ 31 -> 1 <= h < 2 ^ 31 ->
      OrientationPrefixed.aspectRatio (JsNumber.ofZ w) (JsNumber.ofZ h) = landscape ->
      OrientationPrefixed.aspectRatio (JsNumber.ofZ h) (JsNumber.ofZ w) = portrait) /\
  OrientationPrefixed.aspectRatio (JsNumber.ofZ 1000) (JsNumber.ofZ 2000) = portrait /\
  OrientationPrefixed.aspectRatio (JsNumber.ofZ 2000) (JsNumber.ofZ 1000) = other.
Proof.
  split; [|split; vm_compute; reflexivity].
  intros w h Hw Hh Hland.
  assert (Hnear : near (JsNumber.div (JsNumber.ofZ w) (JsNumber.ofZ h))
                    sixteenNinths = true).
  { rewrite aspectRatio_near in Hland.
    destruct (near (JsNumber.div (JsNumber.ofZ w) (JsNumber.ofZ h)) sixteenNinths);
      [reflexivity|].
    destruct (near (JsNumber.div (JsNumber.ofZ w) (JsNumber.ofZ h)) nineSixteenths);
      discriminate Hland. }
  apply near_sixteenNinths_bound in Hnear; [|assumption|assumption].
  rewrite aspectRatio_near.
  rewrite (near_sixteenNinths_exact h w Hh Hw) by lia.
  rewrite (near_nineSixteenths_exact h w Hh Hw) by lia.
  destruct (Z.ltb_spec (10 * Z.abs (9 * h - 16 * w)) (9 * w)) as [H1|H1]; [lia|].
  destruct (Z.ltb_spec (10 * Z.abs (16 * h - 9 * w)) (16 * w)) as [H2|H2]; [|lia].
  reflexivity.
Qed.

(** X21 on 1280 x 720. *)
Lemma rotated_landscape_is_portrait_witness :
  OrientationPrefixed.aspectRatio (JsNumber.ofZ 1280) (JsNumber.ofZ 720) = landscape /\
  OrientationPrefixed.aspectRatio (JsNumber.ofZ 720) (JsNumber.ofZ 1280) = portrait.
Proof.
  assert (Hland : OrientationPrefixed.aspectRatio (JsNumber.ofZ 1280)
                    (JsNumber.ofZ 720) = landscape) by (vm_compute; reflexivity).
  split; [exact Hland|].
  exact (proj1 rotated_landscape_is_portrait 1280 720
           ltac:(lia) ltac:(lia) Hland).
Defined.

(** X22.  A square video, of any integer side from 1 to 2^31 - 1, is
    classified as [other]. *)
Theorem square_video_is_other (n : Z) :
  1 <= n < 2 ^ 31 ->
  OrientationPrefixed.aspectRatio (JsNumber.ofZ n) (JsNumber.ofZ n) = other.
Proof.
  intros Hn. rewrite aspectRatio_near.
  rewrite (near_sixteenNinths_exact n n Hn Hn) by lia.
  rewrite (near_nineSixteenths_exact n n Hn Hn) by lia.
  destruct (Z.ltb_spec (10 * Z.abs (9 * n - 16 * n)) (9 * n)) as [H1|H1]; [lia|].
  destruct (Z.ltb_spec (10 * Z.abs (16 * n - 9 * n)) (16 * n)) as [H2|H2]; [lia|].
  reflexivity.
Qed.

(** X22 on 1080 x 1080. *)
Lemma square_video_is_other_witness :
  OrientationPrefixed.aspectRatio (JsNumber.ofZ 1080) (JsNumber.ofZ 1080) = other.
Proof.
  exact (square_video_is_other 1080 ltac:(lia)).
Defined.

(* ===================================================================== *)
(** * The characters of a random key *)
(* ===================================================================== *)

Lemma get_includes (i : nat) (s : string) (c : ascii) :
  String.get i s = Some c -> JsString.includes c s = true.
Proof.
  revert i. induction s as [|d s IH]; intros i H; [discriminate H|].
  cbn [JsString.includes]. destruct i as [|i]; cbn [String.get] in H.
  - injection H as ->. rewrite Ascii.eqb_refl. reflexivity.
  - rewrite (IH i H). apply orb_true_r.
Qed.

Lemma digit_in_alphabet (n : N) :
  JsString.includes (Base64url.digit n) Base64url.alphabet = true.
Proof.
  unfold Base64url.digit.
  destruct (String.get (N.to_nat n) Base64url.alphabet) as [c|] eqn:E.
  - exact (get_includes _ _ _ E).
  - reflexivity.
Qed.

Lemma includes_cons_digit (c : ascii) (n : N) (rest : string) :
  JsString.includes c (String (Base64url.digit n) rest) = true ->
  JsString.includes c Base64url.alphabet = true \/ JsString.includes c rest = true.
Proof.
  cbn [JsString.includes]. intros H. apply orb_true_iff in H as [H|H]; [left|right; exact H].
  apply Ascii.eqb_eq in H. subst c. apply digit_in_alphabet.
Qed.

Lemma encodeN_in_alphabet (n : nat) (bs : list N) (c : ascii) :
  (length bs <= n)%nat ->
  JsString.includes c (Base64url.encodeN bs) = true ->
  JsString.includes c Base64url.alphabet = true.
Proof.
  revert bs. induction n as [|n IH]; intros bs Hlen H.
  - destruct bs; [discriminate H|cbn [length] in Hlen; lia].
  - destruct bs as [|a [|b [|d rest]]]; cbn [Base64url.encodeN] in H.
    + discriminate H.
    + repeat (apply includes_cons_digit in H as [H|H]; [exact H|]).
      discriminate H.
    + repeat (apply includes_cons_digit in H as [H|H]; [exact H|]).
      discriminate H.
    + repeat (apply includes_cons_digit in H as [H|H]; [exact H|]).
      apply (IH rest); [cbn [length] in Hlen; lia|exact H].
Qed.

(** X23.  The random part of a key of the handler of [src/api/videos.ts],
    the base64url text of 32 random bytes, has 43 characters, all of them
    letters, digits, [-] or [_], whatever bytes are drawn; so it contains
    no slash, no dot, no [+] and no padding [=]. *)
Theorem random_key_is_url_safe (o : Outcomes) :
  let name := Base64url.encode (randomBytes o 32) in
  String.length name = 43%nat /\
  (forall c, JsString.includes c name = true ->
             JsString.includes c Base64url.alphabet = true) /\
  JsString.includes "/" name = false /\
  JsString.includes "." name = false /\
  JsString.includes "+" name = false /\
  JsString.includes "=" name = false.
Proof.
  intros name.
  assert (Hin : forall c, JsString.includes c name = true ->
                          JsString.includes c Base64url.alphabet = true).
  { intros c H. unfold name, Base64url.encode in H.
    exact (encodeN_in_alphabet _ _ _ (le_n _) H). }
  assert (Hout : forall c, JsString.includes c Base64url.alphabet = false ->
                           JsString.includes c name = false).
  { intros c Hc. destruct (JsString.includes c name) eqn:E; [|reflexivity].
    rewrite (Hin c E) in Hc. discriminate Hc. }
  split; [reflexivity|]. split; [exact Hin|].
  repeat split; apply Hout; reflexivity.
Qed.

(** X23 on the sample outcomes, whose key starts with [A]. *)
Lemma random_key_is_url_safe_witness :
  JsString.includes "A"
    (Base64url.encode (randomBytes (Sample.allGood 1280 720) 32)) = true /\
  JsString.includes "A" Base64url.alphabet = true.
Proof.
  assert (H : JsString.includes "A"
                (Base64url.encode (randomBytes (Sample.allGood 1280 720) 32)) = true)
    by (vm_compute; reflexivity).
  split; [exact H|].
  exact (proj1 (proj2 (random_key_is_url_safe (Sample.allGood 1280 720))) "A"%char H).
Defined.
